(** * Chandra.Time: the XTime conversion engine and its axTime3 front end

    A shallow embedding of [Chandra/XTime.h], [Chandra/XTime.cc] and
    [Chandra/Time/axTime3.cc].

    - C [double] is IEEE binary64, modelled by Rocq's primitive [float];
      every arithmetic operation of the source is the corresponding
      correctly rounded primitive operation, in the order the C expression
      evaluates it.
    - C [long] and [int] are modelled by [Z].  Signed overflow is undefined
      in C and is not represented; the conversions the source performs
      ([double] to [long] or [int], [long] to [int]) are written out.
    - Process-wide statics ([NUMLEAPSECS], [LEAPSMJD], ...) form the record
      [Globals], threaded explicitly.  What the code reads from outside
      (wall clock, the tai-utc.dat files) is the record [Env].
    - Memory the source reads without having written it is an explicit
      input, the record [Indet]. *)

From Stdlib Require Import ZArith List String Ascii Bool Lia.
From Stdlib Require Import PrimFloat FloatOps SpecFloat Uint63.
From Stdlib Require Import DecimalString DecimalN DecimalPos.
Import ListNotations.

#[local] Open Scope string_scope.
#[local] Open Scope Z_scope.
#[local] Set Warnings "-inexact-float".

(* ================================================================== *)
(** * The C library, as far as the source uses it *)
(* ================================================================== *)

Module CLib.

Definition LONG_MIN : Z := - 2 ^ 63.
Definition LONG_MAX : Z := 2 ^ 63 - 1.
Definition INT_MIN : Z := - 2 ^ 31.
Definition INT_MAX : Z := 2 ^ 31 - 1.

(** Two's complement reduction to [w] bits, signed. *)
Definition wrap (w : Z) (z : Z) : Z :=
  (z + 2 ^ (w - 1)) mod 2 ^ w - 2 ^ (w - 1).

(** [(int) z] for a [long] z. *)
Definition l2i (z : Z) : Z := wrap 32 z.

(** [(unsigned int) z]. *)
Definition l2u (z : Z) : Z := z mod 2 ^ 32.

(** [(double) z] for a [long] z: round to nearest even.  The primitive
    conversion takes 63 bits, which leaves [LONG_MIN] to be given apart. *)
Definition Z2d (z : Z) : float :=
  if z =? LONG_MIN then (-9223372036854775808)%float
  else if z <? 0 then PrimFloat.opp (of_uint63 (Uint63.of_Z (- z)))
  else of_uint63 (Uint63.of_Z z).

(** The integer a finite double truncates to (toward zero); [None] for
    NaN and infinities. *)
Definition trunc (x : float) : option Z :=
  match Prim2SF x with
  | S754_zero _ => Some 0
  | S754_finite s m e =>
      let v := if 0 <=? e then Z.pos m * 2 ^ e else Z.pos m / 2 ^ (- e) in
      Some (if s then - v else v)
  | _ => None
  end.

(** [(long) x]: truncation; out of range (undefined in C) the value the
    x86-64 conversion instruction delivers. *)
Definition d2l (x : float) : Z :=
  match trunc x with
  | Some v => if (LONG_MIN <=? v) && (v <=? LONG_MAX) then v else LONG_MIN
  | None => LONG_MIN
  end.

(** [(int) x]. *)
Definition d2i (x : float) : Z :=
  match trunc x with
  | Some v => if (INT_MIN <=? v) && (v <=? INT_MAX) then v else INT_MIN
  | None => INT_MIN
  end.

(** [(unsigned long) x], for the hexadecimal output of axTime3. *)
Definition d2ul (x : float) : Z :=
  match trunc x with
  | Some v => if (0 <=? v) && (v <? 2 ^ 64) then v
              else if (LONG_MIN <=? v) && (v <? 0) then v + 2 ^ 64
              else 2 ^ 63
  | None => 2 ^ 63
  end.

(** The double nearest to [n / d] (ties to even), for [0 <= n], [0 < d]. *)
Definition round_ratio (n d : Z) : float :=
  if n =? 0 then PrimFloat.zero else
  let e0 := Z.log2 n - Z.log2 d in
  let ge := if 0 <=? e0 then d * 2 ^ e0 <=? n else d <=? n * 2 ^ (- e0) in
  let E := if ge then e0 else e0 - 1 in
  let ex := Z.max (E - 52) (- 1074) in
  let num := if 0 <=? ex then n else n * 2 ^ (- ex) in
  let den := if 0 <=? ex then d * 2 ^ ex else d in
  let q := num / den in
  let r := num mod den in
  let m := if 2 * r <? den then q
           else if den <? 2 * r then q + 1
           else if Z.even q then q else q + 1 in
  if 971 <? ex then PrimFloat.infinity
  else Z.ldexp (of_uint63 (Uint63.of_Z m)) ex.

(** [pow (10.0, (double) -dec)] for [0 <= dec]. *)
Definition pow10neg (dec : Z) : float := round_ratio 1 (10 ^ dec).

(** ** Characters and strings *)

Definition chr (n : Z) : ascii := ascii_of_N (Z.to_N n).
Definition ord (c : ascii) : Z := Z.of_N (N_of_ascii c).

Definition isspace (c : ascii) : bool :=
  let n := ord c in (n =? 32) || ((9 <=? n) && (n <=? 13)).
Definition isdigit (c : ascii) : bool :=
  let n := ord c in (48 <=? n) && (n <=? 57).
Definition toupper (c : ascii) : ascii :=
  let n := ord c in if (97 <=? n) && (n <=? 122) then chr (n - 32) else c.
Definition tolower (c : ascii) : ascii :=
  let n := ord c in if (65 <=? n) && (n <=? 90) then chr (n + 32) else c.

Definition digit_val (c : ascii) : Z := ord c - 48.

Definition hex_val (c : ascii) : option Z :=
  let n := ord c in
  if (48 <=? n) && (n <=? 57) then Some (n - 48)
  else if (97 <=? n) && (n <=? 102) then Some (n - 87)
  else if (65 <=? n) && (n <=? 70) then Some (n - 55)
  else None.

(** [s[i]]: the character at [i], NUL at the terminator.  Past the
    terminator the C read is outside the string; the model yields NUL there
    as well. *)
Definition char_at (s : string) (i : nat) : ascii :=
  match String.get i s with Some c => c | None => Ascii.zero end.

Fixpoint skip_space (s : string) : string :=
  match s with
  | String c t => if isspace c then skip_space t else s
  | EmptyString => s
  end.

(** The longest prefix of decimal digits, as (value, number of digits, rest). *)
Fixpoint take_digits (acc : Z) (n : Z) (s : string) : Z * Z * string :=
  match s with
  | String c t =>
      if isdigit c then take_digits (10 * acc + digit_val c) (n + 1) t
      else (acc, n, s)
  | EmptyString => (acc, n, s)
  end.

Fixpoint take_hex (acc : Z) (n : Z) (s : string) : Z * Z * string :=
  match s with
  | String c t =>
      match hex_val c with
      | Some v => take_hex (16 * acc + v) (n + 1) t
      | None => (acc, n, s)
      end
  | EmptyString => (acc, n, s)
  end.

(** An optional sign: (negative?, rest). *)
Definition take_sign (s : string) : bool * string :=
  match s with
  | String "-" t => (true, t)
  | String "+" t => (false, t)
  | _ => (false, s)
  end.

(** [strtol (s, &end, 10)] after white space has been skipped: the value
    (clamped to the range of [long]) and the rest, or [None] when no digit
    follows the sign. *)
Definition scan_long (s : string) : option (Z * string) :=
  let (neg, s1) := take_sign s in
  let '(v, n, rest) := take_digits 0 0 s1 in
  if n =? 0 then None
  else let v' := if neg then - v else v in
       Some (Z.max LONG_MIN (Z.min LONG_MAX v'), rest).

Fixpoint string_map (f : ascii -> ascii) (s : string) : string :=
  match s with
  | String c t => String (f c) (string_map f t)
  | EmptyString => EmptyString
  end.

(** The subject sequence of [strtod]: decimal digits with an optional
    point and exponent, or [inf], [infinity], [nan] in any case.
    Hexadecimal floating constants are not recognised by this model. *)
Definition lower_prefix (p s : string) : option string :=
  let k := String.length p in
  if String.eqb (string_map tolower (substring 0 k s)) p
  then Some (substring k (String.length s - k)%nat s) else None.

Definition scan_exponent (s : string) : Z * string :=
  match s with
  | String c t =>
      if (Ascii.eqb c "e" || Ascii.eqb c "E")%bool then
        let (neg, s1) := take_sign t in
        let '(v, n, rest) := take_digits 0 0 s1 in
        if n =? 0 then (0, s) else ((if neg then - v else v), rest)
      else (0, s)
  | EmptyString => (0, s)
  end.

Definition signed (neg : bool) (x : float) : float :=
  if neg then PrimFloat.opp x else x.

(** Value of the decimal [digits * 10 ^ e10]. *)
Definition dec2d (digits e10 : Z) : float :=
  if digits =? 0 then PrimFloat.zero
  else if 400 <? e10 then PrimFloat.infinity
  else if 0 <=? e10 then round_ratio (digits * 10 ^ e10) 1
  else round_ratio digits (10 ^ (- e10)).

Definition scan_double (s : string) : option (float * string) :=
  let (neg, s1) := take_sign s in
  match lower_prefix "infinity" s1 with
  | Some rest => Some (signed neg PrimFloat.infinity, rest)
  | None =>
  match lower_prefix "inf" s1 with
  | Some rest => Some (signed neg PrimFloat.infinity, rest)
  | None =>
  match lower_prefix "nan" s1 with
  | Some rest => Some (PrimFloat.nan, rest)
  | None =>
      let '(ip, ni, s2) := take_digits 0 0 s1 in
      let '(fp, nf, s3) :=
        match s2 with
        | String "." t => take_digits ip 0 t
        | _ => (ip, 0, s2)
        end in
      if (ni =? 0) && (nf =? 0) then None
      else let (e10, rest) := scan_exponent s3 in
           Some (signed neg (dec2d fp (e10 - nf)), rest)
  end end end.

(** [atof]: white space, then the longest valid prefix; 0.0 if there is none. *)
Definition atof (s : string) : float :=
  match scan_double (skip_space s) with
  | Some (x, _) => x
  | None => PrimFloat.zero
  end.

(** [atoi]. *)
Definition atoi (s : string) : Z :=
  match scan_long (skip_space s) with
  | Some (v, _) => l2i v
  | None => 0
  end.

(** ** Formatted output *)

Definition utoa (n : Z) : string := NilZero.string_of_uint (N.to_uint (Z.to_N n)).

Fixpoint replicate (n : nat) (c : ascii) : string :=
  match n with
  | O => EmptyString
  | S k => String c (replicate k c)
  end.

(** Right-justify the text [sign ++ body] in a field of [width]: blanks
    before the sign, or (flag [0]) zeros between sign and body. *)
Definition pad (zero_flag : bool) (width : nat) (sign body : string) : string :=
  let fill := (width - (String.length sign + String.length body))%nat in
  if zero_flag then sign ++ replicate fill "0" ++ body
  else replicate fill " " ++ sign ++ body.

(** ["%<width>d"] and ["%0<width>d"]. *)
Definition fmt_d (zero_flag : bool) (width : nat) (z : Z) : string :=
  pad zero_flag width (if z <? 0 then "-" else "") (utoa (Z.abs z)).

Definition hex_digit (v : Z) : ascii :=
  if v <? 10 then chr (48 + v) else chr (87 + v).

Fixpoint hex_digits (fuel : nat) (n : Z) (acc : string) : string :=
  match fuel with
  | O => acc
  | S k =>
      let acc' := String (hex_digit (n mod 16)) acc in
      if n / 16 =? 0 then acc' else hex_digits k (n / 16) acc'
  end.

(** ["%<width>x"] of an [unsigned int]. *)
Definition fmt_x (width : nat) (n : Z) : string :=
  pad false width "" (hex_digits 16 n "").

(** ["%<width>.<prec>f"] and ["%0<width>.<prec>f"]: the exact value of the
    double, rounded to [prec] decimals, ties to even. *)
Definition fmt_f (zero_flag : bool) (width prec : nat) (x : float) : string :=
  let frac (r : Z) : string :=
    match prec with
    | O => ""
    | _ => "." ++ pad true prec "" (utoa (r mod 10 ^ Z.of_nat prec))
    end in
  let sgn (s : bool) : string := if s then "-" else "" in
  match Prim2SF x with
  | S754_nan => pad false width "" "nan"
  | S754_infinity s => pad false width (sgn s) "inf"
  | S754_zero s => pad zero_flag width (sgn s) ("0" ++ frac 0)
  | S754_finite s m e =>
      let num := Z.pos m * 10 ^ Z.of_nat prec * (if 0 <=? e then 2 ^ e else 1) in
      let den := if 0 <=? e then 1 else 2 ^ (- e) in
      let q := num / den in
      let r := num mod den in
      let R := if 2 * r <? den then q
               else if den <? 2 * r then q + 1
               else if Z.even q then q else q + 1 in
      pad zero_flag width (sgn s) (utoa (R / 10 ^ Z.of_nat prec) ++ frac R)
  end.

(** ** Formatted input *)

(** One directive of a [scanf] format. *)
Inductive directive : Type :=
  | Lit (c : ascii)   (* an ordinary character *)
  | WS                (* white space in the format *)
  | Conv_ld           (* %ld *)
  | Conv_d            (* %d *)
  | Conv_x            (* %x *)
  | Conv_c            (* %c *)
  | Conv_lg.          (* %lg *)

(** A converted item. *)
Inductive item : Type :=
  | ILong (z : Z)
  | IChar (c : ascii)
  | IDouble (x : float).

(** The items [sscanf] assigns, in order, and whether it stopped on an
    input failure (end of input) rather than on a mismatch or at the end of
    the format. *)
Fixpoint scan (fmt : list directive) (s : string) : list item * bool :=
  match fmt with
  | [] => ([], false)
  | WS :: fmt' => scan fmt' (skip_space s)
  | Lit c :: fmt' =>
      match s with
      | EmptyString => ([], true)
      | String c' t => if Ascii.eqb c c' then scan fmt' t else ([], false)
      end
  | Conv_c :: fmt' =>
      match s with
      | EmptyString => ([], true)
      | String c' t => let (r, e) := scan fmt' t in (IChar c' :: r, e)
      end
  | Conv_ld :: fmt' =>
      match skip_space s with
      | EmptyString => ([], true)
      | s1 => match scan_long s1 with
              | Some (v, t) => let (r, e) := scan fmt' t in (ILong v :: r, e)
              | None => ([], false)
              end
      end
  | Conv_d :: fmt' =>
      match skip_space s with
      | EmptyString => ([], true)
      | s1 => match scan_long s1 with
              | Some (v, t) => let (r, e) := scan fmt' t in (ILong (l2i v) :: r, e)
              | None => ([], false)
              end
      end
  | Conv_x :: fmt' =>
      match skip_space s with
      | EmptyString => ([], true)
      | s1 =>
          let (neg, s2) := take_sign s1 in
          let s3 := match s2 with
                    | String "0" (String c t) =>
                        if (Ascii.eqb c "x" || Ascii.eqb c "X")%bool
                        then match t with
                             | String h _ => match hex_val h with
                                             | Some _ => t
                                             | None => s2
                                             end
                             | EmptyString => s2
                             end
                        else s2
                    | _ => s2
                    end in
          let '(v, n, t) := take_hex 0 0 s3 in
          if n =? 0 then ([], false)
          else let v' := Z.min (2 ^ 64 - 1) v in
               let (r, e) := scan fmt' t in
               (ILong (l2u (if neg then - v' else v')) :: r, e)
      end
  | Conv_lg :: fmt' =>
      match skip_space s with
      | EmptyString => ([], true)
      | s1 => match scan_double s1 with
              | Some (x, t) => let (r, e) := scan fmt' t in (IDouble x :: r, e)
              | None => ([], false)
              end
      end
  end.

(** The value [sscanf] returns: the number of items assigned, or [EOF]
    (-1) on an input failure before the first conversion. *)
Definition sscanf_count (r : list item * bool) : Z :=
  match r with
  | ([], true) => -1
  | (l, _) => Z.of_nat (List.length l)
  end.

(** The [i]-th receiving variable after the call: the item assigned to it,
    or its previous content. *)
Definition arg_long (r : list item * bool) (i : nat) (old : Z) : Z :=
  match nth_error (fst r) i with Some (ILong z) => z | _ => old end.
Definition arg_char (r : list item * bool) (i : nat) (old : ascii) : ascii :=
  match nth_error (fst r) i with Some (IChar c) => c | _ => old end.
Definition arg_double (r : list item * bool) (i : nat) (old : float) : float :=
  match nth_error (fst r) i with Some (IDouble x) => x | _ => old end.

(** [strstr (s, ":") != NULL]. *)
Fixpoint has_char (c : ascii) (s : string) : bool :=
  match s with
  | String c' t => Ascii.eqb c c' || has_char c t
  | EmptyString => false
  end.

End CLib.

Import CLib.

(* ================================================================== *)
(** * XTime.h: data *)
(* ================================================================== *)

Inductive TimeSys : Type := MET | TT | UTC | TAI.
Inductive TimeFormat : Type := SECS | JD | MJD | DATE | CALDATE | FITS.

(** The attributes of class [XTime].  The buffer [tdate] only carries the
    string a date method returns and is represented by that result. *)
Record XTime : Type := mkXTime {
  MJDint : Z;          (* Integer part of time *)
  MJDfr : float;       (* Fractional part of time *)
  timeZero : float;    (* Time correction term in d *)
  MJDrefint : Z;       (* MJDref (integer part) *)
  MJDreffr : float;    (* MJDref (fractional part) *)
  leapflag : Z;        (* Indicator whether we are in a leap second *)
  myLeaps : float;     (* Leap seconds at this time *)
  refLeaps : float     (* Leap seconds at reference epoch *)
}.

Definition MJD0 : float := 2400000.5%float.
Definition MJD1972 : Z := 41317.
Definition DAY2SEC : float := 86400.0%float.
Definition SEC2DAY : float := (1.0 / DAY2SEC)%float.
Definition MJDREFint : Z := 50814.
Definition MJDREFfr : float := 0.0%float.
Definition REFLEAPS : float := 31.0%float.
Definition TAI2TT : float := 32.184%float.

(** The mutable statics of XTime.cc. *)
Record Globals : Type := mkGlobals {
  NUMOBJECTS : Z;
  NUMLEAPSECS : Z;
  LEAPSMJD : list Z;        (* long   LEAPSMJD[100] *)
  LEAPSECS : list float;    (* double LEAPSECS[100] *)
  WALLCLOCK0 : Z;
  daymonth : list Z         (* int daymonth[12] *)
}.

Definition month : list string :=
  ["Jan"; "Feb"; "Mar"; "Apr"; "May"; "Jun";
   "Jul"; "Aug"; "Sep"; "Oct"; "Nov"; "Dec"].

(** The statics as the program starts. *)
Definition Globals0 : Globals :=
  {| NUMOBJECTS := 0;
     NUMLEAPSECS := 0;
     LEAPSMJD := [41317; 41499; 41683; 42048; 42413; 42778; 43144; 43509; 43874;
                  44239; 44786; 45151; 45516; 46247; 47161; 47892; 48257; 48804;
                  49169; 49534; 50083; 50630; 51179; 53736; 54832; 56109]
                 ++ repeat 0 74;
     LEAPSECS := map Z2d [10; 11; 12; 13; 14; 15; 16; 17; 18; 19; 20; 21; 22; 23;
                          24; 25; 26; 27; 28; 29; 30; 31; 32; 33; 34; 35]
                 ++ repeat 0.0%float 74;
     WALLCLOCK0 := 0;
     daymonth := [31; 28; 31; 30; 31; 30; 31; 31; 30; 31; 30; 31] |}.

(** [a[i]] and [a[i] = v].  An index outside the array is undefined in C:
    the model reads [d] and leaves the array as it is. *)
Definition aget {A} (a : list A) (i : Z) (d : A) : A :=
  if i <? 0 then d else nth (Z.to_nat i) a d.

Fixpoint list_set {A} (a : list A) (n : nat) (v : A) : list A :=
  match a, n with
  | [], _ => []
  | _ :: t, O => v :: t
  | h :: t, S k => h :: list_set t k v
  end.

Definition aset {A} (a : list A) (i : Z) (v : A) : list A :=
  if i <? 0 then a else list_set a (Z.to_nat i) v.

(** One line of tai-utc.dat as [fscanf] converts it: year, MJD, seconds. *)
Definition LeapRow : Type := (Z * Z * float)%type.

(** A leap second file that could be opened: the lines the format matches
    (reading stops at the first that does not), and [ferror] afterwards. *)
Record LeapFile : Type := mkLeapFile {
  rows : list LeapRow;
  read_error : bool
}.

(** Values of memory the source reads without having written it. *)
Record Indet : Type := mkIndet {
  raw_XTime : XTime;       (* storage of a new XTime object *)
  raw_long : Z;            (* long k   in getDate *)
  raw_double : float;      (* double x in getDate, double t in getinput *)
  raw_sys : TimeSys;       (* tSys  in axTime3 *)
  raw_form : TimeFormat    (* tForm in axTime3 *)
}.

(** What a call observes of the outside world. *)
Record Env : Type := mkEnv {
  wallclock : Z;                      (* time (NULL) *)
  TIMING_DIR : option LeapFile;       (* $TIMING_DIR/tai-utc.dat, if it opens *)
  ASC_DATA : option LeapFile;         (* $ASC_DATA/tai-utc.dat, if it opens *)
  indet : Indet
}.

(* ================================================================== *)
(** * XTime.cc: the leap second table *)
(* ================================================================== *)

Definition with_NUMOBJECTS (G : Globals) (n : Z) : Globals :=
  mkGlobals n (NUMLEAPSECS G) (LEAPSMJD G) (LEAPSECS G) (WALLCLOCK0 G) (daymonth G).

Definition with_daymonth (G : Globals) (dm : list Z) : Globals :=
  mkGlobals (NUMOBJECTS G) (NUMLEAPSECS G) (LEAPSMJD G) (LEAPSECS G) (WALLCLOCK0 G) dm.

(** The [while (fscanf (...) == 3)] loop of [setleaps]: [nums] and the two
    arrays after the rows have been read.  [known] is [NUMLEAPSECS]. *)
Fixpoint read_rows (all : bool) (known : Z) (rs : list LeapRow)
    (nums : Z) (mjds : list Z) (secs : list float) : Z * list Z * list float :=
  match rs with
  | [] => (nums, mjds, secs)
  | (i, leapsMD, leapsecs) :: rs' =>
      if 1970 <? i then
        if all || (known <=? nums) then
          read_rows all known rs' (nums + 1) (aset mjds nums leapsMD) (aset secs nums leapsecs)
        else read_rows all known rs' nums mjds secs
      else read_rows all known rs' nums mjds secs
  end.

(** [void XTime::setleaps (double dt)] *)
Definition setleaps (env : Env) (dt : float) (G : Globals) : Globals :=
  let G := with_NUMOBJECTS G (NUMOBJECTS G + 1) in
  let all := (dt <? 0.0)%float in
  let dt := if all then (- dt)%float else dt in
  let refresh :=
    if negb (NUMLEAPSECS G =? 0)
    then (dt <? Z2d (wallclock env - WALLCLOCK0 G))%float
    else true in
  if refresh then
    let FF := match TIMING_DIR env with
              | Some f => Some f
              | None => ASC_DATA env
              end in
    match FF with
    | Some f =>
        let '(nums, mjds, secs) :=
          read_rows all (NUMLEAPSECS G) (rows f) 0 (LEAPSMJD G) (LEAPSECS G) in
        if (NUMLEAPSECS G <=? nums) && negb (read_error f)
        then mkGlobals (NUMOBJECTS G) nums mjds secs (wallclock env) (daymonth G)
        else mkGlobals (NUMOBJECTS G) (NUMLEAPSECS G) mjds secs (WALLCLOCK0 G) (daymonth G)
    | None =>
        if NUMLEAPSECS G =? 0
        then mkGlobals (NUMOBJECTS G) 26 (LEAPSMJD G) (LEAPSECS G) (WALLCLOCK0 G) (daymonth G)
        else G
    end
  else G.

(** [LEAPSMJD[i]] and [LEAPSECS[i]]. *)
Definition leapsmjd (G : Globals) (i : Z) : Z := aget (LEAPSMJD G) i 0.
Definition leapsecs (G : Globals) (i : Z) : float := aget (LEAPSECS G) i 0%float.

(** [while ( ( j < LEAPSMJD[i] ) && i ) i-- ;]  The loop runs at most [i]
    times. *)
Fixpoint leap_index (fuel : nat) (G : Globals) (j i : Z) : Z :=
  match fuel with
  | O => i
  | S fuel' =>
      if (j <? leapsmjd G i) && negb (i =? 0)
      then leap_index fuel' G j (i - 1)
      else i
  end.

(** [int XTime::setmyleaps (double *leapval, long mjdi, double mjdf)]:
    the value stored in [*leapval] and the value returned. *)
Definition setmyleaps (G : Globals) (mjdi : Z) (mjdf : float) : float * Z :=
  let i := NUMLEAPSECS G - 1 in
  let x := (Z2d mjdi + mjdf - TAI2TT * SEC2DAY)%float in
  let j := d2l x in
  let i := leap_index (Z.to_nat i) G j i in
  if (x - leapsecs G i * SEC2DAY <? Z2d (leapsmjd G i))%float && negb (i =? 0)
  then
    let i := i - 1 in
    let m := if (Z2d (leapsmjd G (i + 1)) - x <=? SEC2DAY)%float then 1 else 0 in
    (leapsecs G i, m)
  else (leapsecs G i, 0).

(* ================================================================== *)
(** * XTime.h: get methods *)
(* ================================================================== *)

(** [double XTime::getMET (void) const] *)
Definition getMET (o : XTime) : float :=
  ((Z2d (MJDint o - MJDrefint o) + (MJDfr o - MJDreffr o) + timeZero o) * DAY2SEC)%float.

(** [double XTime::getTT (void) const] *)
Definition getTT (o : XTime) : float := getMET o.

(** [double XTime::getTAI (void) const] *)
Definition getTAI (o : XTime) : float := getMET o.

(** [double XTime::getUTC (void) const] *)
Definition getUTC (o : XTime) : float :=
  ((Z2d (MJDint o - MJDrefint o) + (MJDfr o - MJDreffr o) + timeZero o) * DAY2SEC
   - myLeaps o + refLeaps o)%float.

(** [double XTime::getTZero (void) const] *)
Definition getTZero (o : XTime) : float := (timeZero o * DAY2SEC)%float.

(** [double XTime::TTmjd (void) const] *)
Definition TTmjd (o : XTime) : float := (Z2d (MJDint o) + MJDfr o + timeZero o)%float.

(** [double XTime::TAImjd (void) const] *)
Definition TAImjd (o : XTime) : float := (TTmjd o - TAI2TT * SEC2DAY)%float.

(** The methods that fill [*mjdi] and [*mjdf] return
    (result, [*mjdi], [*mjdf]). *)

(** [double XTime::TTmjd (long *mjdi, double *mjdf) const] *)
Definition TTmjd_parts (o : XTime) : float * Z * float :=
  (TTmjd o, MJDint o, MJDfr o).

(** [double XTime::TAImjd (long *mjdi, double *mjdf) const] *)
Definition TAImjd_parts (o : XTime) : float * Z * float :=
  (TAImjd o, MJDint o, (MJDfr o - TAI2TT * SEC2DAY)%float).

(** [double XTime::UTmjd (long *mjdi, double *mjdf) const] *)
Definition UTmjd_parts (o : XTime) : float * Z * float :=
  let k := MJDint o in
  let x := (MJDfr o + timeZero o - (TAI2TT + myLeaps o) * SEC2DAY)%float in
  let '(k, x) :=
    if (x <? 0.0)%float then (k - 1, (x + 1)%float)
    else if (1.0 <=? x)%float then (k + 1, (x - 1)%float)
    else (k, x) in
  ((Z2d k + x)%float, k, x).

(** [double XTime::UTmjd (void) const] *)
Definition UTmjd (o : XTime) : float := fst (fst (UTmjd_parts o)).

(** [double XTime::UTjd], [TTjd], [TAIjd] *)
Definition UTjd (o : XTime) : float := (UTmjd o + MJD0)%float.
Definition TTjd (o : XTime) : float := (TTmjd o + MJD0)%float.
Definition TAIjd (o : XTime) : float := (TAImjd o + MJD0)%float.

(** [double XTime::mjd (long *mjdi, double *mjdf, TimeSys ts) const];
    [mjdi0] and [mjdf0] are what the two locations held before: [MET] has
    no case and leaves them alone. *)
Definition mjd (o : XTime) (mjdi0 : Z) (mjdf0 : float) (ts : TimeSys)
    : float * Z * float :=
  match ts with
  | TT => TTmjd_parts o
  | TAI => TAImjd_parts o
  | UTC => UTmjd_parts o
  | MET => (0.0%float, mjdi0, mjdf0)
  end.

(** [double XTime::get (TimeSys ts, TimeFormat tf) const] *)
Definition get (o : XTime) (ts : TimeSys) (tf : TimeFormat) : float :=
  let tt := timeZero o in
  let by_mjd (tt : float) : float :=
    match ts with
    | UTC => (tt - myLeaps o * SEC2DAY - TAI2TT * SEC2DAY + (Z2d (MJDint o) + MJDfr o))%float
    | TAI => (tt - TAI2TT * SEC2DAY + (Z2d (MJDint o) + MJDfr o))%float
    | MET | TT => (tt + (Z2d (MJDint o) + MJDfr o))%float
    end in
  match tf with
  | SECS =>
      match ts with
      | UTC => getUTC o
      | TT => getTT o
      | TAI => getTAI o
      | MET => getMET o
      end
  | JD => by_mjd (tt + MJD0)%float
  | MJD => by_mjd tt
  | DATE | CALDATE | FITS => tt
  end.

(* ================================================================== *)
(** * XTime.cc: set *)
(* ================================================================== *)

Definition with_leapflag (o : XTime) (lf : Z) : XTime :=
  mkXTime (MJDint o) (MJDfr o) (timeZero o) (MJDrefint o) (MJDreffr o)
          lf (myLeaps o) (refLeaps o).

Definition with_myLeaps (o : XTime) (ml : float) : XTime :=
  mkXTime (MJDint o) (MJDfr o) (timeZero o) (MJDrefint o) (MJDreffr o)
          (leapflag o) ml (refLeaps o).

Definition with_MJD (o : XTime) (mi : Z) (mf : float) : XTime :=
  mkXTime mi mf (timeZero o) (MJDrefint o) (MJDreffr o)
          (leapflag o) (myLeaps o) (refLeaps o).

Definition with_ref (o : XTime) (ri : Z) (rf rl : float) : XTime :=
  mkXTime (MJDint o) (MJDfr o) (timeZero o) ri rf
          (leapflag o) (myLeaps o) rl.

(** "Now we are ready to set the time": from [x += total * SEC2DAY] to the
    end of [set (long, double, ...)]. *)
Definition set_finish (G : Globals) (o : XTime) (k : Z) (x total : float)
    (ts : TimeSys) : XTime :=
  let x := (x + total * SEC2DAY)%float in
  let j := d2l x in
  let mi := k + j in
  let mf := (x - Z2d j)%float in
  let o := if (mf <? 0.0)%float then with_MJD o (mi - 1) (mf + 1)%float
           else with_MJD o mi mf in
  match ts with
  | UTC => o
  | _ => let (ml, m) := setmyleaps G (MJDint o) (MJDfr o + timeZero o)%float in
         with_leapflag (with_myLeaps o ml) m
  end.

(** [set (long, double, ...)] from "total contains the corrections wrt to
    TT in seconds" on: the switch over [tf] and the final assignment. *)
Definition set_time (G : Globals) (o : XTime) (tti : Z) (ttf : float)
    (ts : TimeSys) (tf : TimeFormat) : XTime :=
  let total := 0.0%float in
  let by_mjd (tti : Z) (ttf : float) : XTime :=
    let k := tti in
    let x := ttf in
    match ts with
    | UTC =>
        let i := NUMLEAPSECS G - 1 in
        let i := leap_index (Z.to_nat i) G k i in
        let inleap :=
          (i <? NUMLEAPSECS G - 1) && (k + 1 =? leapsmjd G (i + 1))
          && (Z2d (leapsmjd G (i + 1) - k) + x + timeZero o <? SEC2DAY)%float
          && negb (i =? 0) in
        let i := if inleap then i - 1 else i in
        let o := if inleap then with_leapflag o 1 else o in
        let total := (total + leapsecs G i)%float in
        let o := with_myLeaps o (leapsecs G i) in
        let total := (total + TAI2TT)%float in
        set_finish G o k x total ts
    | TAI =>
        let total := (total + TAI2TT)%float in
        set_finish G o k x total ts
    | TT | MET => set_finish G o k x total ts
    end in
  match tf with
  | JD => by_mjd (tti - d2l MJD0) (ttf - 0.5)%float
  | MJD => by_mjd tti ttf
  | SECS =>
      let k := d2l (Z2d tti * SEC2DAY)%float in
      let x := (Z2d tti * SEC2DAY - Z2d k)%float in
      let x := (x + (ttf * SEC2DAY + MJDreffr o))%float in
      let k := k + MJDrefint o in
      match ts with
      | UTC =>
          let total := (total - refLeaps o)%float in
          let i := NUMLEAPSECS G - 1 in
          let j := d2l (Z2d k + x + timeZero o)%float in
          let i := leap_index (Z.to_nat i) G j i in
          let inleap :=
            (Z2d k + x + timeZero o - Z2d (leapsmjd G i) <? SEC2DAY)%float
            && negb (i =? 0) in
          let i := if inleap then i - 1 else i in
          let o := if inleap then with_leapflag o 1 else o in
          let total := (total + leapsecs G i)%float in
          let o := with_myLeaps o (leapsecs G i) in
          set_finish G o k x total ts
      | TAI | TT | MET => set_finish G o k x total ts
      end
  | DATE | CALDATE | FITS => o     (* Error in tf; do nothing *)
  end.

(** The member initialisers shared by the constructors that take a time
    system: [timeZero (0.0)], [MJDrefint (MJDREFint)], [MJDreffr (MJDREFfr)],
    [refLeaps (REFLEAPS)], [leapflag (0)].  [MJDint], [MJDfr] and [myLeaps]
    keep what the storage held. *)
Definition ctor_init (raw : XTime) : XTime :=
  mkXTime (MJDint raw) (MJDfr raw) 0.0%float MJDREFint MJDREFfr 0 (myLeaps raw) REFLEAPS.

(** Default argument of [setleaps]. *)
Definition dt_default : float := 5000000.0%float.

(** The local object [XTime mt (mjdi, mjdf, ts)] that [set] creates for a
    UTC reference: constructor [XTime (long, double, TimeSys, TimeFormat = MJD,
    long = 0, double = 0.0)], whose [set] call has no reference of its own. *)
Definition XTime_mt (env : Env) (G : Globals) (tti : Z) (ttf : float)
    (ts : TimeSys) : Globals * XTime :=
  let G := setleaps env dt_default G in
  (G, set_time G (with_leapflag (ctor_init (raw_XTime (indet env))) 0) tti ttf ts MJD).

(** [void XTime::set (long tti, double ttf, TimeSys ts, TimeFormat tf,
                       long mjdi, double mjdf)] *)
Definition set_ld (env : Env) (G : Globals) (o : XTime) (tti : Z) (ttf : float)
    (ts : TimeSys) (tf : TimeFormat) (mjdi : Z) (mjdf : float) : Globals * XTime :=
  let o := with_leapflag o 0 in
  let '(G, o) :=
    if 1 <? mjdi then
      let '(G, mjdi, mjdf) :=
        match ts with
        | UTC =>
            let (G, mt) := XTime_mt env G mjdi mjdf ts in
            let '(_, mjdi, mjdf) := mjd mt mjdi mjdf TT in
            (with_NUMOBJECTS G (NUMOBJECTS G - 1), mjdi, mjdf)
        | TAI =>
            let mjdf := (mjdf + TAI2TT * SEC2DAY)%float in
            if (mjdf <? 0.0)%float then (G, mjdi - 1, (mjdf + 1)%float)
            else (G, mjdi, mjdf)
        | TT | MET => (G, mjdi, mjdf)
        end in
      (G, with_ref o mjdi mjdf (fst (setmyleaps G mjdi mjdf)))
    else (G, o) in
  (G, set_time G o tti ttf ts tf).

(** [void XTime::set (double tt, TimeSys ts, TimeFormat tf, long mjdi, double mjdf)] *)
Definition set_d (env : Env) (G : Globals) (o : XTime) (tt : float)
    (ts : TimeSys) (tf : TimeFormat) (mjdi : Z) (mjdf : float) : Globals * XTime :=
  let k := d2l tt in
  let x := (tt - Z2d k)%float in
  set_ld env G o k x ts tf mjdi mjdf.

(** The three [sscanf] formats of [set (const char*, ...)]. *)
Definition fmt_DATE : list directive :=      (* "%ld:%ld:%ld:%ld:%lg" *)
  [Conv_ld; Lit ":"; Conv_ld; Lit ":"; Conv_ld; Lit ":"; Conv_ld; Lit ":"; Conv_lg].
Definition fmt_CALDATE : list directive :=   (* "%ld%c%c%c%ld at %ld:%ld:%lg" *)
  [Conv_ld; Conv_c; Conv_c; Conv_c; Conv_ld; WS; Lit "a"; Lit "t"; WS;
   Conv_ld; Lit ":"; Conv_ld; Lit ":"; Conv_lg].
Definition fmt_FITS : list directive :=      (* "%ld-%d-%ldT%ld:%ld:%lg" *)
  [Conv_ld; Lit "-"; Conv_d; Lit "-"; Conv_ld; Lit "T";
   Conv_ld; Lit ":"; Conv_ld; Lit ":"; Conv_lg].

(** [daymonth[1] = year%4 ? 28 : 29] *)
Definition set_february (G : Globals) (year : Z) : Globals :=
  with_daymonth G (aset (daymonth G) 1 (if Z.rem year 4 =? 0 then 29 else 28)).

(** [while ( strcmp(mn, month[m]) ) { if ( m > 11 ) return ; day += daymonth[m++] ; }]
    The day count when a month name matches; [None] for the [return].
    At [m = 12] the comparison reads past [month]; the model takes it as
    unequal. *)
Fixpoint month_loop (fuel : nat) (G : Globals) (mn : string) (m day : Z) : option Z :=
  match fuel with
  | O => None
  | S fuel' =>
      let same := match nth_error month (Z.to_nat m) with
                  | Some name => String.eqb mn name
                  | None => false
                  end in
      if same then Some day
      else if 11 <? m then None
      else month_loop fuel' G mn (m + 1) (day + aget (daymonth G) m 0)
  end.

(** [for (int i=0; i<m; i++) day += daymonth[i] ;] *)
Definition add_months (G : Globals) (m day : Z) : Z :=
  fold_left (fun d i => d + aget (daymonth G) (Z.of_nat i) 0) (seq 0 (Z.to_nat m)) day.

(** [day += (year - 1972) * 365 - 1 ; day += (year - 1969) / 4 ;
    day += MJD1972 ;] *)
Definition mjd_of_date (year day : Z) : Z :=
  let day := day + ((year - 1972) * 365 - 1) in
  let day := day + Z.quot (year - 1969) 4 in
  day + MJD1972.

(** The end of [set (const char*, ...)], from [day += (year - 1972) * 365 - 1]. *)
Definition set_fields (env : Env) (G : Globals) (o : XTime)
    (year day hour minute : Z) (second : float)
    (ts : TimeSys) (mjdi : Z) (mjdf : float) : Globals * XTime :=
  let day := mjd_of_date year day in
  let second := (second + (Z2d hour * 3600 + Z2d (minute * 60)))%float in
  let second := (second * SEC2DAY)%float in
  set_ld env G o day second ts MJD mjdi mjdf.

(** [void XTime::set (const char* date, TimeSys ts, TimeFormat tf,
                       long mjdi, double mjdf)] *)
Definition set_str (env : Env) (G : Globals) (o : XTime) (date : string)
    (ts : TimeSys) (tf : TimeFormat) (mjdi : Z) (mjdf : float) : Globals * XTime :=
  match tf with
  | DATE =>
      let r := scan fmt_DATE date in
      if negb (sscanf_count r =? 5) then (G, o)
      else set_fields env G o (arg_long r 0 0) (arg_long r 1 0) (arg_long r 2 0)
                      (arg_long r 3 0) (arg_double r 4 0.0%float) ts mjdi mjdf
  | CALDATE =>
      let r := scan fmt_CALDATE date in
      if negb (sscanf_count r =? 8) then (G, o)
      else
        let year := arg_long r 0 0 in
        let day := arg_long r 4 0 in
        let G := set_february G year in
        let mn := String (toupper (arg_char r 1 Ascii.zero))
                   (String (tolower (arg_char r 2 Ascii.zero))
                     (String (tolower (arg_char r 3 Ascii.zero)) EmptyString)) in
        match month_loop 13 G mn 0 day with
        | None => (G, o)
        | Some day =>
            set_fields env G o year day (arg_long r 5 0) (arg_long r 6 0)
                       (arg_double r 7 0.0%float) ts mjdi mjdf
        end
  | FITS =>
      let r := scan fmt_FITS date in
      let n := sscanf_count r in
      if negb (n =? 6) && negb (n =? 3) then (G, o)
      else
        let year := arg_long r 0 0 in
        let m := arg_long r 1 0 in
        let day := arg_long r 2 0 in
        let G := set_february G year in
        let m := m - 1 in
        let day := add_months G m day in
        set_fields env G o year day (arg_long r 3 0) (arg_long r 4 0)
                   (arg_double r 5 0.0%float) ts mjdi mjdf
  | SECS | JD | MJD => (G, o)
  end.

(** [void XTime::setTZero (double tz)] *)
Definition setTZero (G : Globals) (o : XTime) (tz : float) : XTime :=
  let tzero := (tz * SEC2DAY)%float in
  let (ml, m) := setmyleaps G (MJDint o) (MJDfr o + tzero)%float in
  mkXTime (MJDint o) (MJDfr o) tzero (MJDrefint o) (MJDreffr o) m ml (refLeaps o).

(* ================================================================== *)
(** * XTime.h: constructors and destructor *)
(* ================================================================== *)

(** [XTime::XTime (void)] *)
Definition XTime_void (env : Env) (G : Globals) : Globals * XTime :=
  (setleaps env dt_default G,
   mkXTime MJDREFint MJDREFfr 0.0%float MJDREFint MJDREFfr 0 REFLEAPS REFLEAPS).

(** [XTime::XTime (double tt)] *)
Definition XTime_met (env : Env) (G : Globals) (tt : float) : Globals * XTime :=
  let G := setleaps env dt_default G in
  let mf := (MJDREFfr + tt * SEC2DAY)%float in
  let (ml, m) := setmyleaps G MJDREFint mf in
  (G, mkXTime MJDREFint mf 0.0%float MJDREFint MJDREFfr m ml REFLEAPS).

(** [XTime::XTime (double tt, TimeSys ts, TimeFormat tf, long mjdi, double mjdf)] *)
Definition XTime_d (env : Env) (G : Globals) (tt : float)
    (ts : TimeSys) (tf : TimeFormat) (mjdi : Z) (mjdf : float) : Globals * XTime :=
  set_d env (setleaps env dt_default G) (ctor_init (raw_XTime (indet env)))
        tt ts tf mjdi mjdf.

(** [XTime::XTime (long tti, double ttf, TimeSys ts, TimeFormat tf,
                   long mjdi, double mjdf)] *)
Definition XTime_ld (env : Env) (G : Globals) (tti : Z) (ttf : float)
    (ts : TimeSys) (tf : TimeFormat) (mjdi : Z) (mjdf : float) : Globals * XTime :=
  set_ld env (setleaps env dt_default G) (ctor_init (raw_XTime (indet env)))
         tti ttf ts tf mjdi mjdf.

(** [XTime::XTime (const char* date, TimeSys ts, TimeFormat tf,
                   long mjdi, double mjdf)] *)
Definition XTime_str (env : Env) (G : Globals) (date : string)
    (ts : TimeSys) (tf : TimeFormat) (mjdi : Z) (mjdf : float) : Globals * XTime :=
  set_str env (setleaps env dt_default G) (ctor_init (raw_XTime (indet env)))
          date ts tf mjdi mjdf.

(** [XTime::~XTime (void)] *)
Definition XTime_delete (G : Globals) : Globals :=
  with_NUMOBJECTS G (NUMOBJECTS G - 1).

(** [void XTime::setLeaps (double dt)] *)
Definition setLeaps (env : Env) (dt : float) (G : Globals) : Globals :=
  let G := setleaps env dt G in
  with_NUMOBJECTS G (NUMOBJECTS G - 1).

(* ================================================================== *)
(** * XTime.cc: date strings *)
(* ================================================================== *)

(** [while ( x < 0.0 ) { x++ ; k-- ; }].  [None]: the loop does not end
    (from 2^53 on, [x + 1] is [x] again). *)
Fixpoint norm_neg (fuel : nat) (k : Z) (x : float) : option (Z * float) :=
  if (x <? 0.0)%float then
    match fuel with
    | O => None
    | S fuel' => norm_neg fuel' (k - 1) (x + 1)%float
    end
  else Some (k, x).

(** [while ( x >= 1.0 ) { x-- ; k++ ; }] *)
Fixpoint norm_pos (fuel : nat) (k : Z) (x : float) : option (Z * float) :=
  if (1.0 <=? x)%float then
    match fuel with
    | O => None
    | S fuel' => norm_pos fuel' (k + 1) (x - 1)%float
    end
  else Some (k, x).

(** Iterations that suffice for either loop whenever it ends at all. *)
Definition norm_fuel (x : float) : nat := (Z.to_nat (Z.abs (d2l x)) + 2)%nat.

(** The [while ( day > 365 )] loop of [getDate]: (day, year) at its exit. *)
Fixpoint year_loop (fuel : nat) (day year i : Z) : Z * Z :=
  match fuel with
  | O => (day, year)
  | S fuel' =>
      if 365 <? day then
        if i =? 0 then
          if day =? 366 then (day, year)
          else year_loop fuel' (day - 1 - 365) (year + 1) (Z.rem (i + 1) 4)
        else year_loop fuel' (day - 365) (year + 1) (Z.rem (i + 1) 4)
      else (day, year)
  end.

(** Each round takes at least 365 off [day]. *)
Definition year_fuel (day : Z) : nat := Z.to_nat (day / 365).

(** [s + n] for a C string. *)
Definition str_from (n : nat) (s : string) : string :=
  substring n (String.length s - n) s.

(** [sprintf (tdate, ...)] followed by [strcpy (tdate+pos, rest)]: the
    copy lands behind the terminator if the text is shorter than [pos]. *)
Definition splice (pos : nat) (text rest : string) : string :=
  if (String.length text <? pos)%nat then text
  else substring 0 pos text ++ rest.

(** [const char* XTime::monDay (const char* date, TimeFormat tf)].
    [None]: [m] runs past [daymonth]. *)
Fixpoint monDay_loop (fuel : nat) (G : Globals) (day m : Z) : option (Z * Z) :=
  if aget (daymonth G) m 0 <? day then
    match fuel with
    | O => None
    | S fuel' => monDay_loop fuel' G (day - aget (daymonth G) m 0) (m + 1)
    end
  else Some (day, m).

Definition monDay (env : Env) (G : Globals) (date : string) (tf : TimeFormat)
    : option (Globals * string) :=
  let d := date in
  let r := scan [Conv_d; Lit ":"; Conv_d] d in
  let year := arg_long r 0 (l2i (raw_long (indet env))) in
  let day := arg_long r 1 (l2i (raw_long (indet env))) in
  let G := set_february G year in
  match monDay_loop 11 G day 0 with
  | None => None
  | Some (day, m) =>
      match tf with
      | CALDATE =>
          let text := fmt_d true 4 year ++ nth (Z.to_nat m) month ""
                      ++ fmt_d true 2 day ++ " at " in
          Some (G, splice 13 text (str_from 9 d))
      | FITS =>
          let text := fmt_d true 4 year ++ "-" ++ fmt_d true 2 (m + 1) ++ "-"
                      ++ fmt_d true 2 day ++ "T" in
          Some (G, splice 11 text (str_from 9 d))
      | _ => Some (G, d)
      end
  end.

(** The [sprintf (tdate, formt, year, day, hour, minute, second)] of
    [getDate], for [0 <= dec]: format ["%4d:%03d:%02d:%02d:%02.0f"], or with
    ["%0<dec+3>.<dec>f"] for the seconds when [dec] is not 0. *)
Definition format_date (year day hour minute : Z) (second : float) (dec : Z) : string :=
  fmt_d false 4 year ++ ":" ++ fmt_d true 3 day ++ ":" ++ fmt_d true 2 hour
  ++ ":" ++ fmt_d true 2 minute ++ ":"
  ++ (if dec =? 0 then fmt_f true 2 0 second
      else fmt_f true (Z.to_nat (dec + 3)) (Z.to_nat dec) second).

(** [const char* XTime::getDate (TimeSys ts, TimeFormat tf, int dec)].
    [None]: a normalisation loop does not end, or [dec] is negative and the
    format handed to [sprintf] is not a valid one. *)
Definition getDate (env : Env) (G : Globals) (o : XTime)
    (ts : TimeSys) (tf : TimeFormat) (dec : Z) : option (Globals * string) :=
  let '(_, k, x) := mjd o (raw_long (indet env)) (raw_double (indet env)) ts in
  let inleap := match ts with UTC => negb (leapflag o =? 0) | _ => false end in
  let x := if inleap then (x - SEC2DAY)%float else x in
  match norm_neg (norm_fuel x) k x with
  | None => None
  | Some (k, x) =>
  match norm_pos (norm_fuel x) k x with
  | None => None
  | Some (k, x) =>
      let dsec := (0.5 * pow10neg dec)%float in
      let day := l2i (k - MJD1972) in
      let second := (x * DAY2SEC + dsec)%float in
      let '(hour, minute, second) :=
        if inleap then
          let second := (second + 1)%float in
          let hour := Z.quot (d2i second) 3600 in
          let hour := if 23 <? hour then hour - 1 else hour in
          let second := (second - Z2d hour * 3600.0)%float in
          let minute := Z.quot (d2i second) 60 in
          let minute := if 59 <? minute then minute - 1 else minute in
          let second := (second - Z2d minute * 60.0)%float in
          (hour, minute, second)
        else
          let hour := Z.quot (d2i second) 3600 in
          let second := (second - Z2d hour * 3600.0)%float in
          let minute := Z.quot (d2i second) 60 in
          let second := (second - Z2d minute * 60.0)%float in
          (hour, minute, second) in
      let '(hour, day) := if 23 <? hour then (hour - 24, day + 1) else (hour, day) in
      let second := (second - dsec)%float in
      let second := if (second <? 0.0)%float then 0.0%float else second in
      let day := day + 1 in
      let '(day, year) := year_loop (year_fuel day) day 1972 0 in
      if dec <? 0 then None
      else
        let tdate := format_date year day hour minute second dec in
        match tf with
        | CALDATE | FITS => monDay env G tdate tf
        | _ => Some (G, tdate)
        end
  end end.

(** [UTDate], [TTDate], ..., [TAIFITS]: integer seconds. *)
Definition UTDate env G o := getDate env G o UTC DATE 0.
Definition TTDate env G o := getDate env G o TT DATE 0.
Definition TAIDate env G o := getDate env G o TAI DATE 0.
Definition UTCalDate env G o := getDate env G o UTC CALDATE 0.
Definition TTCalDate env G o := getDate env G o TT CALDATE 0.
Definition TAICalDate env G o := getDate env G o TAI CALDATE 0.
Definition UTFITS env G o := getDate env G o UTC FITS 0.
Definition TTFITS env G o := getDate env G o TT FITS 0.
Definition TAIFITS env G o := getDate env G o TAI FITS 0.

(* ================================================================== *)
(** * XTime.h: XTimeRange *)
(* ================================================================== *)

Record XTimeRange : Type := mkXTimeRange {
  start : XTime;
  stop : XTime;
  empty : Z
}.

(** [void XTimeRange::setEmpty (void)] *)
Definition setEmpty (r : XTimeRange) : XTimeRange :=
  let t1 := getMET (start r) in
  let t2 := getMET (stop r) in
  if (t2 <=? t1)%float || (t1 <=? 0.0)%float || (t2 <=? 0.0)%float
  then mkXTimeRange (start r) (stop r) 1
  else mkXTimeRange (start r) (stop r) 0.

(** [XTimeRange::XTimeRange (void)] *)
Definition XTimeRange_void (env : Env) (G : Globals) : Globals * XTimeRange :=
  let (G, T1) := XTime_met env G 0.0%float in
  let (G, T2) := XTime_met env G 0.0%float in
  (G, mkXTimeRange T1 T2 1).

(** [XTimeRange::XTimeRange (const XTime &T1, const XTime &T2)] *)
Definition XTimeRange_TT (T1 T2 : XTime) : XTimeRange :=
  setEmpty (mkXTimeRange T1 T2 0).

(** [XTimeRange::XTimeRange (double t1, double t2)] *)
Definition XTimeRange_dd (env : Env) (G : Globals) (t1 t2 : float)
    : Globals * XTimeRange :=
  let (G, T1) := XTime_met env G t1 in
  let (G, T2) := XTime_met env G t2 in
  (G, setEmpty (mkXTimeRange T1 T2 0)).

(** [void XTimeRange::setStart (const XTime &T1)], [setStop], [resetRange] *)
Definition setStart (r : XTimeRange) (T1 : XTime) : XTimeRange :=
  setEmpty (mkXTimeRange T1 (stop r) (empty r)).
Definition setStop (r : XTimeRange) (T2 : XTime) : XTimeRange :=
  setEmpty (mkXTimeRange (start r) T2 (empty r)).
Definition resetRange (r : XTimeRange) (T1 T2 : XTime) : XTimeRange :=
  setEmpty (mkXTimeRange T1 T2 (empty r)).

(** [double XTimeRange::METStart (void) const], [METStop] *)
Definition METStart (r : XTimeRange) : float := getMET (start r).
Definition METStop (r : XTimeRange) : float := getMET (stop r).

(** [int XTimeRange::isInRange (double t) const] *)
Definition isInRange (r : XTimeRange) (t : float) : Z :=
  if (t <? getMET (start r))%float then -1
  else if (getMET (stop r) <? t)%float then 1
  else if negb (empty r =? 0) then 1
  else 0.

(** [int XTimeRange::isInRange (const XTime &T) const] *)
Definition isInRange_T (r : XTimeRange) (T : XTime) : Z := isInRange r (getMET T).

(** [double XTimeRange::totalTime (void) const] *)
Definition totalTime (r : XTimeRange) : float :=
  if negb (empty r =? 0) then 0.0%float
  else (getMET (stop r) - getMET (start r))%float.

(** [int XTimeRange::isEmpty (void) const] *)
Definition isEmpty (r : XTimeRange) : Z := empty r.

(* ================================================================== *)
(** * XTime.h: XTimeRange, the overloads in MET seconds *)
(* ================================================================== *)

(** [void XTimeRange::setStart (double t1)]: [start.set (t1)] with the
    defaults [MET], [SECS], 0, 0.0. *)
Definition setStart_d (env : Env) (G : Globals) (r : XTimeRange) (t1 : float)
    : Globals * XTimeRange :=
  let (G, T1) := set_d env G (start r) t1 MET SECS 0 0.0%float in
  (G, setEmpty (mkXTimeRange T1 (stop r) (empty r))).

(** [void XTimeRange::setStop (double t2)] *)
Definition setStop_d (env : Env) (G : Globals) (r : XTimeRange) (t2 : float)
    : Globals * XTimeRange :=
  let (G, T2) := set_d env G (stop r) t2 MET SECS 0 0.0%float in
  (G, setEmpty (mkXTimeRange (start r) T2 (empty r))).

(** [void XTimeRange::resetRange (double t1, double t2)] *)
Definition resetRange_d (env : Env) (G : Globals) (r : XTimeRange) (t1 t2 : float)
    : Globals * XTimeRange :=
  let (G, T1) := set_d env G (start r) t1 MET SECS 0 0.0%float in
  let (G, T2) := set_d env G (stop r) t2 MET SECS 0 0.0%float in
  (G, setEmpty (mkXTimeRange T1 T2 (empty r))).

(** The implicit destructor of an [XTimeRange]: its two [XTime] members. *)
Definition XTimeRange_delete (G : Globals) : Globals :=
  XTime_delete (XTime_delete G).

(** [new XTimeRange[n]]: [n] default constructors, in order. *)
Fixpoint new_XTimeRanges (n : nat) (env : Env) (G : Globals)
    : Globals * list XTimeRange :=
  match n with
  | O => (G, [])
  | S k =>
      let (G, r) := XTimeRange_void env G in
      let (G, rs) := new_XTimeRanges k env G in
      (G, r :: rs)
  end.

(** [delete [] tr] for an array of the given ranges. *)
Definition delete_XTimeRanges (rs : list XTimeRange) (G : Globals) : Globals :=
  fold_left (fun G _ => XTimeRange_delete G) rs G.

(* ================================================================== *)
(** * XTime.h, XTime.cc: XTRList *)
(* ================================================================== *)

Module XTRList.

(** [tr] is the array the member of that name points to.  A result
    [None] of a method below is a read or write outside that array. *)
Record XTRList : Type := mkXTRList {
  listRange : XTimeRange;
  numXTRs : Z;
  tr : list XTimeRange;
  empty : Z
}.

(** A [const XTimeRange*] into [tr]. *)
Inductive ptr : Type :=
  | NULL
  | Elem (i : Z).      (* tr+i *)

(** [tr[i]] *)
Definition elem (a : list XTimeRange) (i : Z) : option XTimeRange :=
  if i <? 0 then None else nth_error a (Z.to_nat i).

(** [newXTR[j] = r] *)
Definition store (a : list XTimeRange) (j : Z) (r : XTimeRange)
    : option (list XTimeRange) :=
  if (0 <=? j) && (j <? Z.of_nat (List.length a)) then Some (aset a j r) else None.

(** [XTRList::XTRList (const XTimeRange &T)] *)
Definition XTRList_T (T : XTimeRange) : XTRList :=
  mkXTRList T 1 [T] (isEmpty T).

(** [int XTRList::getNumXTRs (void) const] *)
Definition getNumXTRs (l : XTRList) : Z := numXTRs l.

(** [const XTimeRange* XTRList::getRange (int i) const] *)
Definition getRange_i (l : XTRList) (i : Z) : ptr :=
  if (0 <=? i) && (i <? numXTRs l) then Elem i else NULL.

(** The loop [for (int i=0;i<numXTRs;i++) if ( !tr[i].isInRange (t) )
    return ...] shared by [isInRange] and [getRange]: where it returns, from
    index [i] on with [fuel] rounds left. *)
Fixpoint first_in (fuel : nat) (l : XTRList) (t : float) (i : Z) : option ptr :=
  match fuel with
  | O => Some NULL
  | S k =>
      match elem (tr l) i with
      | None => None
      | Some r =>
          if isInRange r t =? 0 then Some (Elem i) else first_in k l t (i + 1)
      end
  end.

(** [const XTimeRange* XTRList::getRange (double t) const] *)
Definition getRange (l : XTRList) (t : float) : option ptr :=
  first_in (Z.to_nat (numXTRs l)) l t 0.

(** [const XTimeRange* XTRList::getRange (const XTime &T) const]; the
    range's [isInRange (T)] is [isInRange (T.getMET())]. *)
Definition getRange_T (l : XTRList) (T : XTime) : option ptr :=
  first_in (Z.to_nat (numXTRs l)) l (getMET T) 0.

(** [int XTRList::isInRange (double t) const] *)
Definition isInRange (l : XTRList) (t : float) : option Z :=
  match first_in (Z.to_nat (numXTRs l)) l t 0 with
  | None => None
  | Some NULL => Some 1
  | Some (Elem _) => Some 0
  end.

(** [int XTRList::isInRange (const XTime &T) const] *)
Definition isInRange_T (l : XTRList) (T : XTime) : option Z :=
  match first_in (Z.to_nat (numXTRs l)) l (getMET T) 0 with
  | None => None
  | Some NULL => Some 1
  | Some (Elem _) => Some 0
  end.

(** [for (int i=0;i<numXTRs;i++) tt += tr[i].totalTime () ;] *)
Fixpoint sum_time (fuel : nat) (l : XTRList) (i : Z) (tt : float) : option float :=
  match fuel with
  | O => Some tt
  | S k =>
      match elem (tr l) i with
      | None => None
      | Some r => sum_time k l (i + 1) (tt + totalTime r)%float
      end
  end.

(** [double XTRList::totalTime (void) const] *)
Definition totalTime (l : XTRList) : option float :=
  if empty l =? 0 then sum_time (Z.to_nat (numXTRs l)) l 0 0.0%float
  else Some 0.0%float.

(** [for (i=0; i<numXTRs; i++) if ( tr[i].isEmpty() ) remove++ ;] *)
Fixpoint count_empty (fuel : nat) (l : XTRList) (i remove : Z) : option Z :=
  match fuel with
  | O => Some remove
  | S k =>
      match elem (tr l) i with
      | None => None
      | Some r =>
          count_empty k l (i + 1)
            (if negb (isEmpty r =? 0) then remove + 1 else remove)
      end
  end.

(** [for (i=0, j=0; i<numXTRs; i++) if ( !tr[i].isEmpty() ) newXTR[j++] = tr[i] ;] *)
Fixpoint copy_kept (fuel : nat) (l : XTRList) (i j : Z) (newXTR : list XTimeRange)
    : option (list XTimeRange) :=
  match fuel with
  | O => Some newXTR
  | S k =>
      match elem (tr l) i with
      | None => None
      | Some r =>
          if isEmpty r =? 0 then
            match store newXTR j r with
            | None => None
            | Some newXTR => copy_kept k l (i + 1) (j + 1) newXTR
            end
          else copy_kept k l (i + 1) j newXTR
      end
  end.

(** [int XTRList::isEmpty (void) const] *)
Definition isEmpty (l : XTRList) : Z := empty l.

(** [void XTRList::setListRange (void)] *)
Definition setListRange (env : Env) (G : Globals) (l : XTRList)
    : option (Globals * XTRList) :=
  let e := if negb (numXTRs l =? 0) then 0 else empty l in
  match count_empty (Z.to_nat (numXTRs l)) l 0 0 with
  | None => None
  | Some remove =>
      let compact : option (Globals * Z * list XTimeRange * Z) :=
        if negb (remove =? 0) then
          if numXTRs l <=? remove then Some (G, 0, tr l, 1)
          else
            let (G, newXTR) :=
              new_XTimeRanges (Z.to_nat (numXTRs l - remove)) env G in
            match copy_kept (Z.to_nat (numXTRs l)) l 0 0 newXTR with
            | None => None
            | Some newXTR =>
                Some (delete_XTimeRanges (tr l) G, numXTRs l - remove, newXTR, 0)
            end
        else Some (G, numXTRs l, tr l, e) in
      match compact with
      | None => None
      | Some (G, n, a, e) =>
          if e =? 0 then
            match elem a 0, elem a (n - 1) with
            | Some r0, Some r1 =>
                let (G, lr) :=
                  resetRange_d env G (listRange l) (METStart r0) (METStop r1) in
                Some (G, mkXTRList lr n a e)
            | _, _ => None
            end
          else
            let (G, lr) := resetRange_d env G (listRange l) 0.0%float (-1.0)%float in
            Some (G, mkXTRList lr n a e)
      end
  end.

End XTRList.

(* ================================================================== *)
(** * axTime3.cc *)
(* ================================================================== *)

Definition is_one_of (c : ascii) (cs : string) : bool := has_char c cs.

(** [int readsys (char *tsys, XTime::TimeSys *tSys)]: the value returned
    and [*tSys] afterwards. *)
Definition readsys (tsys : string) (tSys : TimeSys) : Z * TimeSys :=
  let c := char_at tsys 0 in
  if is_one_of c "mM" then (0, MET)
  else if is_one_of c "tT" then
    (if is_one_of (char_at tsys 1) "aA" then (0, TAI) else (0, TT))
  else if is_one_of c "aA" then (0, TAI)
  else if is_one_of c "uU" then (0, UTC)
  else if is_one_of c "qQxX" then (-1, tSys)
  else (1, tSys).

(** What [readform] leaves in its four result locations. *)
Record Form : Type := mkForm {
  tForm : TimeFormat;
  hexfmt : Z;
  nmday : Z;
  dec : Z
}.

(** [int readform (char *tform, XTime::TimeFormat *tForm,
                   int *hex, int *nmday, int *dec)] *)
Definition readform (tform : string) (f : Form) : Z * Form :=
  let c := char_at tform 0 in
  let '(quit, tf, hex, nmd) :=
    if is_one_of c "sS" then (0, SECS, 0, 0)
    else if is_one_of c "jJ" then (0, JD, 0, 0)
    else if is_one_of c "mM" then (0, MJD, 0, 0)
    else if is_one_of c "dD" then (0, DATE, 0, 0)
    else if is_one_of c "cC" then (0, CALDATE, 0, 0)
    else if is_one_of c "fF" then (0, FITS, 0, 0)
    else if is_one_of c "hH" then (0, SECS, 1, 0)
    else if is_one_of c "nN" then (0, SECS, 0, 1)
    else if is_one_of c "qQxX" then (-1, tForm f, 0, 0)
    else (1, tForm f, 0, 0) in
  let dec' :=
    match tf with
    | DATE | CALDATE | FITS =>
        if (47 <? ord (char_at tform 1)) && (ord (char_at tform 1) <? 58)
        then arg_long (scan [Conv_d] (str_from 1 tform)) 0 (dec f)
        else 0
    | _ => dec f
    end in
  (quit, mkForm tf hex nmd dec').

(** [XTime *getinput (int argc, char *argv[])]; [None] is [NULL]. *)
Definition getinput (env : Env) (G : Globals) (argv : list string)
    : Globals * option XTime :=
  let argc := Z.of_nat (List.length argv) in
  let arg (i : Z) : string := nth (Z.to_nat i) argv "" in
  if argc <? 2 then (G, None)
  else
    (* what the shape of argv[1] says: (str is set, tForm, nmday, day) *)
    let by_shape (f : Form) : bool * Form * Z :=
      if Ascii.eqb (char_at (arg 1) 4) "-" && Ascii.eqb (char_at (arg 1) 7) "-"
      then (true, mkForm FITS (hexfmt f) (nmday f) (dec f), 0)
      else if has_char ":" (arg 1) then
        let day := arg_long (scan [Conv_d; Lit ":"] (arg 1)) 0 0 in
        if (day <? 1900) && (366 <? day)
        then (false, mkForm SECS (hexfmt f) 1 (dec f), day)
        else (true, mkForm DATE (hexfmt f) (nmday f) (dec f), day)
      else (false, f, 0) in
    let f0 := mkForm SECS 0 0 0 in
    let '(error, ch, str, tSys, f, getform, day, mjdi, mjdf) :=
      if argc =? 2 then
        let '(ch, f, day) := by_shape f0 in
        let plain := negb (Ascii.eqb (char_at (arg 1) 4) "-" && Ascii.eqb (char_at (arg 1) 7) "-")
                     && negb (has_char ":" (arg 1)) in
        (0, ch, arg 1, MET, f, plain, day, 0, 0.0%float)
      else
        let '(istrt, ch, str, f, day) :=
          if (4 <=? argc) && (String.eqb (arg 2) "at" || String.eqb (arg 2) "AT")
          then (4, true, arg 1 ++ " " ++ arg 2 ++ " " ++ arg 3,
                mkForm CALDATE 0 0 0, 0)
          else let '(ch, f, day) := by_shape f0 in (2, ch, arg 1, f, day) in
        let '(error, tSys) :=
          if istrt <? argc then readsys (arg istrt) MET else (0, MET) in
        let '(error, f, getform) :=
          if error =? 0 then
            if istrt + 1 <? argc
            then let (e, f) := readform (arg (istrt + 1)) f in (e, f, false)
            else (error, f, negb ch)
          else (error, f, false) in
        let '(mjdi, mjdf) :=
          if istrt + 4 <? argc
          then (atoi (arg (istrt + 2)),
                if istrt + 5 <? argc then atof (arg (istrt + 3)) else 0.0%float)
          else (0, 0.0%float) in
        (error, ch, str, tSys, f, getform, day, mjdi, mjdf) in
    if negb (error =? 0) then (G, None)
    else if negb ch then
      let t :=
        if negb (hexfmt f =? 0)
        then Z2d (arg_long (scan [Conv_x] (arg 1)) 0 0)
        else if negb (nmday f =? 0) then
          let r := scan [Conv_d; Lit ":"; Conv_d; Lit ":"; Conv_d; Lit ":"; Conv_lg] (arg 1) in
          let day := arg_long r 0 day in
          let h := arg_long r 1 0 in
          let m := arg_long r 2 0 in
          let t := arg_double r 3 (raw_double (indet env)) in
          (t + Z2d (86400 * day + 3600 * h + 60 * m))%float
        else atof (arg 1) in
      let tf := if getform then
                  if (t <? 100000.0)%float then MJD
                  else if (t <? 2500000.0)%float then JD
                  else SECS
                else tForm f in
      let (G, T) := XTime_d env G t tSys tf mjdi mjdf in
      (G, Some T)
    else
      let (G, T) := XTime_str env G str tSys (tForm f) mjdi mjdf in
      (G, Some T).

(** The three messages [axTime3] writes instead of a time. *)
Definition msg_getinput : string := "Error: Incorrect time format; try again".
Definition msg_readsys : string := "Error: Failed readsys".
Definition msg_readform : string := "Error: Failed readform".

(** [void axTime3 (char *time_in, char *ts_in, char *tf_in,
                   char *ts_out, char *tf_out, char *time_out)]:
    the statics afterwards and the text left in [time_out].
    [None]: [getDate] does not return. *)
Definition axTime3 (env : Env) (G : Globals)
    (time_in ts_in tf_in ts_out tf_out : string) : option (Globals * string) :=
  let argv := ["convert_time"; time_in; ts_in; tf_in; ts_out; tf_out] in
  match getinput env G argv with
  | (G, None) => Some (G, msg_getinput)
  | (G, Some T) =>
      let '(e_sys, tSys) := readsys ts_out (raw_sys (indet env)) in
      let '(e_form, f) := readform tf_out (mkForm (raw_form (indet env)) 0 0 0) in
      if negb (e_form =? 0) then Some (XTime_delete G, msg_readform)
      else if negb (e_sys =? 0) then Some (XTime_delete G, msg_readsys)
      else
        match tForm f with
        | SECS | JD | MJD =>
            let t := get T tSys (tForm f) in
            if negb (hexfmt f =? 0) then
              let jt := l2u (d2ul t) in
              Some (XTime_delete G, "0x" ++ fmt_x 7 jt)
            else if negb (nmday f =? 0) then
              let day := Z.quot (d2i t) 86400 in
              let t := (t - Z2d (day * 86400))%float in
              let h := Z.quot (d2i t) 3600 in
              let t := (t - Z2d (h * 3600))%float in
              let m := Z.quot (d2i t) 60 in
              let t := (t - Z2d (m * 60))%float in
              Some (XTime_delete G,
                    fmt_d false 0 day ++ ":" ++ fmt_d false 0 h ++ ":"
                    ++ fmt_d false 0 m ++ ":" ++ fmt_f false 0 10 t)
            else Some (XTime_delete G, fmt_f false 0 9 t)
        | DATE | CALDATE | FITS =>
            match getDate env G T tSys (tForm f) (dec f) with
            | Some (G, s) => Some (XTime_delete G, s)
            | None => None
            end
        end
  end.

(* ================================================================== *)
(** * Sample inputs and the notions the statements use *)
(* ================================================================== *)

(** No tai-utc.dat can be opened: the built-in table is used. *)
Definition env_builtin (w : Z) (ind : Indet) : Env := mkEnv w None None ind.

Definition raw_zero : XTime :=
  mkXTime 0 0.0%float 0.0%float 0 0.0%float 0 0.0%float 0.0%float.
Definition indet_zero : Indet := mkIndet raw_zero 0 0.0%float MET SECS.
Definition env_zero : Env := env_builtin 0 indet_zero.

(** The statics once the first object has been created without a file. *)
Definition Globals_builtin : Globals := setleaps env_zero dt_default Globals0.

(** The default epoch, MJD 50814.0 (1998-01-01T00:00:00 TT). *)
Definition epoch_1998 : XTime :=
  mkXTime MJDREFint MJDREFfr 0.0%float MJDREFint MJDREFfr 0 REFLEAPS REFLEAPS.

(** An epoch given as MJD (TT), set on the default object. *)
Definition at_TT_mjd (mjdi : Z) (mjdf : float) : XTime :=
  snd (set_ld env_zero Globals_builtin epoch_1998 mjdi mjdf TT MJD 0 0.0%float).

(** The text [axTime3] leaves in [time_out]. *)
Definition time_out (r : option (Globals * string)) : option string :=
  option_map snd r.

(** [axTime3] reports a failure by one of its three messages. *)
Definition reports_error (r : option (Globals * string)) : Prop :=
  time_out r = Some msg_getinput \/ time_out r = Some msg_readsys
  \/ time_out r = Some msg_readform.

(** The object a constructor with a time system leaves when its [set]
    call does nothing: [MJDint], [MJDfr] and [myLeaps] are whatever the
    storage held. *)
Definition unset_epoch (ind : Indet) : XTime :=
  with_leapflag (ctor_init (raw_XTime ind)) 0.

(** Two objects with the same reference epoch fields. *)
Definition same_ref (a b : XTime) : Prop :=
  MJDrefint a = MJDrefint b /\ MJDreffr a = MJDreffr b /\ refLeaps a = refLeaps b.

(** A tai-utc.dat that lacks the line of 1972 JUL 1 and ends after two
    lines; [err] is what [ferror] says after reading it. *)
Definition file_short (err : bool) : LeapFile :=
  mkLeapFile [(1972, 41317, 10.0%float); (1973, 41683, 12.0%float)] err.

Definition env_short (err : bool) : Env :=
  mkEnv 100 (Some (file_short err)) None indet_zero.

(** "yyyy:366:00:00:00" and "yyyy:001:00:00:00". *)
Definition date_366 (y : Z) : string := utoa y ++ ":366:00:00:00".
Definition date_001 (y : Z) : string := utoa y ++ ":001:00:00:00".

(** Construct an epoch from an ordinal date (TT) and show it again in the
    same system and format, with no decimals. *)
Definition parse_and_show (env : Env) (G : Globals) (date : string) : option string :=
  let (G, T) := XTime_str env G date TT DATE 0 0.0%float in
  option_map snd (getDate env G T TT DATE 0).

(** Where day 366 of year [y] is shown: in [y] if [y % 4 == 0], else as the
    first day of [y + 1]. *)
Definition shown_366 (y : Z) : string :=
  if Z.rem y 4 =? 0 then date_366 y else date_001 (y + 1).

(** Value and length of a decimal numeral read from the left. *)
Fixpoint uint_val (acc : Z) (d : Decimal.uint) : Z :=
  match d with
  | Decimal.Nil => acc
  | Decimal.D0 l => uint_val (10 * acc + 0) l
  | Decimal.D1 l => uint_val (10 * acc + 1) l
  | Decimal.D2 l => uint_val (10 * acc + 2) l
  | Decimal.D3 l => uint_val (10 * acc + 3) l
  | Decimal.D4 l => uint_val (10 * acc + 4) l
  | Decimal.D5 l => uint_val (10 * acc + 5) l
  | Decimal.D6 l => uint_val (10 * acc + 6) l
  | Decimal.D7 l => uint_val (10 * acc + 7) l
  | Decimal.D8 l => uint_val (10 * acc + 8) l
  | Decimal.D9 l => uint_val (10 * acc + 9) l
  end.

Fixpoint uint_len (d : Decimal.uint) : nat :=
  match d with
  | Decimal.Nil => O
  | Decimal.D0 l | Decimal.D1 l | Decimal.D2 l | Decimal.D3 l | Decimal.D4 l
  | Decimal.D5 l | Decimal.D6 l | Decimal.D7 l | Decimal.D8 l | Decimal.D9 l =>
      S (uint_len l)
  end.

(** Days of the year whose place in the four-year cycle is [i]. *)
Definition year_len (i : Z) : Z := if i =? 0 then 366 else 365.

(** Days of [n] years, the first at place [i] of the cycle, and the place
    of the year after them. *)
Fixpoint span (n : nat) (i : Z) : Z :=
  match n with
  | O => 0
  | S k => year_len i + span k (Z.rem (i + 1) 4)
  end.

Fixpoint place_after (n : nat) (i : Z) : Z :=
  match n with
  | O => i
  | S k => place_after k (Z.rem (i + 1) 4)
  end.

Ltac case_if :=
  match goal with
  | |- context [if ?b then _ else _] => destruct b
  end.

(** Replace a closed boolean test or conversion by its value. *)
Ltac eval_if :=
  match goal with
  | |- context [if ?c then _ else _] =>
      let v := eval vm_compute in c in change c with v; cbv iota
  end.

(* ================================================================== *)
(** * Further notions: codes, texts, tables and lists *)
(* ================================================================== *)

(** The letters [readsys] and [readform] tell apart. *)
Definition code_classes : list string :=
  ["mM"; "tT"; "aA"; "uU"; "qQxX"; "sS"; "jJ"; "dD"; "cC"; "fF"; "hH"; "nN"].

(** What a change of letter case keeps of a character: its place in each
    class of code letters, whether it is white space, a digit or a sign, and
    the digit itself. *)
Definition case_ok (f : ascii -> ascii) (c : ascii) : bool :=
  forallb (fun p => Bool.eqb (is_one_of (f c) p) (is_one_of c p)) code_classes
  && Bool.eqb (isspace (f c)) (isspace c)
  && Bool.eqb (isdigit (f c)) (isdigit c)
  && Bool.eqb (Ascii.eqb (f c) "-") (Ascii.eqb c "-")
  && Bool.eqb (Ascii.eqb (f c) "+") (Ascii.eqb c "+")
  && (Ascii.eqb (f c) c || negb (isdigit c)).

Definition case_map (f : ascii -> ascii) : Prop := forall c, case_ok f c = true.

(** [readsys] and [readform] return 0 for the text. *)
Definition sys_code_ok (s : string) : bool := fst (readsys s MET) =? 0.
Definition form_code_ok (s : string) : bool :=
  fst (readform s (mkForm SECS 0 0 0)) =? 0.

(** A text that does not begin with the letter E. *)
Definition safe_head (s : string) : bool :=
  match s with
  | String c _ => negb (Ascii.eqb c "E")
  | EmptyString => false
  end.

(** The formats that are date strings. *)
Definition is_date_form (tf : TimeFormat) : bool :=
  match tf with DATE | CALDATE | FITS => true | _ => false end.

(** The rows [setleaps] keeps: those of a year after 1970. *)
Definition kept_rows (rs : list LeapRow) : list LeapRow :=
  filter (fun r => 1970 <? fst (fst r)) rs.

Definition row_mjd (r : LeapRow) : Z := snd (fst r).
Definition row_secs (r : LeapRow) : float := snd r.
Definition row0 : LeapRow := (0, 0, 0%float).

(** The file [setleaps] reads: $TIMING_DIR/tai-utc.dat if it opens, else
    $ASC_DATA/tai-utc.dat. *)
Definition leap_file (env : Env) : option LeapFile :=
  match TIMING_DIR env with
  | Some f => Some f
  | None => ASC_DATA env
  end.

(** "%4d:%03d:00:00:00": the text of midnight of day [d] of year [y]. *)
Definition midnight (y d : Z) : string :=
  fmt_d false 4 y ++ ":" ++ fmt_d true 3 d ++ ":00:00:00".

(** The days of year [y] by the rule of the code. *)
Definition days_in_year (y : Z) : Z := if Z.rem y 4 =? 0 then 366 else 365.

(** No decimal digit comes first. *)
Definition no_digit_ahead (rest : string) : Prop :=
  forall a k, take_digits a k rest = (a, k, rest).

(** The month table is the one the program starts with, but for February. *)
Definition months_ok (G : Globals) : Prop :=
  exists feb, daymonth G = aset (daymonth Globals0) 1 feb.

(** Days of month [m] (1..12) of year [y], and the day of the year of its
    day [d], by the table of the code. *)
Definition days_in_month (y m : Z) : Z :=
  aget (daymonth (set_february Globals0 y)) (m - 1) 0.
Definition day_of_year (y m d : Z) : Z :=
  add_months (set_february Globals0 y) (m - 1) d.

(** Midnight of a calendar day in the three date forms:
    "%4d:%03d:00:00:00", "%04d%s%02d at 00:00:00", "%04d-%02d-%02dT00:00:00". *)
Definition date_text (tf : TimeFormat) (y m d : Z) : string :=
  match tf with
  | DATE => midnight y (day_of_year y m d)
  | CALDATE => fmt_d true 4 y ++ nth (Z.to_nat (m - 1)) month ""
               ++ fmt_d true 2 d ++ " at 00:00:00"
  | FITS => fmt_d true 4 y ++ "-" ++ fmt_d true 2 m ++ "-"
            ++ fmt_d true 2 d ++ "T00:00:00"
  | _ => ""
  end.

(** "%04d-%02d-%02d": a FITS date with no time of day. *)
Definition fits_day (y m d : Z) : string :=
  fmt_d true 4 y ++ "-" ++ fmt_d true 2 m ++ "-" ++ fmt_d true 2 d.

(** Construct an epoch from a date text (TT) in one form and show it in
    another. *)
Definition convert_date (env : Env) (G : Globals) (date : string)
    (tf_in tf_out : TimeFormat) : option string :=
  let (G, T) := XTime_str env G date TT tf_in 0 0.0%float in
  option_map snd (getDate env G T TT tf_out 0).

(** [getinput] hands the value to [set (const char*, ...)]: it has '-' at
    places 4 and 7, or it has a ':' and its leading number is not one of
    367..1899. *)
Definition reads_as_text (a : string) : bool :=
  (Ascii.eqb (char_at a 4) "-" && Ascii.eqb (char_at a 7) "-")
  || (has_char ":" a
      && negb ((arg_long (scan [Conv_d; Lit ":"] a) 0 0 <? 1900)
               && (366 <? arg_long (scan [Conv_d; Lit ":"] a) 0 0))).

(** A code letter for each format. *)
Definition form_code (tf : TimeFormat) : string :=
  match tf with
  | DATE => "d"
  | CALDATE => "c"
  | FITS => "f"
  | SECS => "s"
  | JD => "j"
  | MJD => "m"
  end.

(** The ranges of a list, [tr[0]] to [tr[numXTRs-1]]. *)
Definition members (l : XTRList.XTRList) : list XTimeRange :=
  firstn (Z.to_nat (XTRList.numXTRs l)) (XTRList.tr l).

(** [!r.isEmpty ()] *)
Definition not_empty (r : XTimeRange) : bool := isEmpty r =? 0.

(** [tr] holds the [numXTRs] ranges of the list. *)
Definition holds_members (l : XTRList.XTRList) : Prop :=
  0 <= XTRList.numXTRs l <= Z.of_nat (List.length (XTRList.tr l)).

(** A list of one range from [t1] to [t2] (MET seconds). *)
Definition list_of_range (t1 t2 : float) : XTRList.XTRList :=
  XTRList.XTRList_T (snd (XTimeRange_dd env_zero Globals_builtin t1 t2)).

(** A range from [t1] to [t2] (MET seconds). *)
Definition range_of (t1 t2 : float) : XTimeRange :=
  snd (XTimeRange_dd env_zero Globals_builtin t1 t2).

(** A list of three ranges, the second of which is empty: it stops where
    it starts. *)
Definition list_with_empty_range : XTRList.XTRList :=
  XTRList.mkXTRList (range_of 100.0 500.0) 3
    [range_of 100.0 200.0; range_of 300.0 300.0; range_of 400.0 500.0] 0.

(** A table of two entries: the statics once [file_short] has been loaded,
    at time 100, by the first object. *)
Definition Globals_short : Globals := setleaps (env_short false) dt_default Globals0.

(** A tai-utc.dat of three lines, read without error at time 1000. *)
Definition file_three : LeapFile :=
  mkLeapFile [(1972, 41317, 10.0%float); (1972, 41499, 11.0%float);
              (1973, 41683, 12.0%float)] false.

Definition env_three : Env := mkEnv 1000 (Some file_three) None indet_zero.

(** The epoch 49161360.0 s (TT) after the reference epoch: MJD 51382 and
    the fraction of that day, as [set] computes them.  Neither depends on
    the leap second table. *)
Definition tt_1999_204 : XTime :=
  snd (set_d env_zero Globals_builtin epoch_1998 49161360.0%float TT SECS 0 0.0%float).

(** What the table of [G] holds for the epoch of [o]: the leap seconds and
    the leap second flag [set] stores in [myLeaps] and [leapflag]. *)
Definition leaps_at (G : Globals) (o : XTime) : float * Z :=
  setmyleaps G (MJDint o) (MJDfr o + timeZero o)%float.

(** [getinput] looks at [argv[1][4]] and, if that is '-', at [argv[1][7]]:
    both lie inside the value or are its terminator. *)
Definition shape_read_in_bounds (a : string) : bool :=
  (4 <=? String.length a)%nat
  && (negb (Ascii.eqb (char_at a 4) "-") || (7 <=? String.length a)%nat).

(** The value has no letter x: it holds no hexadecimal floating constant,
    which [strtod] reads and [scan_double] does not. *)
Definition no_hex (a : string) : bool :=
  negb (has_char "x" a) && negb (has_char "X" a).

(** The twelve cases of a month number. *)
Ltac month_cases m :=
  let Hc := fresh "Hc" in
  assert (Hc : m = 1 \/ m = 2 \/ m = 3 \/ m = 4 \/ m = 5 \/ m = 6 \/ m = 7
               \/ m = 8 \/ m = 9 \/ m = 10 \/ m = 11 \/ m = 12) by lia;
  repeat (destruct Hc as [-> | Hc]); [.. | subst m].

(** Settle a comparison that linear arithmetic decides. *)
Ltac decide_ltb :=
  match goal with
  | |- context [?a <? ?b] =>
      first [ replace (a <? b) with true by (symmetry; apply Z.ltb_lt; lia)
            | replace (a <? b) with false by (symmetry; apply Z.ltb_ge; lia) ]
  end.

(** Evaluate closed indices and the table entries read at them. *)
Ltac eval_index :=
  repeat match goal with
         | |- context [Z.to_nat ?z] =>
             let v := eval cbv in (Z.to_nat z) in progress change (Z.to_nat z) with v
         end;
  cbn [seq fold_left nth];
  repeat match goal with
         | |- context [aget ?l ?i 0] =>
             let v := eval cbv in (aget l i 0) in progress change (aget l i 0) with v
         end.

(* ================================================================== *)
(** * The get methods *)
(* ================================================================== *)

(** C2. For every epoch, the UTC seconds [get (UTC, SECS)] are the MET
    seconds [get (MET, SECS)] minus the cached leap seconds at this instant
    plus the cached leap seconds at the reference epoch, as one and the same
    double. *)
Theorem get_UTC_SECS_is_MET_minus_leaps :
  forall o : XTime,
    get o UTC SECS = (get o MET SECS - myLeaps o + refLeaps o)%float.
Proof.
  intros o. unfold get, getUTC, getMET. reflexivity.
Qed.

(** The seconds views of TT and TAI are the MET view. *)
Lemma get_SECS_TT_TAI_MET :
  forall o : XTime,
    get o TAI SECS = get o TT SECS /\ get o TT SECS = get o MET SECS
    /\ get o MET SECS = getMET o.
Proof.
  intros o. unfold get, getTAI, getTT. repeat split.
Qed.

(** C3, as the code has it. [get (TAI, SECS)] and [get (TT, SECS)] return
    the same double, the MET seconds; [TAImjd ()] is [TTmjd ()] less the
    constant [TAI2TT * SEC2DAY], the same constant at every epoch, the
    subtraction being a rounded double operation. *)
Theorem TAI_TT_seconds_equal_and_TAImjd_offset :
  forall o : XTime,
    get o TAI SECS = get o TT SECS /\
    get o TT SECS = get o MET SECS /\
    TAImjd o = (TTmjd o - TAI2TT * SEC2DAY)%float.
Proof.
  intros o. destruct (get_SECS_TT_TAI_MET o) as (H1 & H2 & _).
  repeat split; assumption.
Qed.

(** C3 fails as stated: at the default epoch the difference of the two MJD
    views, computed in doubles, is 0.00037249999877531081 and not
    [TAI2TT * SEC2DAY] = 0.00037249999999999995, 32.184 s in days. *)
Lemma TTmjd_minus_TAImjd_not_exact :
  (TTmjd epoch_1998 - TAImjd epoch_1998)%float <> (TAI2TT * SEC2DAY)%float.
Proof.
  intro H.
  assert (E : PrimFloat.eqb (TTmjd epoch_1998 - TAImjd epoch_1998)%float
                            (TAI2TT * SEC2DAY)%float = false)
    by (vm_compute; reflexivity).
  rewrite H in E. vm_compute in E. discriminate E.
Qed.

(* ================================================================== *)
(** * Properties of XTimeRange *)
(* ================================================================== *)

(** C10. An empty range (its flag [empty] is set) has total time 0.0, and
    [isInRange] never answers 0 for it: a time before the start gives -1,
    every other time gives 1. *)
Theorem empty_range_holds_no_instant :
  forall (r : XTimeRange) (t : float),
    empty r <> 0 ->
    totalTime r = 0.0%float /\
    isInRange r t <> 0 /\
    ((t <? getMET (start r))%float = true -> isInRange r t = -1) /\
    ((t <? getMET (start r))%float = false -> isInRange r t = 1).
Proof.
  intros r t He.
  assert (Hb : negb (empty r =? 0) = true).
  { apply negb_true_iff, Z.eqb_neq. exact He. }
  unfold totalTime, isInRange. rewrite Hb.
  split; [reflexivity|].
  destruct (t <? getMET (start r))%float; destruct (getMET (stop r) <? t)%float;
    repeat split; intros; try discriminate; reflexivity.
Qed.

(** The range [XTimeRange ()] creates is such a range. *)
Lemma empty_range_holds_no_instant_witness :
  let r := snd (XTimeRange_void env_zero Globals0) in
  empty r <> 0 /\ totalTime r = 0.0%float /\ isInRange r 5.0%float = 1.
Proof.
  cbv zeta.
  assert (He : empty (snd (XTimeRange_void env_zero Globals0)) <> 0)
    by (vm_compute; discriminate).
  destruct (empty_range_holds_no_instant _ 5.0%float He) as (Ht & _ & _ & H1).
  split; [exact He|]. split; [exact Ht|].
  apply H1. vm_compute. reflexivity.
Defined.

(* ================================================================== *)
(** * The reference epoch is touched by the MJDref block only *)
(* ================================================================== *)

Lemma same_ref_refl : forall a, same_ref a a.
Proof. intros a. repeat split. Qed.

Lemma same_ref_trans : forall a b c, same_ref a b -> same_ref b c -> same_ref a c.
Proof.
  intros a b c (H1 & H2 & H3) (K1 & K2 & K3).
  repeat split; congruence.
Qed.

Lemma same_ref_with_leapflag : forall o lf, same_ref (with_leapflag o lf) o.
Proof. intros. repeat split. Qed.

Lemma same_ref_with_myLeaps : forall o ml, same_ref (with_myLeaps o ml) o.
Proof. intros. repeat split. Qed.

Lemma same_ref_with_MJD : forall o mi mf, same_ref (with_MJD o mi mf) o.
Proof. intros. repeat split. Qed.

Lemma set_finish_same_ref :
  forall G o k x total ts, same_ref (set_finish G o k x total ts) o.
Proof.
  intros G o k x total ts. unfold set_finish.
  case_if; destruct ts;
    try (match goal with
         | |- context [setmyleaps ?g ?a ?b] => destruct (setmyleaps g a b)
         end);
    repeat split.
Qed.

Lemma set_time_same_ref :
  forall G o tti ttf ts tf, same_ref (set_time G o tti ttf ts tf) o.
Proof.
  intros G o tti ttf ts tf. unfold set_time.
  destruct tf; destruct ts; cbv zeta; repeat case_if;
    try apply same_ref_refl;
    (eapply same_ref_trans; [apply set_finish_same_ref|]);
    repeat split.
Qed.

(** With no reference supplied, [set (long, double, ...)] is the switch over
    the format, and the statics stay as they are. *)
Lemma set_ld_no_reference :
  forall env G o tti ttf ts tf mjdi mjdf,
    mjdi <= 1 ->
    set_ld env G o tti ttf ts tf mjdi mjdf
    = (G, set_time G (with_leapflag o 0) tti ttf ts tf).
Proof.
  intros env G o tti ttf ts tf mjdi mjdf H. unfold set_ld.
  assert (E : (1 <? mjdi) = false) by (apply Z.ltb_ge; exact H).
  rewrite E. reflexivity.
Qed.

Lemma set_ld_same_ref :
  forall env G o tti ttf ts tf mjdi mjdf,
    mjdi <= 1 -> same_ref (snd (set_ld env G o tti ttf ts tf mjdi mjdf)) o.
Proof.
  intros. rewrite set_ld_no_reference by assumption. cbn [snd].
  eapply same_ref_trans; [apply set_time_same_ref | apply same_ref_with_leapflag].
Qed.

Lemma set_str_same_ref :
  forall env G o date ts tf mjdi mjdf,
    mjdi <= 1 -> same_ref (snd (set_str env G o date ts tf mjdi mjdf)) o.
Proof.
  intros env G o date ts tf mjdi mjdf H. unfold set_str.
  destruct tf; cbv zeta; try apply same_ref_refl.
  - case_if; [apply same_ref_refl|]. unfold set_fields.
    apply set_ld_same_ref; assumption.
  - case_if; [apply same_ref_refl|].
    destruct (month_loop _ _ _ _ _); [|apply same_ref_refl].
    unfold set_fields. apply set_ld_same_ref; assumption.
  - case_if; [apply same_ref_refl|]. unfold set_fields.
    apply set_ld_same_ref; assumption.
Qed.

(** The local object of the MJDref block is the object the constructor
    [XTime (long, double, TimeSys, TimeFormat, long, double)] builds with its
    default arguments. *)
Lemma XTime_mt_is_constructor :
  forall env G tti ttf ts,
    XTime_ld env G tti ttf ts MJD 0 0.0%float = XTime_mt env G tti ttf ts.
Proof.
  intros env G tti ttf ts. unfold XTime_ld, XTime_mt.
  rewrite set_ld_no_reference by lia. reflexivity.
Qed.

(** A supplied [mjdi] of 2 does replace the reference epoch. *)
Lemma set_replaces_reference_at_2 :
  MJDrefint (snd (set_d env_zero Globals_builtin epoch_1998
                        100.0%float TT SECS 2 0.75%float)) = 2 /\
  MJDreffr (snd (set_d env_zero Globals_builtin epoch_1998
                       100.0%float TT SECS 2 0.75%float)) = 0.75%float.
Proof.
  split; vm_compute; reflexivity.
Qed.

(** C9. In every [set] call the stored reference epoch ([MJDrefint],
    [MJDreffr], [refLeaps]) changes only if the supplied [mjdi] is greater
    than 1: for [mjdi <= 1] the three fields keep their values, whatever
    [mjdf] is, in each of the three overloads. *)
Theorem set_keeps_reference_unless_mjdi_above_1 :
  forall env G o ts tf mjdi mjdf,
    mjdi <= 1 ->
    (forall tti ttf, same_ref (snd (set_ld env G o tti ttf ts tf mjdi mjdf)) o) /\
    (forall tt, same_ref (snd (set_d env G o tt ts tf mjdi mjdf)) o) /\
    (forall date, same_ref (snd (set_str env G o date ts tf mjdi mjdf)) o).
Proof.
  intros env G o ts tf mjdi mjdf H. split; [|split]; intros.
  - apply set_ld_same_ref; assumption.
  - unfold set_d. apply set_ld_same_ref; assumption.
  - apply set_str_same_ref; assumption.
Qed.

Lemma set_keeps_reference_unless_mjdi_above_1_witness :
  1 <= 1 /\
  same_ref (snd (set_d env_zero Globals_builtin epoch_1998 100.0%float UTC SECS 1 0.75%float))
           epoch_1998.
Proof.
  split; [lia|].
  apply (proj1 (proj2 (set_keeps_reference_unless_mjdi_above_1
                         env_zero Globals_builtin epoch_1998 UTC SECS 1 0.75%float
                         ltac:(lia)))).
Defined.

(* ================================================================== *)
(** * The conversion entry point on given inputs *)
(* ================================================================== *)

(** [getinput] on the arguments [axTime3] builds from "49161360.0", "tt",
    "s": the value is read by [atof] and handed to the constructor for
    numbers. *)
Lemma getinput_49161360 :
  forall env G d e,
    getinput env G ["convert_time"; "49161360.0"; "tt"; "s"; d; e]
    = (fst (XTime_d env G 49161360.0%float TT SECS 0 0.0%float),
       Some (snd (XTime_d env G 49161360.0%float TT SECS 0 0.0%float))).
Proof.
  intros env G d e. unfold getinput.
  cbv -[XTime_d].
  destruct (XTime_d env G _ TT SECS 0 _). reflexivity.
Qed.

(** The object that constructor leaves: every member is written, the leap
    seconds and the flag from the table in effect. *)
Lemma XTime_d_49161360 :
  forall env G ml m,
    leaps_at (setleaps env dt_default G) tt_1999_204 = (ml, m) ->
    XTime_d env G 49161360.0%float TT SECS 0 0.0%float
    = (setleaps env dt_default G,
       mkXTime (MJDint tt_1999_204) (MJDfr tt_1999_204) 0.0%float
               MJDREFint MJDREFfr m ml REFLEAPS).
Proof.
  intros env G ml m. unfold XTime_d, set_d, set_ld, leaps_at.
  generalize (setleaps env dt_default G). intros G1.
  let v := eval vm_compute in (MJDint tt_1999_204) in
    change (MJDint tt_1999_204) with v.
  let v := eval vm_compute in (MJDfr tt_1999_204) in
    change (MJDfr tt_1999_204) with v.
  let v := eval vm_compute in (timeZero tt_1999_204) in
    change (timeZero tt_1999_204) with v.
  intros H.
  cbv -[setmyleaps]. cbv -[setmyleaps] in H.
  rewrite H. reflexivity.
Qed.

(** Its UTC date with 32 leap seconds, without decimals and with three. *)
Lemma utc_date_of_tt_1999_204 :
  forall env G,
    let T := mkXTime (MJDint tt_1999_204) (MJDfr tt_1999_204) 0.0%float
               MJDREFint MJDREFfr 0 32.0%float REFLEAPS in
    getDate env G T UTC DATE 0 = Some (G, "1999:204:23:54:56") /\
    getDate env G T UTC DATE 3 = Some (G, "1999:204:23:54:55.816").
Proof.
  intros env G. split; vm_compute; reflexivity.
Qed.

(** C1 fails as stated: with the built-in table, the text for the code "d"
    is "1999:204:23:54:56"; it does not begin with "1999:204:23:54:55.816". *)
Lemma code_d_shows_whole_seconds :
  time_out (axTime3 env_zero Globals0 "49161360.0" "tt" "s" "utc" "d")
    = Some "1999:204:23:54:56" /\
  ~ (exists rest,
       time_out (axTime3 env_zero Globals0 "49161360.0" "tt" "s" "utc" "d")
       = Some ("1999:204:23:54:55.816" ++ rest)).
Proof.
  assert (E : time_out (axTime3 env_zero Globals0 "49161360.0" "tt" "s" "utc" "d")
              = Some "1999:204:23:54:56") by (vm_compute; reflexivity).
  split; [exact E|].
  intros [rest H]. rewrite E in H. cbn [String.append] in H. discriminate H.
Qed.

(** C1, as the code has it.  With input value "49161360.0", input system
    TT, input format seconds and output system UTC, whenever the leap second
    table in effect has 32 leap seconds and no leap second flag for that
    epoch: for the output format "d" (ordinal date, 0 decimals) [axTime3]
    leaves in [time_out] the text "1999:204:23:54:56", the seconds being
    rounded to the precision displayed; for "d3" the text is
    "1999:204:23:54:55.816".  This holds whatever the clock, the statics
    before the call and the uninitialised storage are. *)
Theorem axTime3_tt_seconds_to_utc_date :
  forall env G,
    leaps_at (setleaps env dt_default G) tt_1999_204 = (32.0%float, 0) ->
    time_out (axTime3 env G "49161360.0" "tt" "s" "utc" "d")
      = Some "1999:204:23:54:56" /\
    time_out (axTime3 env G "49161360.0" "tt" "s" "utc" "d3")
      = Some "1999:204:23:54:55.816".
Proof.
  intros env G H.
  pose proof (utc_date_of_tt_1999_204 env (setleaps env dt_default G)) as [Hd Hd3].
  cbv zeta in Hd, Hd3.
  split; unfold axTime3; rewrite getinput_49161360, (XTime_d_49161360 env G _ _ H);
    cbn [fst snd].
  - replace (readsys "utc" (raw_sys (indet env))) with (0, UTC)
      by (vm_compute; reflexivity).
    replace (readform "d" (mkForm (raw_form (indet env)) 0 0 0))
      with (0, mkForm DATE 0 0 0) by (vm_compute; reflexivity).
    cbn [Z.eqb negb tForm dec]. rewrite Hd. reflexivity.
  - replace (readsys "utc" (raw_sys (indet env))) with (0, UTC)
      by (vm_compute; reflexivity).
    replace (readform "d3" (mkForm (raw_form (indet env)) 0 0 0))
      with (0, mkForm DATE 0 0 3) by (vm_compute; reflexivity).
    cbn [Z.eqb negb tForm dec]. rewrite Hd3. reflexivity.
Qed.

(** The built-in table, used when no tai-utc.dat can be opened, has 32 leap
    seconds for that epoch. *)
Lemma axTime3_tt_seconds_to_utc_date_witness :
  leaps_at (setleaps env_zero dt_default Globals0) tt_1999_204 = (32.0%float, 0) /\
  time_out (axTime3 env_zero Globals0 "49161360.0" "tt" "s" "utc" "d")
    = Some "1999:204:23:54:56" /\
  time_out (axTime3 env_zero Globals0 "49161360.0" "tt" "s" "utc" "d3")
    = Some "1999:204:23:54:55.816".
Proof.
  assert (H : leaps_at (setleaps env_zero dt_default Globals0) tt_1999_204
              = (32.0%float, 0)) by (vm_compute; reflexivity).
  split; [exact H|].
  exact (axTime3_tt_seconds_to_utc_date env_zero Globals0 H).
Defined.

(* ================================================================== *)
(** * The leap second lookup *)
(* ================================================================== *)

(** The lookup where the table changes from 31 to 32 leap seconds (MJD
    51179, 1999-01-01): half a second before the inserted second, inside it,
    and after it; and a query before the first entry of the table. *)
Lemma setmyleaps_around_1999 :
  setmyleaps Globals_builtin 51179 (62.684 * SEC2DAY)%float = (31.0%float, 1) /\
  setmyleaps Globals_builtin 51179 (63.684 * SEC2DAY)%float = (31.0%float, 1) /\
  setmyleaps Globals_builtin 51179 (64.684 * SEC2DAY)%float = (32.0%float, 0) /\
  setmyleaps Globals_builtin 30000 0.5%float = (10.0%float, 0) /\
  option_map snd (getDate env_zero Globals_builtin
                    (at_TT_mjd 51179 (63.684 * SEC2DAY)%float) UTC DATE 3)
    = Some "1998:365:23:59:60.500".
Proof.
  repeat split; vm_compute; reflexivity.
Qed.

(** C4 at a failing input.  MJD 51179 + 40 s (TT) is
    1998-12-31T23:59:36.816 UTC, more than 23 s before the inserted second
    23:59:60 begins.  The lookup finds the right count (31, the last entry
    whose epoch has been reached) but answers 1, "during a leap second":
    the flag is raised for every instant of the last 32 s before the new
    entry takes effect, not only for the last one. *)
Theorem setmyleaps_flags_outside_leap_second :
  setmyleaps Globals_builtin 51179 (40.0 * SEC2DAY)%float = (31.0%float, 1) /\
  leapflag (at_TT_mjd 51179 (40.0 * SEC2DAY)%float) = 1 /\
  option_map snd (getDate env_zero Globals_builtin
                    (at_TT_mjd 51179 (40.0 * SEC2DAY)%float) UTC DATE 3)
    = Some "1998:365:23:59:36.816".
Proof.
  repeat split; vm_compute; reflexivity.
Qed.

(* ================================================================== *)
(** * Refreshing the leap second table *)
(* ================================================================== *)

(** C5 at a failing input.  The built-in table (26 entries) is in effect;
    a forced refresh ([dt < 0]) reads a file that yields 2 entries, or 2
    entries and a read error.  The entry count stays 26 and the time stamp
    is not renewed, but the second entry of the table has been overwritten:
    (41499, 11) became (41683, 12). *)
Theorem forced_refresh_overwrites_table :
  forall err : bool,
    let G := setleaps (env_short err) (-1.0)%float Globals_builtin in
    NUMLEAPSECS Globals_builtin = 26 /\
    NUMLEAPSECS G = 26 /\
    WALLCLOCK0 G = WALLCLOCK0 Globals_builtin /\
    (leapsmjd Globals_builtin 1, leapsecs Globals_builtin 1) = (41499, 11.0%float) /\
    (leapsmjd G 1, leapsecs G 1) = (41683, 12.0%float).
Proof.
  intros [|]; repeat split; vm_compute; reflexivity.
Qed.

(** What does hold of every refresh. *)

Lemma read_rows_incremental :
  forall known rs mjds secs,
    0 < known -> read_rows false known rs 0 mjds secs = (0, mjds, secs).
Proof.
  intros known rs mjds secs Hk.
  induction rs as [|[[i leapsMD] leapsecs] rs IH]; cbn [read_rows].
  - reflexivity.
  - assert (E : (known <=? 0) = false) by (apply Z.leb_gt; exact Hk).
    rewrite E. cbn [orb]. destruct (1970 <? i); exact IH.
Qed.

(** X11. The number of entries never decreases, whatever the file holds and
    whether or not a refresh is due. *)
Lemma setleaps_count_never_decreases :
  forall env dt G, 0 <= NUMLEAPSECS G ->
    NUMLEAPSECS G <= NUMLEAPSECS (setleaps env dt G).
Proof.
  intros env dt G H0. unfold setleaps. cbn [NUMLEAPSECS with_NUMOBJECTS].
  destruct (if negb (NUMLEAPSECS G =? 0) then _ else true);
    cbn [NUMLEAPSECS with_NUMOBJECTS]; [|lia].
  destruct (match TIMING_DIR env with Some f => Some f | None => ASC_DATA env end)
    as [f|].
  - cbn [LEAPSMJD LEAPSECS with_NUMOBJECTS].
    destruct (read_rows _ _ _ _ _ _) as [[nums mjds] secs].
    destruct (NUMLEAPSECS G <=? nums) eqn:E; cbn [andb].
    + destruct (negb (read_error f)); cbn [NUMLEAPSECS]; [|lia].
      apply Z.leb_le. exact E.
    + cbn [NUMLEAPSECS]. lia.
  - destruct (NUMLEAPSECS G =? 0) eqn:E; cbn [NUMLEAPSECS with_NUMOBJECTS]; [|lia].
    apply Z.eqb_eq in E. lia.
Qed.

(** X12. An ordinary refresh ([dt >= 0]) of a table that has entries changes
    none of them, whatever the file holds. *)
Lemma setleaps_incremental_keeps_table :
  forall env dt G,
    (dt <? 0.0)%float = false -> 0 < NUMLEAPSECS G ->
    let G' := setleaps env dt G in
    NUMLEAPSECS G' = NUMLEAPSECS G /\ LEAPSMJD G' = LEAPSMJD G /\
    LEAPSECS G' = LEAPSECS G.
Proof.
  intros env dt G Hdt Hn. cbv zeta. unfold setleaps. rewrite Hdt.
  cbn [NUMLEAPSECS LEAPSMJD LEAPSECS with_NUMOBJECTS].
  destruct (if negb (NUMLEAPSECS G =? 0) then _ else true);
    [|repeat split].
  destruct (match TIMING_DIR env with Some f => Some f | None => ASC_DATA env end)
    as [f|].
  - rewrite read_rows_incremental by exact Hn.
    assert (E : (NUMLEAPSECS G <=? 0) = false) by (apply Z.leb_gt; exact Hn).
    rewrite E. cbn [andb]. repeat split.
  - assert (E : (NUMLEAPSECS G =? 0) = false) by (apply Z.eqb_neq; lia).
    rewrite E. repeat split.
Qed.

(* ================================================================== *)
(** * The fractional part after set *)
(* ================================================================== *)

(** C8 at a failing input.  [set (-1e-15)] (MET seconds, the defaults) on
    the default object: the fraction of a day is about -1.16e-20, the
    borrow [MJDfr++] rounds it to 1.0, and the object is left with
    [MJDint = 50813], [MJDfr = 1.0].  The same through a date string and
    through a split MJD. *)
Theorem set_can_leave_MJDfr_one :
  let o1 := snd (set_d env_zero Globals_builtin epoch_1998
                       (-1e-15)%float MET SECS 0 0.0%float) in
  let o2 := snd (set_str env_zero Globals_builtin epoch_1998
                         "1998:001:00:00:-1e-15" TT DATE 0 0.0%float) in
  let o3 := snd (set_ld env_zero Globals_builtin epoch_1998
                        50814 (-1e-20)%float TT MJD 0 0.0%float) in
  (MJDint o1 = 50813 /\ MJDfr o1 = 1.0%float) /\
  (MJDint o2 = 50813 /\ MJDfr o2 = 1.0%float) /\
  (MJDint o3 = 50813 /\ MJDfr o3 = 1.0%float) /\
  (MJDfr o1 <? 1.0)%float = false.
Proof.
  repeat split; vm_compute; reflexivity.
Qed.

(* ================================================================== *)
(** * Day 366 *)
(* ================================================================== *)

(** ** Decimal numerals written and read back *)

Lemma uint_val_of_uint_acc :
  forall d acc, uint_val (Z.pos acc) d = Z.pos (Pos.of_uint_acc d acc).
Proof.
  induction d; intros acc; cbn [uint_val Pos.of_uint_acc];
    try reflexivity; rewrite <- IHd; f_equal; lia.
Qed.

Lemma uint_val_of_uint :
  forall d, uint_val 0 d = Z.of_N (Pos.of_uint d).
Proof.
  induction d; cbn [uint_val Pos.of_uint];
    [ reflexivity | exact IHd | exact (uint_val_of_uint_acc d _) .. ].
Qed.

Lemma uint_val_to_uint :
  forall n : N, uint_val 0 (N.to_uint n) = Z.of_N n.
Proof.
  intros n. rewrite uint_val_of_uint.
  change (Pos.of_uint (N.to_uint n)) with (N.of_uint (N.to_uint n)).
  rewrite DecimalN.Unsigned.of_to. reflexivity.
Qed.

Lemma uint_val_bound :
  forall d acc, 0 <= acc ->
    uint_val acc d + 1 <= (acc + 1) * 10 ^ Z.of_nat (uint_len d).
Proof.
  induction d; intros acc Ha; cbn [uint_val uint_len];
    [ cbn; lia | .. ];
    rewrite Nat2Z.inj_succ, Z.pow_succ_r by lia;
    (etransitivity; [apply IHd; lia|]);
    assert (0 < 10 ^ Z.of_nat (uint_len d)) by (apply Z.pow_pos_nonneg; lia);
    nia.
Qed.

(** [take_digits] reads a numeral back. *)
Lemma take_digits_string_of_uint :
  forall d rest acc n,
    (forall a k, take_digits a k rest = (a, k, rest)) ->
    take_digits acc n (NilEmpty.string_of_uint d ++ rest)
    = (uint_val acc d, n + Z.of_nat (uint_len d), rest).
Proof.
  induction d; intros rest acc n H;
    cbn [NilEmpty.string_of_uint uint_val uint_len String.append];
    [ rewrite H; f_equal; f_equal; cbn; lia | .. ];
    cbn [take_digits]; eval_if; rewrite IHd by exact H;
    match goal with
    | |- context [digit_val ?c] =>
        let v := eval vm_compute in (digit_val c) in change (digit_val c) with v
    end;
    f_equal; f_equal; lia.
Qed.

Lemma to_uint_nonnil : forall n : N, N.to_uint n <> Decimal.Nil.
Proof.
  intros [|p]; cbn [N.to_uint].
  - discriminate.
  - apply DecimalPos.Unsigned.to_uint_nonnil.
Qed.

Lemma utoa_numeral :
  forall n, utoa n = NilEmpty.string_of_uint (N.to_uint (Z.to_N n)).
Proof.
  intros n. unfold utoa, NilZero.string_of_uint.
  pose proof (to_uint_nonnil (Z.to_N n)) as H.
  destruct (N.to_uint (Z.to_N n)); [contradiction H; reflexivity | reflexivity ..].
Qed.

Lemma uint_len_pos : forall d, d <> Decimal.Nil -> (0 < uint_len d)%nat.
Proof. intros [ | | | | | | | | | | ] H; cbn [uint_len]; try lia. contradiction H; reflexivity. Qed.

Lemma length_string_of_uint :
  forall d, String.length (NilEmpty.string_of_uint d) = uint_len d.
Proof.
  induction d; cbn [NilEmpty.string_of_uint uint_len String.length];
    [reflexivity | rewrite IHd; reflexivity ..].
Qed.

(** A numeral begins with neither white space nor a sign. *)
Lemma numeral_head :
  forall d rest, d <> Decimal.Nil ->
    let s := NilEmpty.string_of_uint d ++ rest in
    skip_space s = s /\ take_sign s = (false, s) /\ s <> "".
Proof.
  intros d rest H.
  destruct d; [contradiction H; reflexivity | ..];
    cbn [NilEmpty.string_of_uint String.append]; cbv zeta;
    (split; [reflexivity | split; [reflexivity | discriminate]]).
Qed.

(** [%ld] reads back a non-negative [long] written in decimal. *)
Lemma scan_long_utoa :
  forall y rest,
    0 <= y <= LONG_MAX ->
    (forall a k, take_digits a k rest = (a, k, rest)) ->
    let s := utoa y ++ rest in
    skip_space s = s /\ s <> "" /\ scan_long s = Some (y, rest).
Proof.
  intros y rest Hy Hrest. cbv zeta. rewrite utoa_numeral.
  pose proof (to_uint_nonnil (Z.to_N y)) as Hn.
  destruct (numeral_head _ rest Hn) as (Hs & Hg & He).
  split; [exact Hs|]. split; [exact He|].
  unfold scan_long. rewrite Hg.
  rewrite take_digits_string_of_uint by exact Hrest.
  rewrite uint_val_to_uint, Z2N.id by lia.
  pose proof (uint_len_pos _ Hn) as Hl.
  assert (E : (0 + Z.of_nat (uint_len (N.to_uint (Z.to_N y))) =? 0) = false)
    by (apply Z.eqb_neq; lia).
  rewrite E. f_equal. f_equal. unfold LONG_MIN, LONG_MAX in *. lia.
Qed.

Lemma utoa_length_4 :
  forall y, 1000 <= y -> (4 <= String.length (utoa y))%nat.
Proof.
  intros y Hy. rewrite utoa_numeral, length_string_of_uint.
  pose proof (uint_val_bound (N.to_uint (Z.to_N y)) 0 ltac:(lia)) as B.
  rewrite uint_val_to_uint, Z2N.id in B by lia.
  destruct (le_lt_dec 4 (uint_len (N.to_uint (Z.to_N y)))) as [L|L]; [exact L|].
  exfalso.
  assert (10 ^ Z.of_nat (uint_len (N.to_uint (Z.to_N y))) <= 10 ^ 3)
    by (apply Z.pow_le_mono_r; lia).
  lia.
Qed.

Lemma fmt_d_year :
  forall y, 1000 <= y -> fmt_d false 4 y = utoa y.
Proof.
  intros y Hy. unfold fmt_d, pad.
  assert (E : (y <? 0) = false) by (apply Z.ltb_ge; lia).
  rewrite E, Z.abs_eq by lia.
  pose proof (utoa_length_4 y Hy) as L.
  replace (4 - (String.length "" + String.length (utoa y)))%nat with O
    by (cbn [String.length]; lia).
  reflexivity.
Qed.

Lemma scan_date_366 :
  forall y, 0 <= y <= LONG_MAX ->
    scan fmt_DATE (date_366 y)
    = ([ILong y; ILong 366; ILong 0; ILong 0; IDouble 0.0%float], false).
Proof.
  intros y Hy. unfold date_366, fmt_DATE.
  destruct (scan_long_utoa y ":366:00:00:00" Hy ltac:(reflexivity)) as (Hs & He & Hl).
  cbn [scan]. rewrite Hs.
  destruct (utoa y ++ ":366:00:00:00") as [|c t] eqn:E; [contradiction He; reflexivity|].
  rewrite Hl. vm_compute. reflexivity.
Qed.

(** ** The year loop *)

Lemma span_nonneg : forall n i, 0 <= span n i.
Proof.
  induction n as [|n IH]; intros i; cbn [span]; [lia|].
  specialize (IH (Z.rem (i + 1) 4)). unfold year_len. destruct (i =? 0); lia.
Qed.

Lemma year_loop_S :
  forall fuel day year i,
    year_loop (S fuel) day year i
    = if 365 <? day then
        if i =? 0 then
          if day =? 366 then (day, year)
          else year_loop fuel (day - 1 - 365) (year + 1) (Z.rem (i + 1) 4)
        else year_loop fuel (day - 365) (year + 1) (Z.rem (i + 1) 4)
      else (day, year).
Proof. reflexivity. Qed.

(** The loop of [getDate] takes whole years off the day count. *)
Lemma year_loop_span :
  forall n fuel year i d,
    (n <= fuel)%nat ->
    1 <= d <= year_len (place_after n i) ->
    year_loop fuel (span n i + d) year i = (d, year + Z.of_nat n).
Proof.
  induction n as [|n IH]; intros fuel year i d Hf Hd.
  - cbn [span place_after] in *. rewrite Z.add_0_l, Z.add_0_r.
    destruct fuel as [|fuel]; [reflexivity|]. rewrite year_loop_S.
    unfold year_len in Hd.
    destruct (365 <? d) eqn:E; [|reflexivity].
    apply Z.ltb_lt in E.
    destruct (i =? 0); [|lia].
    assert (E6 : (d =? 366) = true) by (apply Z.eqb_eq; lia).
    rewrite E6. reflexivity.
  - destruct fuel as [|fuel]; [lia|].
    change (span (S n) i) with (year_len i + span n (Z.rem (i + 1) 4)).
    change (place_after (S n) i) with (place_after n (Z.rem (i + 1) 4)) in Hd.
    pose proof (span_nonneg n (Z.rem (i + 1) 4)) as Hs.
    rewrite year_loop_S. unfold year_len.
    destruct (i =? 0).
    + assert (E : (365 <? 366 + span n (Z.rem (i + 1) 4) + d) = true)
        by (apply Z.ltb_lt; lia).
      assert (E6 : (366 + span n (Z.rem (i + 1) 4) + d =? 366) = false)
        by (apply Z.eqb_neq; lia).
      rewrite E, E6.
      replace (366 + span n (Z.rem (i + 1) 4) + d - 1 - 365)
        with (span n (Z.rem (i + 1) 4) + d) by lia.
      rewrite (IH fuel (year + 1) (Z.rem (i + 1) 4) d ltac:(lia) Hd).
      f_equal. lia.
    + assert (E : (365 <? 365 + span n (Z.rem (i + 1) 4) + d) = true)
        by (apply Z.ltb_lt; lia).
      rewrite E.
      replace (365 + span n (Z.rem (i + 1) 4) + d - 365)
        with (span n (Z.rem (i + 1) 4) + d) by lia.
      rewrite (IH fuel (year + 1) (Z.rem (i + 1) 4) d ltac:(lia) Hd).
      f_equal. lia.
Qed.

(** Closed forms, for a place [i] in 0..3. *)
Lemma span_place_closed :
  forall n i, 0 <= i < 4 ->
    span n i = 365 * Z.of_nat n + (Z.of_nat n + i + 3) / 4 - (i + 3) / 4 /\
    place_after n i = (i + Z.of_nat n) mod 4.
Proof.
  induction n as [|n IH]; intros i Hi.
  - cbn [span place_after Z.of_nat]. rewrite Z.add_0_r, Z.add_0_l, Z.mod_small by lia.
    split; [|reflexivity].
    replace (0 + i + 3) with (i + 3) by lia. lia.
  - cbn [span place_after].
    assert (Hr : Z.rem (i + 1) 4 = (i + 1) mod 4) by (apply Z.rem_mod_nonneg; lia).
    rewrite Hr.
    assert (Hb : 0 <= (i + 1) mod 4 < 4) by (apply Z.mod_pos_bound; lia).
    destruct (IH ((i + 1) mod 4) Hb) as (IH1 & IH2).
    rewrite IH1, IH2, Nat2Z.inj_succ. unfold year_len.
    split.
    + assert (Hc : i = 0 \/ i = 1 \/ i = 2 \/ i = 3) by lia.
      destruct Hc as [-> | [-> | [-> | ->]]];
        cbn -[Z.div Z.of_nat Z.mul Z.add]; 
        change (1 mod 4) with 1; change (2 mod 4) with 2;
        change (3 mod 4) with 3; change (4 mod 4) with 0;
        change ((0 =? 0)) with true; cbv iota;
        Z.div_mod_to_equations; lia.
    + rewrite Zplus_mod_idemp_l. f_equal. lia.
Qed.

Lemma l2i_small : forall z, INT_MIN <= z <= INT_MAX -> l2i z = z.
Proof.
  intros z H. unfold l2i, wrap, INT_MIN, INT_MAX in *.
  change (2 ^ (32 - 1)) with 2147483648. change (2 ^ 32) with 4294967296.
  rewrite Z.mod_small by lia. lia.
Qed.

(** The day number [set] computes: from 1969 on, day 366 of a year
    with [y % 4 == 0] is the day before day 1 of the next year, and day 366
    of any other year is day 1 of the next year. *)
Lemma mjd_of_date_day_366 :
  forall y, 1969 <= y ->
    mjd_of_date y 366 + (if Z.rem y 4 =? 0 then 1 else 0) = mjd_of_date (y + 1) 1.
Proof.
  intros y Hy. unfold mjd_of_date, MJD1972.
  rewrite !Z.quot_div_nonneg by lia.
  rewrite Z.rem_mod_nonneg by lia.
  pose proof (Z.div_mod (y - 1969) 4 ltac:(lia)) as D1.
  pose proof (Z.mod_pos_bound (y - 1969) 4 ltac:(lia)) as B1.
  pose proof (Z.div_mod (y + 1 - 1969) 4 ltac:(lia)) as D2.
  pose proof (Z.mod_pos_bound (y + 1 - 1969) 4 ltac:(lia)) as B2.
  pose proof (Z.div_mod y 4 ltac:(lia)) as D3.
  pose proof (Z.mod_pos_bound y 4 ltac:(lia)) as B3.
  destruct (y mod 4 =? 0) eqn:E.
  - apply Z.eqb_eq in E. lia.
  - apply Z.eqb_neq in E. lia.
Qed.

(** C7 fails as stated: day 366 of 1999 is not refused.  [set] takes it
    and stores MJD 51544, which is 2000:001. *)
Lemma day_366_of_1999_is_not_rejected :
  Z.rem 1999 4 <> 0 /\
  set_str env_zero Globals_builtin epoch_1998 "1999:366:00:00:00" TT DATE 0 0.0%float
    <> (Globals_builtin, epoch_1998) /\
  parse_and_show env_zero Globals0 "1999:366:00:00:00" = Some "2000:001:00:00:00".
Proof.
  split; [vm_compute; discriminate|]. split.
  - intro H. apply (f_equal (fun p => MJDint (snd p))) in H.
    vm_compute in H. discriminate H.
  - vm_compute. reflexivity.
Qed.

(** ** From the string to the string *)

(** [set] to midnight of day [k] in TT. *)
Lemma set_time_TT_midnight :
  forall G o k (x : float),
    x = 0.0%float ->
    MJDint (set_time G o k x TT MJD) = k /\
    MJDfr (set_time G o k x TT MJD) = 0.0%float.
Proof.
  intros G o k x ->. unfold set_time, set_finish. cbv zeta.
  eval_if.
  destruct (setmyleaps G _ _) as [ml m].
  cbn [MJDint MJDfr with_leapflag with_myLeaps with_MJD].
  split.
  - replace (d2l (0.0 + 0.0 * SEC2DAY)%float) with 0 by (vm_compute; reflexivity).
    lia.
  - vm_compute. reflexivity.
Qed.

Lemma XTime_str_date_366 :
  forall env G y, 0 <= y <= LONG_MAX ->
    let T := snd (XTime_str env G (date_366 y) TT DATE 0 0.0%float) in
    fst (XTime_str env G (date_366 y) TT DATE 0 0.0%float)
      = setleaps env dt_default G /\
    MJDint T = mjd_of_date y 366 /\ MJDfr T = 0.0%float.
Proof.
  intros env G y Hy. cbv zeta. unfold XTime_str, set_str.
  rewrite scan_date_366 by exact Hy.
  change (sscanf_count _) with 5. cbn [Z.eqb Pos.eqb negb].
  cbn [arg_long arg_double nth_error fst]. unfold set_fields. cbv zeta.
  rewrite set_ld_no_reference by lia. cbn [fst snd].
  split; [reflexivity|].
  apply set_time_TT_midnight. vm_compute. reflexivity.
Qed.

(** [getDate] in TT at midnight. *)
Lemma getDate_TT_midnight :
  forall env G o,
    MJDfr o = 0.0%float ->
    getDate env G o TT DATE 0
    = (let D := l2i (MJDint o - MJD1972) + 1 in
       let '(day, year) := year_loop (year_fuel D) D 1972 0 in
       Some (G, format_date year day 0 0 0.0%float 0)).
Proof.
  intros env G o H. unfold getDate, mjd, TTmjd_parts. rewrite H.
  reflexivity.
Qed.

(** The day number of day 366, counted from 1972-01-01 as day 1. *)
Lemma day_366_count :
  forall n : nat,
    mjd_of_date (1972 + Z.of_nat n) 366 - MJD1972 + 1 = span n 0 + 366.
Proof.
  intros n. destruct (span_place_closed n 0 ltac:(lia)) as (Hs & _).
  rewrite Hs. unfold mjd_of_date, MJD1972.
  rewrite Z.quot_div_nonneg by lia.
  replace (1972 + Z.of_nat n - 1969) with (Z.of_nat n + 0 + 3) by lia.
  change ((0 + 3) / 4) with 0. lia.
Qed.

Lemma span_snoc_common_year :
  forall n : nat, Z.of_nat n mod 4 <> 0 -> span (S n) 0 = span n 0 + 365.
Proof.
  intros n H.
  destruct (span_place_closed n 0 ltac:(lia)) as (Hs & _).
  destruct (span_place_closed (S n) 0 ltac:(lia)) as (Hs' & _).
  rewrite Hs, Hs', Nat2Z.inj_succ. change ((0 + 3) / 4) with 0.
  Z.div_mod_to_equations. lia.
Qed.

Lemma year_loop_day_366 :
  forall n : nat,
    let D := span n 0 + 366 in
    year_loop (year_fuel D) D 1972 0
    = if Z.of_nat n mod 4 =? 0 then (366, 1972 + Z.of_nat n)
      else (1, 1972 + Z.of_nat (S n)).
Proof.
  intros n. cbv zeta.
  pose proof (span_nonneg n 0) as Hn.
  destruct (span_place_closed n 0 ltac:(lia)) as (Hs & Hp).
  destruct (span_place_closed (S n) 0 ltac:(lia)) as (_ & Hp').
  assert (Hf : (S n <= year_fuel (span n 0 + 366))%nat).
  { unfold year_fuel. apply Nat2Z.inj_le. rewrite Z2Nat.id, Nat2Z.inj_succ.
    - apply Z.div_le_lower_bound; [lia|]. rewrite Hs. change ((0 + 3) / 4) with 0.
      assert (0 <= (Z.of_nat n + 0 + 3) / 4) by (apply Z.div_pos; lia). lia.
    - apply Z.div_pos; lia. }
  destruct (Z.of_nat n mod 4 =? 0) eqn:E.
  - apply Z.eqb_eq in E.
    apply year_loop_span; [lia|].
    rewrite Hp, Z.add_0_l, E. unfold year_len. cbn. lia.
  - apply Z.eqb_neq in E.
    replace (span n 0 + 366) with (span (S n) 0 + 1)
      by (rewrite span_snoc_common_year by exact E; lia).
    replace (span (S n) 0 + 1) with (span (S n) 0 + 1) in Hf by reflexivity.
    apply year_loop_span.
    + rewrite span_snoc_common_year by exact E.
      replace (span n 0 + 365 + 1) with (span n 0 + 366) by lia. exact Hf.
    + unfold year_len. destruct (_ =? 0); lia.
Qed.

(** C7, as the code has it.  For every year from 1972 on (to 5000000, so
    that the day count fits [int]) a date string with day-of-year 366 is
    accepted, whatever the leap second table.  If [y % 4 == 0] it is day
    366 of year [y]; otherwise it is the instant of day 1 of year [y + 1].
    The rule is [y % 4 == 0] alone: 2100 has a day 366. *)
Theorem day_366_is_accepted_in_every_year :
  forall (env : Env) (G : Globals) (y : Z),
    1972 <= y <= 5000000 ->
    parse_and_show env G (date_366 y) = Some (shown_366 y).
Proof.
  intros env G y Hy. unfold parse_and_show.
  destruct (XTime_str_date_366 env G y) as (HG & Hi & Hf);
    [unfold LONG_MAX; lia|].
  destruct (XTime_str env G (date_366 y) TT DATE 0 0.0%float) as [G1 T].
  cbn [fst snd] in HG, Hi, Hf.
  rewrite getDate_TT_midnight by exact Hf. cbv zeta. rewrite Hi.
  set (n := Z.to_nat (y - 1972)).
  assert (Ey : y = 1972 + Z.of_nat n) by (unfold n; rewrite Z2Nat.id; lia).
  assert (Hn : Z.of_nat n <= 5000000) by lia.
  pose proof (day_366_count n) as HD. rewrite <- Ey in HD.
  assert (HD' : mjd_of_date y 366 - MJD1972 = span n 0 + 365) by lia.
  rewrite HD'.
  destruct (span_place_closed n 0 ltac:(lia)) as (Hs & _).
  rewrite l2i_small.
  2:{ rewrite Hs. change ((0 + 3) / 4) with 0. unfold INT_MIN, INT_MAX.
      assert (0 <= (Z.of_nat n + 0 + 3) / 4 <= Z.of_nat n + 3)
        by (split; [apply Z.div_pos; lia | apply Z.div_le_upper_bound; lia]).
      lia. }
  replace (span n 0 + 365 + 1) with (span n 0 + 366) by lia.
  rewrite year_loop_day_366.
  unfold shown_366.
  assert (Er : Z.rem y 4 = Z.of_nat n mod 4).
  { rewrite Z.rem_mod_nonneg by lia. rewrite Ey.
    replace (1972 + Z.of_nat n) with (Z.of_nat n + 493 * 4) by lia.
    apply Z.mod_add. lia. }
  rewrite Er. cbn [option_map snd].
  destruct (Z.of_nat n mod 4 =? 0).
  - cbn [option_map snd]. f_equal. rewrite <- Ey.
    unfold format_date, date_366. rewrite fmt_d_year by lia. reflexivity.
  - cbn [option_map snd]. f_equal. rewrite Nat2Z.inj_succ.
    replace (1972 + Z.succ (Z.of_nat n)) with (y + 1) by lia.
    unfold format_date, date_001. rewrite fmt_d_year by lia. reflexivity.
Qed.

Lemma day_366_is_accepted_in_every_year_witness :
  1972 <= 2100 <= 5000000 /\
  parse_and_show env_zero Globals0 "2100:366:00:00:00" = Some "2100:366:00:00:00".
Proof.
  split; [lia|].
  exact (day_366_is_accepted_in_every_year env_zero Globals0 2100 ltac:(lia)).
Defined.

(* ================================================================== *)
(** * The code letters of axTime3 *)
(* ================================================================== *)

Lemma tolower_case_map : case_map tolower.
Proof. intros [[] [] [] [] [] [] [] []]; vm_compute; reflexivity. Qed.

Lemma toupper_case_map : case_map toupper.
Proof. intros [[] [] [] [] [] [] [] []]; vm_compute; reflexivity. Qed.

Lemma case_ok_facts :
  forall f c, case_ok f c = true ->
    (forall p, In p code_classes -> is_one_of (f c) p = is_one_of c p) /\
    isspace (f c) = isspace c /\
    isdigit (f c) = isdigit c /\
    Ascii.eqb (f c) "-" = Ascii.eqb c "-" /\
    Ascii.eqb (f c) "+" = Ascii.eqb c "+" /\
    (isdigit c = true -> f c = c).
Proof.
  intros f c H. unfold case_ok in H.
  apply andb_prop in H. destruct H as [H HF].
  apply andb_prop in H. destruct H as [H HE].
  apply andb_prop in H. destruct H as [H HD].
  apply andb_prop in H. destruct H as [H HC].
  apply andb_prop in H. destruct H as [HA HB].
  repeat split; try (apply Bool.eqb_prop; assumption).
  - intros p Hp. rewrite forallb_forall in HA. apply Bool.eqb_prop, HA, Hp.
  - intros Hd. rewrite Hd in HF. cbn [negb] in HF. rewrite orb_false_r in HF.
    apply Ascii.eqb_eq. exact HF.
Qed.

Lemma digit_test : forall c, (47 <? ord c) && (ord c <? 58) = isdigit c.
Proof.
  intros c. unfold isdigit. cbv zeta.
  destruct (47 <? ord c) eqn:A; destruct (ord c <? 58) eqn:B;
    destruct (48 <=? ord c) eqn:C; destruct (ord c <=? 57) eqn:D; try reflexivity;
    rewrite ?Z.ltb_lt, ?Z.ltb_ge, ?Z.leb_le, ?Z.leb_gt in *; lia.
Qed.

(** What holds of a text under a change of letter case that keeps the
    code letters, the digits, the signs and white space. *)
Section CaseMap.
Variable f : ascii -> ascii.
Hypothesis Hf : case_map f.

Lemma char_at_map :
  forall s i,
    char_at (string_map f s) i = f (char_at s i) \/
    (char_at (string_map f s) i = Ascii.zero /\ char_at s i = Ascii.zero).
Proof.
  unfold char_at. induction s as [|c s IH]; intros i.
  - right. destruct i; split; reflexivity.
  - destruct i as [|i]; cbn [string_map String.get].
    + left. reflexivity.
    + apply IH.
Qed.

Lemma class_char_at_map :
  forall s i p, In p code_classes ->
    is_one_of (char_at (string_map f s) i) p = is_one_of (char_at s i) p.
Proof.
  intros s i p Hp. destruct (char_at_map s i) as [E|[E1 E2]].
  - rewrite E. apply (case_ok_facts f _ (Hf _)). exact Hp.
  - rewrite E1, E2. reflexivity.
Qed.

Lemma isdigit_char_at_map :
  forall s i, isdigit (char_at (string_map f s) i) = isdigit (char_at s i).
Proof.
  intros s i. destruct (char_at_map s i) as [E|[E1 E2]].
  - rewrite E. apply (case_ok_facts f _ (Hf _)).
  - rewrite E1, E2. reflexivity.
Qed.

Lemma readsys_map : forall s t, readsys (string_map f s) t = readsys s t.
Proof.
  intros s t. unfold readsys. cbv zeta.
  rewrite !class_char_at_map by (cbn; tauto). reflexivity.
Qed.

Lemma length_map : forall s, String.length (string_map f s) = String.length s.
Proof. induction s as [|c s IH]; cbn [string_map String.length]; congruence. Qed.

Lemma substring_map :
  forall s n m, substring n m (string_map f s) = string_map f (substring n m s).
Proof.
  induction s as [|c s IH]; intros n m.
  - destruct n, m; reflexivity.
  - destruct n as [|n].
    + destruct m as [|m]; cbn [string_map substring]; [reflexivity|].
      rewrite IH. reflexivity.
    + cbn [string_map substring]. apply IH.
Qed.

Lemma skip_space_map :
  forall s, skip_space (string_map f s) = string_map f (skip_space s).
Proof.
  induction s as [|c s IH]; [reflexivity|].
  cbn [string_map skip_space].
  rewrite (proj1 (proj2 (case_ok_facts f c (Hf c)))).
  destruct (isspace c); [exact IH | reflexivity].
Qed.

Lemma take_sign_map :
  forall s, take_sign (string_map f s)
            = (fst (take_sign s), string_map f (snd (take_sign s))).
Proof.
  intros [|c s]; [reflexivity|].
  destruct (case_ok_facts f c (Hf c)) as (_ & _ & _ & Hm & Hp & _).
  cbn [string_map].
  destruct (Ascii.eqb c "-") eqn:Em.
  - apply Ascii.eqb_eq in Em. subst c. apply Ascii.eqb_eq in Hm. rewrite Hm.
    reflexivity.
  - destruct (Ascii.eqb c "+") eqn:Ep.
    + apply Ascii.eqb_eq in Ep. subst c. apply Ascii.eqb_eq in Hp. rewrite Hp.
      reflexivity.
    + assert (T : forall a t, Ascii.eqb a "-" = false -> Ascii.eqb a "+" = false ->
                              take_sign (String a t) = (false, String a t)).
      { intros a t A B. unfold take_sign.
        destruct a as [[] [] [] [] [] [] [] []]; try reflexivity;
          vm_compute in A, B; discriminate. }
      rewrite T by assumption. rewrite T by assumption. reflexivity.
Qed.

Lemma take_digits_map :
  forall s acc n,
    take_digits acc n (string_map f s)
    = (fst (fst (take_digits acc n s)), snd (fst (take_digits acc n s)),
       string_map f (snd (take_digits acc n s))).
Proof.
  induction s as [|c s IH]; intros acc n; [reflexivity|].
  cbn [string_map take_digits].
  destruct (case_ok_facts f c (Hf c)) as (_ & _ & Hd & _ & _ & Hfix).
  rewrite Hd. destruct (isdigit c) eqn:E.
  - rewrite Hfix by reflexivity. apply IH.
  - reflexivity.
Qed.

Lemma scan_long_map :
  forall s, option_map fst (scan_long (string_map f s)) = option_map fst (scan_long s).
Proof.
  intros s. unfold scan_long. rewrite take_sign_map.
  destruct (take_sign s) as [neg s1]. cbn [fst snd].
  rewrite take_digits_map.
  destruct (take_digits 0 0 s1) as [[v k] r]. cbn [fst snd].
  destruct (k =? 0); reflexivity.
Qed.

Lemma scan_d_map :
  forall s d, arg_long (scan [Conv_d] (string_map f s)) 0 d
              = arg_long (scan [Conv_d] s) 0 d.
Proof.
  intros s d. cbn [scan]. rewrite skip_space_map.
  pose proof (scan_long_map (skip_space s)) as H.
  destruct (skip_space s) as [|c t] eqn:E; [reflexivity|].
  cbn [string_map] in *.
  destruct (scan_long (String (f c) (string_map f t))) as [[v r]|];
    destruct (scan_long (String c t)) as [[v' r']|];
    cbn [option_map fst] in H; try discriminate H; [|reflexivity].
  injection H as ->. reflexivity.
Qed.

Lemma readform_map : forall s fm, readform (string_map f s) fm = readform s fm.
Proof.
  intros s fm. unfold readform. cbv zeta.
  rewrite !class_char_at_map by (cbn; tauto).
  rewrite !digit_test, isdigit_char_at_map.
  unfold str_from. rewrite length_map, substring_map, scan_d_map.
  reflexivity.
Qed.

End CaseMap.

(** X1. The time system code is read without regard to letter case: the
    text in upper case and the text in lower case are read as the text
    itself, with the same status and the same system.  Only the first two
    characters count. *)
Theorem readsys_ignores_case :
  forall s t,
    readsys (string_map toupper s) t = readsys s t /\
    readsys (string_map tolower s) t = readsys s t /\
    readsys (substring 0 2 s) t = readsys s t.
Proof.
  intros s t. split; [|split].
  - apply readsys_map, toupper_case_map.
  - apply readsys_map, tolower_case_map.
  - unfold readsys, char_at.
    destruct s as [|a [|b s]]; reflexivity.
Qed.

(** X2. The format code is read without regard to letter case, the
    number of decimals behind the letter included. *)
Theorem readform_ignores_case :
  forall s fm,
    readform (string_map toupper s) fm = readform s fm /\
    readform (string_map tolower s) fm = readform s fm.
Proof.
  intros s fm. split.
  - apply readform_map, toupper_case_map.
  - apply readform_map, tolower_case_map.
Qed.

(** X3. What [readform] reports and leaves behind, whatever the text: the
    status is 0, 1 or -1; the flags for hexadecimal and for day:h:m:s
    output are never both raised, and only with status 0 and format [SECS];
    a text that is not recognised leaves the format as it was; and the
    number of decimals changes only with a date format. *)
Theorem readform_flags :
  forall s f,
    let r := readform s f in
    (fst r = 0 \/ fst r = 1 \/ fst r = -1) /\
    (hexfmt (snd r) = 0 /\ nmday (snd r) = 0 \/
     fst r = 0 /\ tForm (snd r) = SECS /\
     (hexfmt (snd r) = 1 /\ nmday (snd r) = 0 \/
      hexfmt (snd r) = 0 /\ nmday (snd r) = 1)) /\
    (fst r <> 0 -> tForm (snd r) = tForm f) /\
    (is_date_form (tForm (snd r)) = false -> dec (snd r) = dec f).
Proof.
  intros s f. cbv zeta. unfold readform.
  repeat match goal with
         | |- context [is_one_of ?c ?cs] => destruct (is_one_of c cs)
         end;
    cbn [fst snd tForm hexfmt nmday dec];
    (split; [auto|]); (split; [auto 6|]);
    (split; [intros H; try reflexivity; contradiction H; reflexivity|]);
    try (intros H; discriminate H); try (intros _; reflexivity);
    destruct (tForm f); intros H; try discriminate H; reflexivity.
Qed.

(* ================================================================== *)
(** * The messages of axTime3 *)
(* ================================================================== *)

Lemma readsys_quit_indep : forall s t t', fst (readsys s t) = fst (readsys s t').
Proof.
  intros s t t'. unfold readsys. cbv zeta.
  repeat match goal with |- context [if ?b then _ else _] => destruct b end; reflexivity.
Qed.

Lemma readform_quit_indep : forall s f f', fst (readform s f) = fst (readform s f').
Proof.
  intros s f f'. unfold readform. cbv zeta.
  repeat match goal with |- context [if is_one_of ?c ?p then _ else _] =>
    destruct (is_one_of c p) end; reflexivity.
Qed.

Lemma getinput_six :
  forall env G p a b c d e,
    b <> "at" -> b <> "AT" ->
    (sys_code_ok b && form_code_ok c = false ->
     getinput env G [p; a; b; c; d; e] = (G, None)) /\
    (sys_code_ok b && form_code_ok c = true ->
     exists G1 T, getinput env G [p; a; b; c; d; e] = (G1, Some T)).
Proof.
  intros env G p a b c d e Hat HAT.
  apply String.eqb_neq in Hat, HAT.
  unfold sys_code_ok, form_code_ok, getinput.
  change (Z.of_nat (List.length [p; a; b; c; d; e])) with 6.
  cbv zeta. cbv beta.
  change (6 <? 2) with false. change (6 =? 2) with false. change (4 <=? 6) with true.
  cbv iota.
  change (nth (Z.to_nat 1) [p; a; b; c; d; e] "") with a.
  change (nth (Z.to_nat 2) [p; a; b; c; d; e] "") with b.
  rewrite Hat, HAT. cbn [orb andb].
  match goal with
  | |- context [if (Ascii.eqb (char_at a 4) "-" && Ascii.eqb (char_at a 7) "-")%bool
                then ?t else ?u] =>
      destruct (if (Ascii.eqb (char_at a 4) "-" && Ascii.eqb (char_at a 7) "-")%bool
                then t else u) as [[ch f] day]
  end.
  cbv iota beta.
  change (2 <? 6) with true. change (2 + 1 <? 6) with true.
  change (2 + 4 <? 6) with false. cbv iota.
  change (nth (Z.to_nat 2) [p; a; b; c; d; e] "") with b.
  change (nth (Z.to_nat (2 + 1)) [p; a; b; c; d; e] "") with c.
  destruct (readsys b MET) as [err tSys]. cbn [fst].
  rewrite (readform_quit_indep c (mkForm SECS 0 0 0) f).
  destruct (err =? 0) eqn:E; cbn [andb].
  - destruct (readform c f) as [e2 f2]. cbn [fst].
    destruct (e2 =? 0) eqn:E2; cbn [negb]; split; intros H; try discriminate H.
    + destruct ch; cbn [negb].
      * destruct (XTime_str _ _ _ _ _ _ _) as [G1 T]. eauto.
      * destruct (XTime_d _ _ _ _ _ _ _) as [G1 T]. eauto.
    + reflexivity.
  - split; intros H; try discriminate H. rewrite E. reflexivity.
Qed.

Lemma safe_head_app : forall a b, safe_head a = true -> safe_head (a ++ b) = true.
Proof. intros [|c a] b H; [discriminate H | exact H]. Qed.

Lemma safe_head_not_message :
  forall s, safe_head s = true ->
    s <> msg_getinput /\ s <> msg_readsys /\ s <> msg_readform.
Proof.
  intros s H. repeat split; intros ->; vm_compute in H; discriminate H.
Qed.

Lemma safe_head_utoa : forall n, safe_head (utoa n) = true.
Proof.
  intros n. rewrite utoa_numeral.
  pose proof (to_uint_nonnil (Z.to_N n)) as H.
  destruct (N.to_uint (Z.to_N n)); [contradiction H; reflexivity | reflexivity ..].
Qed.

Lemma safe_head_pad :
  forall zf w sign body,
    sign = "" \/ sign = "-" -> safe_head body = true ->
    safe_head (pad zf w sign body) = true.
Proof.
  intros zf w sign body Hs Hb. unfold pad.
  destruct (w - (String.length sign + String.length body))%nat as [|k];
    destruct zf; destruct Hs as [-> | ->]; cbn [replicate String.append];
    try exact Hb; reflexivity.
Qed.

Lemma safe_head_fmt_d : forall zf w z, safe_head (fmt_d zf w z) = true.
Proof.
  intros zf w z. unfold fmt_d. apply safe_head_pad.
  - destruct (z <? 0); [right|left]; reflexivity.
  - apply safe_head_utoa.
Qed.

Lemma safe_head_fmt_f : forall zf w p x, safe_head (fmt_f zf w p x) = true.
Proof.
  intros zf w p x. unfold fmt_f.
  destruct (Prim2SF x) as [s|s| |s m e].
  - apply safe_head_pad; [destruct s; [right|left]; reflexivity | reflexivity].
  - apply safe_head_pad; [destruct s; [right|left]; reflexivity | reflexivity].
  - apply safe_head_pad; [left; reflexivity | reflexivity].
  - cbv zeta. apply safe_head_pad; [destruct s; [right|left]; reflexivity|].
    apply safe_head_app, safe_head_utoa.
Qed.

Lemma safe_head_format_date :
  forall y d h m s dc, safe_head (format_date y d h m s dc) = true.
Proof.
  intros. unfold format_date.
  exact (safe_head_app (fmt_d false 4 y) _ (safe_head_fmt_d false 4 y)).
Qed.

Lemma safe_head_splice :
  forall n text rest, safe_head text = true -> safe_head (splice (S n) text rest) = true.
Proof.
  intros n [|c t] rest H; [discriminate H|].
  unfold splice. destruct (String.length (String c t) <? S n)%nat; exact H.
Qed.

Lemma safe_head_monDay :
  forall env G date tf G' s,
    safe_head date = true ->
    monDay env G date tf = Some (G', s) -> safe_head s = true.
Proof.
  intros env G date tf G' s Hd. unfold monDay.
  set (year := arg_long _ 0 _). set (day := arg_long _ 1 _). cbv zeta.
  destruct (monDay_loop _ _ _ _) as [[day' m]|]; [|discriminate].
  destruct tf; intros H; injection H as _ <-; try exact Hd.
  - apply safe_head_splice.
    exact (safe_head_app (fmt_d true 4 year) _ (safe_head_fmt_d true 4 year)).
  - apply safe_head_splice.
    exact (safe_head_app (fmt_d true 4 year) _ (safe_head_fmt_d true 4 year)).
Qed.

Lemma safe_head_getDate :
  forall env G o ts tf dc G' s,
    getDate env G o ts tf dc = Some (G', s) -> safe_head s = true.
Proof.
  intros env G o ts tf dc G' s. unfold getDate.
  destruct (mjd o _ _ ts) as [[r k] x].
  destruct (norm_neg _ _ _) as [[k1 x1]|]; [|discriminate].
  destruct (norm_pos _ _ _) as [[k2 x2]|]; [|discriminate].
  cbv zeta.
  repeat match goal with
         | |- context [let '(_, _) := ?X in _] => destruct X
         end.
  destruct (dc <? 0); [discriminate|].
  destruct tf; intros H;
    try (injection H as _ <-; apply safe_head_format_date);
    exact (safe_head_monDay _ _ _ _ _ _ (safe_head_format_date _ _ _ _ _ _) H).
Qed.

(** X5. Which message [axTime3] writes, for an input system other than
    "at".  If the input system or the input format is not recognised, the
    text is the message of [getinput]; else, if the output format is not
    recognised, the message of [readform]; else, if the output system is not
    recognised, the message of [readsys]; and with four codes that are
    recognised the text is none of the three messages, whatever the value. *)
Theorem axTime3_error_messages :
  forall env G time_in ts_in tf_in ts_out tf_out,
    ts_in <> "at" -> ts_in <> "AT" ->
    let r := axTime3 env G time_in ts_in tf_in ts_out tf_out in
    if negb (sys_code_ok ts_in && form_code_ok tf_in)
    then time_out r = Some msg_getinput
    else if negb (form_code_ok tf_out) then time_out r = Some msg_readform
    else if negb (sys_code_ok ts_out) then time_out r = Some msg_readsys
    else ~ reports_error r.
Proof.
  intros env G time_in ts_in tf_in ts_out tf_out Hat HAT r.
  destruct (getinput_six env G "convert_time" time_in ts_in tf_in ts_out tf_out
              Hat HAT) as [Hbad Hok].
  subst r. unfold axTime3.
  destruct (sys_code_ok ts_in && form_code_ok tf_in).
  - destruct (Hok eq_refl) as (G1 & T & ->). cbn [negb].
    unfold form_code_ok, sys_code_ok.
    rewrite (readsys_quit_indep ts_out MET (raw_sys (indet env))).
    rewrite (readform_quit_indep tf_out (mkForm SECS 0 0 0)
               (mkForm (raw_form (indet env)) 0 0 0)).
    destruct (readsys ts_out _) as [e_sys tSys].
    destruct (readform tf_out _) as [e_form f].
    cbn [fst].
    destruct (e_form =? 0); [|reflexivity].
    destruct (e_sys =? 0); [|reflexivity].
    cbn [negb].
    assert (Hsafe : forall G' s, safe_head s = true ->
                      ~ reports_error (Some (G', s))).
    { intros G' s Hs [H | [H | H]]; injection H as H;
        cbn [snd] in H; destruct (safe_head_not_message s Hs) as (? & ? & ?);
        contradiction. }
    assert (Hnum :
      safe_head
        (if negb (hexfmt f =? 0) then "0x" ++ fmt_x 7 (l2u (d2ul (get T tSys (tForm f))))
         else if negb (nmday f =? 0) then
           let t := get T tSys (tForm f) in
           let day := Z.quot (d2i t) 86400 in
           let t := (t - Z2d (day * 86400))%float in
           let h := Z.quot (d2i t) 3600 in
           let t := (t - Z2d (h * 3600))%float in
           let m := Z.quot (d2i t) 60 in
           let t := (t - Z2d (m * 60))%float in
           fmt_d false 0 day ++ ":" ++ fmt_d false 0 h ++ ":"
             ++ fmt_d false 0 m ++ ":" ++ fmt_f false 0 10 t
         else fmt_f false 0 9 (get T tSys (tForm f))) = true).
    { destruct (negb (hexfmt f =? 0)); [reflexivity|].
      destruct (negb (nmday f =? 0)); [|apply safe_head_fmt_f].
      cbv zeta.
      exact (safe_head_app (fmt_d false 0 _) _ (safe_head_fmt_d false 0 _)). }
    assert (Hdate : forall r,
      match getDate env G1 T tSys (tForm f) (dec f) with
      | Some (G, s) => Some (XTime_delete G, s)
      | None => None
      end = r -> ~ reports_error r).
    { intros r <-. destruct (getDate _ _ _ _ _ _) as [[G2 s]|] eqn:E.
      - apply Hsafe. exact (safe_head_getDate _ _ _ _ _ _ _ _ E).
      - intros [H | [H | H]]; discriminate H. }
    destruct (tForm f);
      try (apply (Hdate _ eq_refl));
      cbv zeta in Hnum |- *;
      destruct (negb (hexfmt f =? 0));
      try (apply Hsafe; exact Hnum);
      destruct (negb (nmday f =? 0)); apply Hsafe; exact Hnum.
  - rewrite (Hbad eq_refl). reflexivity.
Qed.

Lemma axTime3_error_messages_witness :
  "met" <> "at" /\ "met" <> "AT" /\
  time_out (axTime3 env_zero Globals_builtin "0" "met" "secs" "utc" "bogus")
  = Some msg_readform.
Proof.
  split; [discriminate|]. split; [discriminate|].
  exact (axTime3_error_messages env_zero Globals_builtin "0" "met" "secs" "utc" "bogus"
           ltac:(discriminate) ltac:(discriminate)).
Defined.

(* ================================================================== *)
(** * Input that is not a time *)
(* ================================================================== *)

(** [getinput] on the arguments [axTime3] builds from "not-a-time", "u",
    "d": the value has no colon, so it is not taken for a date string;
    [atof] reads 0.0, and the constructor for numbers, whose [set] does
    nothing for the format DATE, hands out the object as its initialisers
    left it. *)
Lemma getinput_not_a_time :
  forall (w : Z) (ind : Indet) (ts_out tf_out : string),
    getinput (env_builtin w ind) Globals0
             ["convert_time"; "not-a-time"; "u"; "d"; ts_out; tf_out]
    = (setleaps (env_builtin w ind) dt_default Globals0, Some (unset_epoch ind)).
Proof.
  intros w ind ts_out tf_out. vm_compute. reflexivity.
Qed.

(** For "not-a-time" declared as a UTC date, [axTime3] leaves a text in
    [time_out] that does not begin with the letter E, whatever the
    environment and the statics are. *)
Lemma not_a_time_yields_no_message :
  forall env G,
    exists s, time_out (axTime3 env G "not-a-time" "u" "d" "u" "s") = Some s /\
              safe_head s = true.
Proof.
  intros env G.
  destruct (getinput_six env G "convert_time" "not-a-time" "u" "d" "u" "s"
              ltac:(discriminate) ltac:(discriminate)) as [_ Hok].
  destruct (Hok eq_refl) as (G1 & T & E).
  unfold axTime3. rewrite E.
  replace (readsys "u" (raw_sys (indet env))) with (0, UTC)
    by (vm_compute; reflexivity).
  replace (readform "s" (mkForm (raw_form (indet env)) 0 0 0))
    with (0, mkForm SECS 0 0 0) by (vm_compute; reflexivity).
  cbn [Z.eqb negb tForm hexfmt nmday time_out option_map snd].
  eexists. split; [reflexivity | apply safe_head_fmt_f].
Qed.

(** C6 fails as stated: for "not-a-time" declared as a UTC date, [axTime3]
    leaves a text in [time_out] that is none of its messages. *)
Lemma malformed_value_reports_no_error :
  (exists s,
     time_out (axTime3 env_zero Globals0 "not-a-time" "u" "d" "u" "s") = Some s) /\
  ~ reports_error (axTime3 env_zero Globals0 "not-a-time" "u" "d" "u" "s").
Proof.
  destruct (not_a_time_yields_no_message env_zero Globals0) as (s & E & Hs).
  split; [exists s; exact E|].
  destruct (safe_head_not_message s Hs) as (H1 & H2 & H3).
  unfold reports_error. rewrite E.
  intros [H | [H | H]]; injection H as H; contradiction.
Qed.

(** C6, as the code has it.  A date string whose field count is not the
    one its format requires makes [set] return at once: object and statics
    are as before and nothing signals the failure; the constructor still
    hands out an object.  And there is no error for a value that is not a
    time: [axTime3] on "not-a-time", declared a UTC date, leaves a text in
    [time_out], and that text is none of its messages, whatever the
    environment and the statics are. *)
Theorem malformed_date_is_ignored_silently :
  (forall env G o date ts mjdi mjdf,
     (sscanf_count (scan fmt_DATE date) <> 5 ->
      set_str env G o date ts DATE mjdi mjdf = (G, o)) /\
     (sscanf_count (scan fmt_CALDATE date) <> 8 ->
      set_str env G o date ts CALDATE mjdi mjdf = (G, o)) /\
     (sscanf_count (scan fmt_FITS date) <> 6 ->
      sscanf_count (scan fmt_FITS date) <> 3 ->
      set_str env G o date ts FITS mjdi mjdf = (G, o))) /\
  (forall env G date ts mjdi mjdf,
     sscanf_count (scan fmt_DATE date) <> 5 ->
     XTime_str env G date ts DATE mjdi mjdf
     = (setleaps env dt_default G, ctor_init (raw_XTime (indet env)))) /\
  (forall env G,
     (exists s, time_out (axTime3 env G "not-a-time" "u" "d" "u" "s") = Some s) /\
     ~ reports_error (axTime3 env G "not-a-time" "u" "d" "u" "s")).
Proof.
  split; [|split].
  - intros env G o date ts mjdi mjdf. unfold set_str. repeat split.
    + intros H. apply Z.eqb_neq in H. rewrite H. reflexivity.
    + intros H. apply Z.eqb_neq in H. rewrite H. reflexivity.
    + intros H6 H3. apply Z.eqb_neq in H6, H3. cbv zeta. rewrite H6, H3. reflexivity.
  - intros env G date ts mjdi mjdf H. unfold XTime_str, set_str.
    apply Z.eqb_neq in H. rewrite H. reflexivity.
  - intros env G. destruct (not_a_time_yields_no_message env G) as (s & E & Hs).
    split; [exists s; exact E|].
    destruct (safe_head_not_message s Hs) as (H1 & H2 & H3).
    unfold reports_error. rewrite E.
    intros [H | [H | H]]; injection H as H; contradiction.
Qed.

Lemma malformed_date_is_ignored_silently_witness :
  sscanf_count (scan fmt_DATE "not-a-time") <> 5 /\
  set_str env_zero Globals_builtin epoch_1998 "not-a-time" UTC DATE 0 0.0%float
    = (Globals_builtin, epoch_1998).
Proof.
  assert (H : sscanf_count (scan fmt_DATE "not-a-time") <> 5)
    by (vm_compute; discriminate).
  split; [exact H|].
  exact (proj1 (proj1 malformed_date_is_ignored_silently
                  env_zero Globals_builtin epoch_1998 "not-a-time" UTC 0 0.0%float) H).
Defined.

(* ================================================================== *)
(** * The leap second table: loading and lookup *)
(* ================================================================== *)

Lemma length_list_set :
  forall A (l : list A) n v, List.length (list_set l n v) = List.length l.
Proof.
  induction l as [|h t IH]; intros [|n] v; cbn [list_set List.length];
    try reflexivity. rewrite IH. reflexivity.
Qed.

Lemma nth_list_set_same :
  forall A (l : list A) n v d, (n < List.length l)%nat -> nth n (list_set l n v) d = v.
Proof.
  induction l as [|h t IH]; intros [|n] v d H; cbn [list_set nth List.length] in *;
    try lia; [reflexivity|]. apply IH. lia.
Qed.

Lemma nth_list_set_other :
  forall A (l : list A) n k v d, n <> k -> nth k (list_set l n v) d = nth k l d.
Proof.
  induction l as [|h t IH]; intros [|n] [|k] v d H; cbn [list_set nth];
    try reflexivity; try contradiction. apply IH. congruence.
Qed.

Lemma length_aset :
  forall A (l : list A) i v, List.length (aset l i v) = List.length l.
Proof. intros. unfold aset. destruct (i <? 0); [reflexivity | apply length_list_set]. Qed.

Lemma aget_aset_same :
  forall A (l : list A) i v d,
    0 <= i < Z.of_nat (List.length l) -> aget (aset l i v) i d = v.
Proof.
  intros A l i v d H. unfold aget, aset.
  assert (E : (i <? 0) = false) by (apply Z.ltb_ge; lia). rewrite E.
  apply nth_list_set_same. lia.
Qed.

Lemma aget_aset_other :
  forall A (l : list A) i k v d,
    0 <= i -> i <> k -> aget (aset l i v) k d = aget l k d.
Proof.
  intros A l i k v d Hi H. unfold aget, aset.
  assert (E : (i <? 0) = false) by (apply Z.ltb_ge; lia). rewrite E.
  destruct (k <? 0) eqn:Ek; [reflexivity|].
  apply Z.ltb_ge in Ek. apply nth_list_set_other. lia.
Qed.

(** The reading loop, when every row after 1970 is stored: the rows kept
    land behind the [nums] entries already there, in the order of the file. *)
Lemma read_rows_stores :
  forall all known rs nums mjds secs,
    0 <= nums -> (all = true \/ known <= nums) ->
    nums + Z.of_nat (List.length (kept_rows rs)) <= Z.of_nat (List.length mjds) ->
    nums + Z.of_nat (List.length (kept_rows rs)) <= Z.of_nat (List.length secs) ->
    let '(n', mjds', secs') := read_rows all known rs nums mjds secs in
    n' = nums + Z.of_nat (List.length (kept_rows rs)) /\
    List.length mjds' = List.length mjds /\ List.length secs' = List.length secs /\
    (forall k, 0 <= k < nums ->
       aget mjds' k 0 = aget mjds k 0 /\ aget secs' k 0%float = aget secs k 0%float) /\
    (forall k, (k < List.length (kept_rows rs))%nat ->
       aget mjds' (nums + Z.of_nat k) 0 = row_mjd (nth k (kept_rows rs) (0, 0, 0%float)) /\
       aget secs' (nums + Z.of_nat k) 0%float
         = row_secs (nth k (kept_rows rs) (0, 0, 0%float))).
Proof.
  intros all known rs. induction rs as [|[[i md] ls] rs IH];
    intros nums mjds secs Hn Hall Hm Hs.
  - unfold kept_rows. cbn [read_rows filter List.length Z.of_nat].
    split; [lia|]. split; [reflexivity|]. split; [reflexivity|].
    split; [intros k Hk; split; reflexivity | intros k Hk; cbn in Hk; lia].
  - assert (Ek : kept_rows (@cons LeapRow (i, md, ls) rs)
                 = if 1970 <? i then @cons LeapRow (i, md, ls) (kept_rows rs)
                   else kept_rows rs)
      by reflexivity.
    rewrite Ek in Hm, Hs. rewrite Ek. clear Ek. cbn [read_rows].
    destruct (1970 <? i) eqn:Ei.
    + assert (E : (all || (known <=? nums))%bool = true).
      { destruct Hall as [-> | Hk]; [reflexivity|].
        apply orb_true_iff. right. apply Z.leb_le. exact Hk. }
      rewrite E. cbn [List.length] in Hm, Hs. rewrite Nat2Z.inj_succ in Hm, Hs.
      specialize (IH (nums + 1) (aset mjds nums md) (aset secs nums ls)
                     ltac:(lia)
                     ltac:(destruct Hall; [left; assumption | right; lia])).
      rewrite !length_aset in IH.
      specialize (IH ltac:(lia) ltac:(lia)).
      destruct (read_rows all known rs (nums + 1) (aset mjds nums md) (aset secs nums ls))
        as [[n' mjds'] secs'].
      destruct IH as (H1 & H2 & H3 & H4 & H5).
      split; [cbn [List.length]; lia|]. split; [exact H2|]. split; [exact H3|].
      split.
      * intros k Hk. destruct (H4 k ltac:(lia)) as (Ha & Hb).
        rewrite Ha, Hb, !aget_aset_other by lia. split; reflexivity.
      * intros [|k] Hk; cbn [nth List.length] in *.
        -- rewrite Z.add_0_r. destruct (H4 nums ltac:(lia)) as (Ha & Hb).
           rewrite Ha, Hb, !aget_aset_same by lia. split; reflexivity.
        -- replace (nums + Z.of_nat (S k)) with (nums + 1 + Z.of_nat k) by lia.
           apply H5. lia.
    + apply IH; assumption.
Qed.

(** X9. First load.  With no table yet and a file that is read without
    error, the table is made of the rows of a year after 1970, in the order
    of the file: their number is the entry count, the time of loading is
    recorded, and entry [k] is row [k].  The file is tai-utc.dat of
    $TIMING_DIR if that opens, else of $ASC_DATA. *)
Theorem setleaps_first_load :
  forall env dt G f,
    leap_file env = Some f -> NUMLEAPSECS G = 0 -> read_error f = false ->
    (List.length (kept_rows (rows f)) <= List.length (LEAPSMJD G))%nat ->
    (List.length (kept_rows (rows f)) <= List.length (LEAPSECS G))%nat ->
    let G' := setleaps env dt G in
    NUMLEAPSECS G' = Z.of_nat (List.length (kept_rows (rows f))) /\
    WALLCLOCK0 G' = wallclock env /\
    forall k, (k < List.length (kept_rows (rows f)))%nat ->
      leapsmjd G' (Z.of_nat k) = row_mjd (nth k (kept_rows (rows f)) row0) /\
      leapsecs G' (Z.of_nat k) = row_secs (nth k (kept_rows (rows f)) row0).
Proof.
  intros env dt G f Hf Hn He Hm Hs. cbv zeta. unfold setleaps, leap_file in *.
  cbn [NUMLEAPSECS LEAPSMJD LEAPSECS WALLCLOCK0 NUMOBJECTS with_NUMOBJECTS].
  rewrite Hn. cbn [Z.eqb negb]. rewrite Hf, He.
  pose proof (read_rows_stores (dt <? 0.0)%float 0 (rows f) 0 (LEAPSMJD G) (LEAPSECS G)
                ltac:(lia) ltac:(right; lia) ltac:(lia) ltac:(lia)) as H.
  destruct (read_rows _ _ _ _ _ _) as [[n' mjds'] secs'].
  destruct H as (H1 & _ & _ & _ & H5).
  assert (E : (0 <=? n') = true) by (apply Z.leb_le; lia).
  rewrite E. cbn [andb negb]. unfold leapsmjd, leapsecs.
  cbn [NUMLEAPSECS LEAPSMJD LEAPSECS WALLCLOCK0].
  split; [lia|]. split; [reflexivity|].
  intros k Hk. exact (H5 k Hk).
Qed.

Lemma setleaps_first_load_witness :
  leap_file (env_short false) = Some (file_short false) /\
  NUMLEAPSECS (setleaps (env_short false) dt_default Globals0) = 2 /\
  leapsmjd (setleaps (env_short false) dt_default Globals0) 1 = 41683.
Proof.
  split; [reflexivity|].
  destruct (setleaps_first_load (env_short false) dt_default Globals0 (file_short false)
              eq_refl eq_refl eq_refl ltac:(cbn; lia) ltac:(cbn; lia))
    as (H1 & _ & H3).
  split; [exact H1|]. exact (proj1 (H3 1%nat ltac:(cbn; lia))).
Defined.

(** The search loop: it ends on the last entry whose day number is not
    above [j], or on entry 0. *)
Lemma leap_index_spec :
  forall fuel G j i,
    0 <= i <= Z.of_nat fuel ->
    let r := leap_index fuel G j i in
    0 <= r <= i /\
    (r <> 0 -> leapsmjd G r <= j) /\
    (forall k, r < k <= i -> j < leapsmjd G k).
Proof.
  induction fuel as [|fuel IH]; intros G j i Hi; cbv zeta.
  - cbn [leap_index]. assert (i = 0) by lia. subst i.
    split; [lia|]. split; [intros H; contradiction H; reflexivity | intros k Hk; lia].
  - cbn [leap_index].
    destruct (j <? leapsmjd G i) eqn:Ej; cbn [andb].
    + destruct (i =? 0) eqn:E0; cbn [negb].
      * apply Z.eqb_eq in E0. subst i.
        split; [lia|]. split; [intros H; contradiction H; reflexivity | intros k Hk; lia].
      * apply Z.eqb_neq in E0.
        destruct (IH G j (i - 1) ltac:(lia)) as (H1 & H2 & H3).
        split; [lia|]. split; [exact H2|].
        intros k Hk. destruct (Z.eq_dec k i) as [-> | Hne].
        -- apply Z.ltb_lt. exact Ej.
        -- apply H3. lia.
    + apply Z.ltb_ge in Ej.
      split; [lia|]. split; [intros _; exact Ej | intros k Hk; lia].
Qed.

(** X13. [setmyleaps] stays inside the table: the count it stores is that
    of an entry below [NUMLEAPSECS], every entry above the next one lies
    after the instant, and the flag returned is 0 or 1 and raised only below
    the last entry. *)
Theorem setmyleaps_in_table :
  forall G mjdi mjdf,
    0 < NUMLEAPSECS G ->
    let j := d2l (Z2d mjdi + mjdf - TAI2TT * SEC2DAY)%float in
    exists i,
      0 <= i < NUMLEAPSECS G /\
      fst (setmyleaps G mjdi mjdf) = leapsecs G i /\
      (forall k, i + 1 < k < NUMLEAPSECS G -> j < leapsmjd G k) /\
      (snd (setmyleaps G mjdi mjdf) = 0 \/
       snd (setmyleaps G mjdi mjdf) = 1 /\ i + 1 < NUMLEAPSECS G).
Proof.
  intros G mjdi mjdf Hn. cbv zeta. unfold setmyleaps. cbv zeta.
  set (x := (Z2d mjdi + mjdf - TAI2TT * SEC2DAY)%float).
  destruct (leap_index_spec (Z.to_nat (NUMLEAPSECS G - 1)) G (d2l x)
              (NUMLEAPSECS G - 1) ltac:(lia)) as (H1 & H2 & H3).
  set (i := leap_index _ G (d2l x) (NUMLEAPSECS G - 1)) in *.
  destruct ((x - leapsecs G i * SEC2DAY <? Z2d (leapsmjd G i))%float
            && negb (i =? 0)) eqn:E.
  - apply andb_true_iff in E. destruct E as (_ & E).
    apply negb_true_iff, Z.eqb_neq in E.
    exists (i - 1). cbn [fst snd].
    split; [lia|]. split; [reflexivity|].
    split; [intros k Hk; apply H3; lia|].
    destruct (_ <=? _)%float; [right; split; [reflexivity | lia] | left; reflexivity].
  - exists i. cbn [fst snd].
    split; [lia|]. split; [reflexivity|].
    split; [intros k Hk; apply H3; lia | left; reflexivity].
Qed.

Lemma setmyleaps_in_table_witness :
  0 < NUMLEAPSECS Globals_builtin /\
  exists i, 0 <= i < 26 /\
    fst (setmyleaps Globals_builtin 51179 0.5%float) = leapsecs Globals_builtin i.
Proof.
  assert (H : 0 < NUMLEAPSECS Globals_builtin) by (vm_compute; reflexivity).
  split; [exact H|].
  destruct (setmyleaps_in_table Globals_builtin 51179 0.5%float H) as (i & Hi & Hf & _).
  exists i. split; [exact Hi | exact Hf].
Defined.

(** X14. An instant that lies before every entry but the first has the
    count of the first entry and no leap second flag. *)
Theorem setmyleaps_before_table :
  forall G mjdi mjdf,
    0 < NUMLEAPSECS G ->
    (forall k, 0 < k < NUMLEAPSECS G ->
       d2l (Z2d mjdi + mjdf - TAI2TT * SEC2DAY)%float < leapsmjd G k) ->
    setmyleaps G mjdi mjdf = (leapsecs G 0, 0).
Proof.
  intros G mjdi mjdf Hn Hb. unfold setmyleaps. cbv zeta.
  set (x := (Z2d mjdi + mjdf - TAI2TT * SEC2DAY)%float) in *.
  destruct (leap_index_spec (Z.to_nat (NUMLEAPSECS G - 1)) G (d2l x)
              (NUMLEAPSECS G - 1) ltac:(lia)) as (H1 & H2 & H3).
  set (i := leap_index _ G (d2l x) (NUMLEAPSECS G - 1)) in *.
  assert (Hi : i = 0).
  { destruct (Z.eq_dec i 0) as [E | E]; [exact E|].
    specialize (H2 E). specialize (Hb i ltac:(lia)). lia. }
  rewrite Hi. cbn [Z.eqb negb]. rewrite andb_false_r. reflexivity.
Qed.

Lemma setmyleaps_before_table_witness :
  0 < NUMLEAPSECS Globals_builtin /\
  setmyleaps Globals_builtin 41000 0.0%float = (10.0%float, 0).
Proof.
  assert (H : 0 < NUMLEAPSECS Globals_builtin) by (vm_compute; reflexivity).
  split; [exact H|].
  apply (setmyleaps_before_table Globals_builtin 41000 0.0%float H).
  intros k Hk.
  replace (d2l (Z2d 41000 + 0.0 - TAI2TT * SEC2DAY)%float) with 40999
    by (vm_compute; reflexivity).
  change (NUMLEAPSECS Globals_builtin) with 26 in Hk.
  assert (Hc : k = 1 \/ k = 2 \/ k = 3 \/ k = 4 \/ k = 5 \/ k = 6 \/ k = 7 \/ k = 8
               \/ k = 9 \/ k = 10 \/ k = 11 \/ k = 12 \/ k = 13 \/ k = 14 \/ k = 15
               \/ k = 16 \/ k = 17 \/ k = 18 \/ k = 19 \/ k = 20 \/ k = 21 \/ k = 22
               \/ k = 23 \/ k = 24 \/ k = 25) by lia.
  repeat (destruct Hc as [-> | Hc]); [.. | subst k]; vm_compute; reflexivity.
Defined.

(** X10. Forced reload.  With [dt < 0], a refresh that is due, a file that is
    read without error and holds at least as many rows of a year after 1970
    as the table has entries: the table becomes those rows, in the order of
    the file, and the time of loading is recorded. *)
Theorem setleaps_forced_reload :
  forall env dt G f,
    leap_file env = Some f ->
    (dt <? 0.0)%float = true ->
    (- dt <? Z2d (wallclock env - WALLCLOCK0 G))%float = true ->
    read_error f = false ->
    NUMLEAPSECS G <= Z.of_nat (List.length (kept_rows (rows f))) ->
    (List.length (kept_rows (rows f)) <= List.length (LEAPSMJD G))%nat ->
    (List.length (kept_rows (rows f)) <= List.length (LEAPSECS G))%nat ->
    let G' := setleaps env dt G in
    NUMLEAPSECS G' = Z.of_nat (List.length (kept_rows (rows f))) /\
    WALLCLOCK0 G' = wallclock env /\
    forall k, (k < List.length (kept_rows (rows f)))%nat ->
      leapsmjd G' (Z.of_nat k) = row_mjd (nth k (kept_rows (rows f)) row0) /\
      leapsecs G' (Z.of_nat k) = row_secs (nth k (kept_rows (rows f)) row0).
Proof.
  intros env dt G f Hf Hdt Hdue He Hn Hm Hs. cbv zeta. unfold setleaps, leap_file in *.
  cbn [NUMLEAPSECS LEAPSMJD LEAPSECS WALLCLOCK0 NUMOBJECTS with_NUMOBJECTS].
  rewrite Hdt, Hdue, Hf, He.
  assert (Hr : (if negb (NUMLEAPSECS G =? 0) then true else true) = true)
    by (destruct (negb (NUMLEAPSECS G =? 0)); reflexivity).
  rewrite Hr.
  pose proof (read_rows_stores true (NUMLEAPSECS G) (rows f) 0 (LEAPSMJD G) (LEAPSECS G)
                ltac:(lia) ltac:(left; reflexivity) ltac:(lia) ltac:(lia)) as H.
  destruct (read_rows _ _ _ _ _ _) as [[n' mjds'] secs'].
  destruct H as (H1 & _ & _ & _ & H5).
  assert (E : (NUMLEAPSECS G <=? n') = true) by (apply Z.leb_le; lia).
  rewrite E. cbn [andb negb]. unfold leapsmjd, leapsecs.
  cbn [NUMLEAPSECS LEAPSMJD LEAPSECS WALLCLOCK0].
  split; [lia|]. split; [reflexivity|].
  intros k Hk. exact (H5 k Hk).
Qed.

(** A table of two entries, loaded at time 100, is replaced at time 1000 by
    the three lines of another file: the second entry, (41683, 12) before,
    is (41499, 11) afterwards. *)
Lemma setleaps_forced_reload_witness :
  leap_file env_three = Some file_three /\
  ((-1.0) <? 0.0)%float = true /\
  (NUMLEAPSECS Globals_short = 2 /\ WALLCLOCK0 Globals_short = 100 /\
   (leapsmjd Globals_short 1, leapsecs Globals_short 1) = (41683, 12.0%float)) /\
  let G' := setleaps env_three (-1.0)%float Globals_short in
  NUMLEAPSECS G' = 3 /\ WALLCLOCK0 G' = 1000 /\
  (leapsmjd G' 1, leapsecs G' 1) = (41499, 11.0%float) /\
  (leapsmjd G' 2, leapsecs G' 2) = (41683, 12.0%float).
Proof.
  split; [reflexivity|]. split; [reflexivity|].
  split; [repeat split; vm_compute; reflexivity|].
  destruct (setleaps_forced_reload env_three (-1.0)%float Globals_short file_three
              eq_refl eq_refl eq_refl eq_refl
              ltac:(apply Z.leb_le; reflexivity)
              ltac:(apply Nat.leb_le; reflexivity)
              ltac:(apply Nat.leb_le; reflexivity))
    as (H1 & H2 & H3).
  cbv zeta. split; [exact H1|]. split; [exact H2|].
  destruct (H3 1%nat ltac:(apply Nat.ltb_lt; reflexivity)) as [Ha Hb].
  destruct (H3 2%nat ltac:(apply Nat.ltb_lt; reflexivity)) as [Hc Hd].
  split.
  - exact (f_equal2 pair Ha Hb).
  - exact (f_equal2 pair Hc Hd).
Defined.

(** The built-in table of 26 entries and a forced refresh, which is due,
    from a file of two lines: the count stays 26. *)
Lemma setleaps_count_never_decreases_witness :
  0 <= NUMLEAPSECS Globals_builtin /\
  NUMLEAPSECS Globals_builtin = 26 /\
  List.length (kept_rows (rows (file_short false))) = 2%nat /\
  (- (-1.0) <? Z2d (wallclock (env_short false) - WALLCLOCK0 Globals_builtin))%float
    = true /\
  NUMLEAPSECS Globals_builtin
  <= NUMLEAPSECS (setleaps (env_short false) (-1.0)%float Globals_builtin).
Proof.
  assert (H : 0 <= NUMLEAPSECS Globals_builtin) by (cbn; lia).
  split; [exact H|]. split; [reflexivity|]. split; [reflexivity|].
  split; [reflexivity|].
  exact (setleaps_count_never_decreases (env_short false) (-1.0)%float Globals_builtin H).
Defined.

Lemma setleaps_incremental_keeps_table_witness :
  (dt_default <? 0.0)%float = false /\ 0 < NUMLEAPSECS Globals_builtin /\
  LEAPSMJD (setleaps (env_short false) dt_default Globals_builtin)
  = LEAPSMJD Globals_builtin.
Proof.
  assert (H1 : (dt_default <? 0.0)%float = false) by reflexivity.
  assert (H2 : 0 < NUMLEAPSECS Globals_builtin) by (vm_compute; reflexivity).
  split; [exact H1|]. split; [exact H2|].
  exact (proj1 (proj2 (setleaps_incremental_keeps_table (env_short false) dt_default
                         Globals_builtin H1 H2))).
Defined.

(* ================================================================== *)
(** * What set leaves alone *)
(* ================================================================== *)

Lemma timeZero_set_finish :
  forall G o k x total ts, timeZero (set_finish G o k x total ts) = timeZero o.
Proof.
  intros G o k x total ts. unfold set_finish.
  case_if; destruct ts;
    try (match goal with
         | |- context [setmyleaps ?g ?a ?b] => destruct (setmyleaps g a b)
         end);
    reflexivity.
Qed.

Lemma timeZero_set_time :
  forall G o tti ttf ts tf, timeZero (set_time G o tti ttf ts tf) = timeZero o.
Proof.
  intros G o tti ttf ts tf. unfold set_time.
  destruct tf; destruct ts; cbv zeta; repeat case_if;
    try reflexivity; rewrite timeZero_set_finish; reflexivity.
Qed.

Lemma timeZero_set_ld :
  forall env G o tti ttf ts tf mjdi mjdf,
    timeZero (snd (set_ld env G o tti ttf ts tf mjdi mjdf)) = timeZero o.
Proof.
  intros env G o tti ttf ts tf mjdi mjdf. unfold set_ld.
  destruct (1 <? mjdi).
  - destruct ts; cbv zeta;
      [ | | unfold XTime_mt; destruct (mjd _ _ _ _) as [[r k] x]
        | destruct (_ <? _)%float ];
      cbn [snd]; rewrite timeZero_set_time; reflexivity.
  - cbn [snd]. rewrite timeZero_set_time. reflexivity.
Qed.

Lemma timeZero_set_str :
  forall env G o date ts tf mjdi mjdf,
    timeZero (snd (set_str env G o date ts tf mjdi mjdf)) = timeZero o.
Proof.
  intros env G o date ts tf mjdi mjdf. unfold set_str.
  destruct tf; cbv zeta; try reflexivity.
  - case_if; [reflexivity|]. unfold set_fields. apply timeZero_set_ld.
  - case_if; [reflexivity|].
    destruct (month_loop _ _ _ _ _); [|reflexivity].
    unfold set_fields. apply timeZero_set_ld.
  - case_if; [reflexivity|]. unfold set_fields. apply timeZero_set_ld.
Qed.

(** X15. No [set] call touches the time zero offset, in any of the three
    overloads and whatever reference epoch is supplied. *)
Theorem set_keeps_timeZero :
  forall env G o ts tf mjdi mjdf,
    (forall tti ttf, timeZero (snd (set_ld env G o tti ttf ts tf mjdi mjdf)) = timeZero o) /\
    (forall tt, timeZero (snd (set_d env G o tt ts tf mjdi mjdf)) = timeZero o) /\
    (forall date, timeZero (snd (set_str env G o date ts tf mjdi mjdf)) = timeZero o).
Proof.
  intros env G o ts tf mjdi mjdf. split; [|split]; intros.
  - apply timeZero_set_ld.
  - unfold set_d. apply timeZero_set_ld.
  - apply timeZero_set_str.
Qed.

(** X16. A format of the wrong kind.  [set (const char*, ...)] with a
    numeric format changes nothing.  [set (long, double, ...)] with a date
    format leaves the epoch and its leap seconds as they are, but it has
    cleared the leap second flag before it notices. *)
Theorem set_with_format_of_wrong_kind :
  forall env G o ts tf mjdi mjdf,
    (is_date_form tf = false ->
     forall date, set_str env G o date ts tf mjdi mjdf = (G, o)) /\
    (is_date_form tf = true ->
     forall tti ttf,
       let o' := snd (set_ld env G o tti ttf ts tf mjdi mjdf) in
       MJDint o' = MJDint o /\ MJDfr o' = MJDfr o /\ myLeaps o' = myLeaps o /\
       leapflag o' = 0).
Proof.
  intros env G o ts tf mjdi mjdf. split; intros Htf.
  - intros date. destruct tf; try discriminate Htf; reflexivity.
  - intros tti ttf. cbv zeta. unfold set_ld.
    destruct (1 <? mjdi).
    + destruct ts; cbv zeta;
        [ | | unfold XTime_mt; destruct (mjd _ _ _ _) as [[r k] x]
          | destruct (_ <? _)%float ];
        cbn [snd]; destruct tf; try discriminate Htf; repeat split.
    + cbn [snd]. destruct tf; try discriminate Htf; repeat split.
Qed.

Lemma set_with_format_of_wrong_kind_witness :
  is_date_form MJD = false /\
  set_str env_zero Globals_builtin epoch_1998 "1999:204:23:54:56" UTC MJD 0 0.0%float
  = (Globals_builtin, epoch_1998).
Proof.
  split; [reflexivity|].
  exact (proj1 (set_with_format_of_wrong_kind env_zero Globals_builtin epoch_1998
                  UTC MJD 0 0.0%float) eq_refl "1999:204:23:54:56").
Defined.

(* ================================================================== *)
(** * The object count *)
(* ================================================================== *)

Lemma NUMOBJECTS_setleaps :
  forall env dt G, NUMOBJECTS (setleaps env dt G) = NUMOBJECTS G + 1.
Proof.
  intros env dt G. unfold setleaps. cbv zeta.
  repeat match goal with
         | |- context [if ?b then _ else _] => destruct b
         | |- context [match ?o with Some _ => _ | None => _ end] => destruct o
         | |- context [let '(_, _) := ?p in _] => destruct p
         end; reflexivity.
Qed.

Lemma NUMOBJECTS_set_ld :
  forall env G o tti ttf ts tf mjdi mjdf,
    NUMOBJECTS (fst (set_ld env G o tti ttf ts tf mjdi mjdf)) = NUMOBJECTS G.
Proof.
  intros env G o tti ttf ts tf mjdi mjdf. unfold set_ld.
  destruct (1 <? mjdi); [|reflexivity].
  destruct ts; cbv zeta; try reflexivity.
  - unfold XTime_mt.
    destruct (mjd _ _ _ _) as [[r k] x]. cbn [fst NUMOBJECTS with_NUMOBJECTS].
    rewrite NUMOBJECTS_setleaps. lia.
  - destruct (_ <? _)%float; reflexivity.
Qed.

Lemma NUMOBJECTS_set_february :
  forall G y, NUMOBJECTS (set_february G y) = NUMOBJECTS G.
Proof. reflexivity. Qed.

Lemma NUMOBJECTS_set_str :
  forall env G o date ts tf mjdi mjdf,
    NUMOBJECTS (fst (set_str env G o date ts tf mjdi mjdf)) = NUMOBJECTS G.
Proof.
  intros env G o date ts tf mjdi mjdf. unfold set_str.
  destruct tf; cbv zeta; try reflexivity.
  - case_if; [reflexivity|]. unfold set_fields. apply NUMOBJECTS_set_ld.
  - case_if; [reflexivity|].
    destruct (month_loop _ _ _ _ _); [|reflexivity].
    unfold set_fields. cbv zeta. rewrite NUMOBJECTS_set_ld. reflexivity.
  - case_if; [reflexivity|]. unfold set_fields. cbv zeta.
    rewrite NUMOBJECTS_set_ld. reflexivity.
Qed.

Lemma NUMOBJECTS_getinput :
  forall env G argv,
    NUMOBJECTS (fst (getinput env G argv))
    = NUMOBJECTS G + match snd (getinput env G argv) with Some _ => 1 | None => 0 end.
Proof.
  intros env G argv. unfold getinput. cbv zeta.
  destruct (_ <? 2); [cbn; lia|].
  match goal with
  | |- context [if ?a =? 2 then ?t else ?u] =>
      destruct (if a =? 2 then t else u)
        as [[[[[[[[error ch] str] tSys] f] getform] day] mjdi] mjdf]
  end.
  destruct (negb (error =? 0)); [cbn; lia|].
  destruct (negb ch).
  - match goal with
    | |- context [XTime_d ?e ?g ?t ?s ?tf ?i ?x] =>
        pose proof (NUMOBJECTS_set_ld e (setleaps e dt_default g)
                      (ctor_init (raw_XTime (indet e))) (d2l t) (t - Z2d (d2l t))%float
                      s tf i x) as H;
        fold (set_d e (setleaps e dt_default g) (ctor_init (raw_XTime (indet e))) t s tf i x) in H;
        fold (XTime_d e g t s tf i x) in H;
        destruct (XTime_d e g t s tf i x) as [G1 T]
    end.
    cbn [fst snd] in *. rewrite H, NUMOBJECTS_setleaps. reflexivity.
  - match goal with
    | |- context [XTime_str ?e ?g ?d ?s ?tf ?i ?x] =>
        pose proof (NUMOBJECTS_set_str e (setleaps e dt_default g)
                      (ctor_init (raw_XTime (indet e))) d s tf i x) as H;
        fold (XTime_str e g d s tf i x) in H;
        destruct (XTime_str e g d s tf i x) as [G1 T]
    end.
    cbn [fst snd] in *. rewrite H, NUMOBJECTS_setleaps. reflexivity.
Qed.

Lemma NUMOBJECTS_monDay :
  forall env G date tf G' s,
    monDay env G date tf = Some (G', s) -> NUMOBJECTS G' = NUMOBJECTS G.
Proof.
  intros env G date tf G' s. unfold monDay. cbv zeta.
  destruct (monDay_loop _ _ _ _) as [[day m]|]; [|discriminate].
  destruct tf; intros H; injection H as <- _; reflexivity.
Qed.

Lemma NUMOBJECTS_getDate :
  forall env G o ts tf dc G' s,
    getDate env G o ts tf dc = Some (G', s) -> NUMOBJECTS G' = NUMOBJECTS G.
Proof.
  intros env G o ts tf dc G' s. unfold getDate.
  destruct (mjd o _ _ ts) as [[r k] x].
  destruct (norm_neg _ _ _) as [[k1 x1]|]; [|discriminate].
  destruct (norm_pos _ _ _) as [[k2 x2]|]; [|discriminate].
  cbv zeta.
  repeat match goal with
         | |- context [let '(_, _) := ?X in _] => destruct X
         end.
  destruct (dc <? 0); [discriminate|].
  destruct tf; intros H;
    try (injection H as <- _; reflexivity);
    exact (NUMOBJECTS_monDay _ _ _ _ _ _ H).
Qed.

(** X6. Every call of [axTime3] that returns has destroyed the object it
    created: the count of [XTime] objects is what it was before the call. *)
Theorem axTime3_keeps_object_count :
  forall env G time_in ts_in tf_in ts_out tf_out G' s,
    axTime3 env G time_in ts_in tf_in ts_out tf_out = Some (G', s) ->
    NUMOBJECTS G' = NUMOBJECTS G.
Proof.
  intros env G time_in ts_in tf_in ts_out tf_out G' s. unfold axTime3.
  pose proof (NUMOBJECTS_getinput env G
                ["convert_time"; time_in; ts_in; tf_in; ts_out; tf_out]) as Hin.
  destruct (getinput env G _) as [G1 [T|]]; cbn [fst snd] in Hin.
  - destruct (readsys ts_out _) as [e_sys tSys].
    destruct (readform tf_out _) as [e_form f].
    assert (Hdel : forall G2, NUMOBJECTS G2 = NUMOBJECTS G1 ->
                     NUMOBJECTS (XTime_delete G2) = NUMOBJECTS G).
    { intros G2 H2. unfold XTime_delete. cbn [NUMOBJECTS with_NUMOBJECTS]. lia. }
    destruct (negb (e_form =? 0));
      [intros H; injection H as <- _; apply Hdel; reflexivity|].
    destruct (negb (e_sys =? 0));
      [intros H; injection H as <- _; apply Hdel; reflexivity|].
    destruct (tForm f);
      try (cbv zeta; destruct (negb (hexfmt f =? 0));
           [|destruct (negb (nmday f =? 0))];
           intros H; injection H as <- _; apply Hdel; reflexivity);
      destruct (getDate env G1 T tSys _ (dec f)) as [[G2 s2]|] eqn:E;
      try discriminate;
      intros H; injection H as <- _; apply Hdel;
      exact (NUMOBJECTS_getDate _ _ _ _ _ _ _ _ E).
  - intros H. injection H as <- _. lia.
Qed.

Lemma axTime3_keeps_object_count_witness :
  exists G' s,
    axTime3 env_zero Globals0 "0" "met" "secs" "utc" "secs" = Some (G', s) /\
    NUMOBJECTS G' = NUMOBJECTS Globals0.
Proof.
  destruct (axTime3 env_zero Globals0 "0" "met" "secs" "utc" "secs")
    as [[G' s]|] eqn:E; [|vm_compute in E; discriminate E].
  exists G', s. split; [reflexivity|].
  exact (axTime3_keeps_object_count _ _ _ _ _ _ _ _ _ E).
Defined.

(* ================================================================== *)
(** * Numerals written and read back in a field *)
(* ================================================================== *)

Lemma append_assoc :
  forall a b c : string, ((a ++ b) ++ c = a ++ b ++ c)%string.
Proof. induction a as [|x a IH]; intros b c; cbn; [reflexivity | rewrite IH; reflexivity]. Qed.

Lemma length_append :
  forall a b : string, String.length (a ++ b) = (String.length a + String.length b)%nat.
Proof. induction a as [|x a IH]; intros b; cbn; [reflexivity | rewrite IH; reflexivity]. Qed.

Lemma length_replicate : forall k c, String.length (replicate k c) = k.
Proof. induction k as [|k IH]; intros c; cbn; [reflexivity | rewrite IH; reflexivity]. Qed.

Lemma take_digits_zeros :
  forall k n t,
    take_digits 0 n (replicate k "0" ++ t) = take_digits 0 (n + Z.of_nat k) t.
Proof.
  induction k as [|k IH]; intros n t.
  - cbn [replicate String.append Z.of_nat]. rewrite Z.add_0_r. reflexivity.
  - cbn [replicate String.append take_digits].
    change (isdigit "0") with true. change (10 * 0 + digit_val "0") with 0.
    cbv iota. rewrite IH. f_equal. lia.
Qed.

Lemma skip_space_blanks :
  forall k t, skip_space (replicate k " " ++ t) = skip_space t.
Proof.
  induction k as [|k IH]; intros t; [reflexivity|].
  cbn [replicate String.append skip_space]. change (isspace " ") with true.
  cbv iota. apply IH.
Qed.

(** [%ld] reads back what [%<w>d] or [%0<w>d] wrote, for a value that is
    not negative. *)
Lemma scan_long_fmt_d :
  forall zf w z rest,
    0 <= z <= LONG_MAX -> no_digit_ahead rest ->
    let s := skip_space (fmt_d zf w z ++ rest) in
    s <> "" /\ scan_long s = Some (z, rest).
Proof.
  intros zf w z rest Hz Hrest. cbv zeta. unfold fmt_d, pad.
  assert (E : (z <? 0) = false) by (apply Z.ltb_ge; lia).
  rewrite E, Z.abs_eq by lia.
  destruct (scan_long_utoa z rest Hz Hrest) as (Hs & He & Hl).
  set (k := (w - (String.length "" + String.length (utoa z)))%nat).
  destruct zf.
  - cbn [String.append]. rewrite append_assoc.
    destruct k as [|k]; [cbn [replicate String.append]; rewrite Hs; split; assumption|].
    split; [discriminate|].
    cbn [replicate String.append skip_space]. change (isspace "0") with false.
    cbv iota. unfold scan_long.
    change (take_sign (String "0" (replicate k "0" ++ utoa z ++ rest)))
      with (false, String "0" (replicate k "0" ++ utoa z ++ rest)).
    cbv iota beta.
    change (String "0" (replicate k "0" ++ utoa z ++ rest))
      with (replicate (S k) "0" ++ utoa z ++ rest).
    rewrite take_digits_zeros. rewrite utoa_numeral.
    rewrite take_digits_string_of_uint by exact Hrest.
    rewrite uint_val_to_uint, Z2N.id by lia.
    pose proof (uint_len_pos _ (to_uint_nonnil (Z.to_N z))) as Hl'.
    assert (E0 : (0 + Z.of_nat (S k) + Z.of_nat (uint_len (N.to_uint (Z.to_N z))) =? 0) = false)
      by (apply Z.eqb_neq; lia).
    rewrite E0. f_equal. f_equal. unfold LONG_MIN, LONG_MAX in *. lia.
  - rewrite append_assoc, skip_space_blanks. cbn [String.append].
    rewrite Hs. split; assumption.
Qed.

Lemma scan_Conv_ld_fmt_d :
  forall zf w z rest fmt,
    0 <= z <= LONG_MAX -> no_digit_ahead rest ->
    scan (Conv_ld :: fmt) (fmt_d zf w z ++ rest)
    = (ILong z :: fst (scan fmt rest), snd (scan fmt rest)).
Proof.
  intros zf w z rest fmt Hz Hrest.
  destruct (scan_long_fmt_d zf w z rest Hz Hrest) as (Hn & Hl).
  cbn [scan]. destruct (skip_space (fmt_d zf w z ++ rest)) as [|c t];
    [contradiction Hn; reflexivity|].
  rewrite Hl. destruct (scan fmt rest); reflexivity.
Qed.

Lemma scan_Conv_d_fmt_d :
  forall zf w z rest fmt,
    0 <= z <= INT_MAX -> no_digit_ahead rest ->
    scan (Conv_d :: fmt) (fmt_d zf w z ++ rest)
    = (ILong z :: fst (scan fmt rest), snd (scan fmt rest)).
Proof.
  intros zf w z rest fmt Hz Hrest.
  destruct (scan_long_fmt_d zf w z rest ltac:(unfold INT_MAX, LONG_MAX in *; lia) Hrest)
    as (Hn & Hl).
  cbn [scan]. destruct (skip_space (fmt_d zf w z ++ rest)) as [|c t];
    [contradiction Hn; reflexivity|].
  rewrite Hl, l2i_small by (unfold INT_MIN, INT_MAX in *; lia).
  destruct (scan fmt rest); reflexivity.
Qed.

Lemma no_digit_ahead_head :
  forall c t, isdigit c = false -> no_digit_ahead (String c t).
Proof. intros c t H a k. cbn [take_digits]. rewrite H. reflexivity. Qed.

Lemma scan_Conv_c :
  forall fmt c t,
    scan (Conv_c :: fmt) (String c t) = (IChar c :: fst (scan fmt t), snd (scan fmt t)).
Proof. intros fmt c t. cbn [scan]. destruct (scan fmt t); reflexivity. Qed.

Lemma scan_Lit :
  forall fmt c t, scan (Lit c :: fmt) (String c t) = scan fmt t.
Proof. intros fmt c t. cbn [scan]. rewrite Ascii.eqb_refl. reflexivity. Qed.

Lemma nzhead_not_D0 : forall d d', Decimal.nzhead d <> Decimal.D0 d'.
Proof. induction d; intros d'; cbn [Decimal.nzhead]; try discriminate. apply IHd. Qed.

Lemma uint_val_lower :
  forall d acc, 0 <= acc -> acc * 10 ^ Z.of_nat (uint_len d) <= uint_val acc d.
Proof.
  induction d; intros acc Ha; cbn [uint_val uint_len];
    [ cbn; lia | .. ];
    rewrite Nat2Z.inj_succ, Z.pow_succ_r by lia;
    (etransitivity; [|apply IHd; lia]);
    assert (0 < 10 ^ Z.of_nat (uint_len d)) by (apply Z.pow_pos_nonneg; lia);
    nia.
Qed.

(** A numeral of [N.to_uint] has no leading zero: it is "0" or its value
    has as many digits as it is long. *)
Lemma to_uint_width :
  forall n : N,
    let u := N.to_uint n in
    10 ^ Z.of_nat (uint_len u - 1) <= Z.of_N n \/ (n = 0%N /\ uint_len u = 1%nat).
Proof.
  intros n. cbv zeta.
  pose proof (DecimalN.Unsigned.to_of (N.to_uint n)) as H.
  rewrite DecimalN.Unsigned.of_to in H.
  pose proof (uint_val_to_uint n) as V.
  unfold Decimal.unorm in H.
  destruct (Decimal.nzhead (N.to_uint n)) eqn:E;
    try (exfalso; exact (nzhead_not_D0 _ _ E));
    rewrite H in V |- *; cbn [uint_val uint_len] in V |- *.
  1: { right. split; [lia | reflexivity]. }
  all: left; rewrite <- V;
    match goal with
    | |- context [(S ?k - 1)%nat] => replace (S k - 1)%nat with k by lia
    end;
    (etransitivity; [|apply uint_val_lower; lia]); lia.
Qed.

Lemma utoa_length_le :
  forall (w : nat) z,
    (1 <= w)%nat -> 0 <= z < 10 ^ Z.of_nat w -> (String.length (utoa z) <= w)%nat.
Proof.
  intros w z Hw Hz. rewrite utoa_numeral, length_string_of_uint.
  destruct (to_uint_width (Z.to_N z)) as [H | [_ H]]; [|lia].
  rewrite Z2N.id in H by lia.
  destruct (le_lt_dec (uint_len (N.to_uint (Z.to_N z))) w) as [L|L]; [exact L|].
  exfalso.
  assert (10 ^ Z.of_nat w <= 10 ^ Z.of_nat (uint_len (N.to_uint (Z.to_N z)) - 1))
    by (apply Z.pow_le_mono_r; lia).
  lia.
Qed.

(** [%<w>d] and [%0<w>d] fill exactly [w] places when the value fits. *)
Lemma length_fmt_d :
  forall zf (w : nat) z,
    (1 <= w)%nat -> 0 <= z < 10 ^ Z.of_nat w -> String.length (fmt_d zf w z) = w.
Proof.
  intros zf w z Hw Hz. unfold fmt_d, pad.
  assert (E : (z <? 0) = false) by (apply Z.ltb_ge; lia).
  rewrite E, Z.abs_eq by lia.
  pose proof (utoa_length_le w z Hw Hz) as L.
  destruct zf; rewrite !length_append, length_replicate; cbn [String.length]; lia.
Qed.

Lemma substring_all : forall s, substring 0 (String.length s) s = s.
Proof. induction s as [|c s IH]; cbn; [reflexivity | rewrite IH; reflexivity]. Qed.

Lemma str_from_append :
  forall p r, str_from (String.length p) (p ++ r) = r.
Proof.
  unfold str_from. induction p as [|c p IH]; intros r.
  - cbn [String.length String.append]. rewrite Nat.sub_0_r. apply substring_all.
  - cbn [String.length String.append substring Nat.sub]. apply IH.
Qed.

Lemma splice_exact :
  forall text rest, splice (String.length text) text rest = text ++ rest.
Proof.
  intros text rest. unfold splice. rewrite Nat.ltb_irrefl, substring_all. reflexivity.
Qed.

Lemma append_nil_r : forall s : string, (s ++ "")%string = s.
Proof. induction s as [|c s IH]; cbn; [reflexivity | rewrite IH; reflexivity]. Qed.

Lemma utoa_head_digit :
  forall n, exists h t, utoa n = String h t /\ isdigit h = true.
Proof.
  intros n. rewrite utoa_numeral.
  pose proof (to_uint_nonnil (Z.to_N n)) as H.
  destruct (N.to_uint (Z.to_N n)); [contradiction H; reflexivity | ..];
    cbn [NilEmpty.string_of_uint]; eexists; eexists; split; reflexivity.
Qed.

Lemma fmt_d_plain : forall n, 0 <= n -> fmt_d false 0 n = utoa n.
Proof.
  intros n Hn. unfold fmt_d, pad.
  assert (E : (n <? 0) = false) by (apply Z.ltb_ge; lia).
  rewrite E, Z.abs_eq by lia. reflexivity.
Qed.

(** X4. The decimals of a date format are the number written behind its
    letter (d, c or f, in either case), and 0 if there is none. *)
Theorem readform_decimals :
  forall c n f,
    is_one_of c "dDcCfF" = true -> 0 <= n <= INT_MAX ->
    let r := readform (String c (utoa n)) f in
    fst r = 0 /\ is_date_form (tForm (snd r)) = true /\ dec (snd r) = n /\
    dec (snd (readform (String c "") f)) = 0.
Proof.
  intros c n f Hc Hn. cbv zeta.
  destruct (utoa_head_digit n) as (h & t & Hu & Hh).
  assert (Hscan : arg_long (scan [Conv_d] (str_from 1 (String c (utoa n)))) 0 (dec f) = n).
  { change (String c (utoa n)) with (String c "" ++ utoa n).
    change 1%nat with (String.length (String c "")).
    rewrite str_from_append.
    rewrite <- (append_nil_r (utoa n)), <- fmt_d_plain by lia.
    rewrite scan_Conv_d_fmt_d by (try lia; intros a k; reflexivity).
    reflexivity. }
  assert (Hd : (47 <? ord (char_at (String c (utoa n)) 1))
               && (ord (char_at (String c (utoa n)) 1) <? 58) = true).
  { rewrite digit_test, Hu. exact Hh. }
  unfold is_one_of in Hc. cbn [has_char] in Hc.
  repeat (apply orb_true_iff in Hc; destruct Hc as [Hc | Hc]);
    try discriminate Hc;
    apply Ascii.eqb_eq in Hc; subst c;
    unfold readform; cbv zeta;
    rewrite Hd, Hscan; repeat split.
Qed.

Lemma readform_decimals_witness :
  is_one_of "d" "dDcCfF" = true /\ 0 <= 3 <= INT_MAX /\
  dec (snd (readform "d3" (mkForm SECS 0 0 0))) = 3.
Proof.
  split; [reflexivity|]. split; [unfold INT_MAX; lia|].
  exact (proj1 (proj2 (proj2 (readform_decimals "d" 3 (mkForm SECS 0 0 0) eq_refl
                                 ltac:(unfold INT_MAX; lia))))).
Defined.

(* ================================================================== *)
(** * Ordinal dates *)
(* ================================================================== *)

Lemma scan_midnight :
  forall y d, 0 <= y <= LONG_MAX -> 0 <= d <= LONG_MAX ->
    scan fmt_DATE (midnight y d)
    = ([ILong y; ILong d; ILong 0; ILong 0; IDouble 0.0%float], false).
Proof.
  intros y d Hy Hd. unfold midnight, fmt_DATE.
  rewrite scan_Conv_ld_fmt_d by (try exact Hy; apply no_digit_ahead_head; reflexivity).
  cbn [String.append].
  change (scan (Lit ":" :: ?f) (String ":" ?t)) with (scan f t).
  rewrite scan_Conv_ld_fmt_d by (try exact Hd; apply no_digit_ahead_head; reflexivity).
  replace (scan [Lit ":"; Conv_ld; Lit ":"; Conv_ld; Lit ":"; Conv_lg] ":00:00:00")
    with ([ILong 0; ILong 0; IDouble 0.0%float], false) by (vm_compute; reflexivity).
  reflexivity.
Qed.

(** The constructor from a date string, on the text of a midnight. *)
Lemma XTime_str_midnight :
  forall env G y d, 0 <= y <= LONG_MAX -> 0 <= d <= LONG_MAX ->
    let T := snd (XTime_str env G (midnight y d) TT DATE 0 0.0%float) in
    fst (XTime_str env G (midnight y d) TT DATE 0 0.0%float)
      = setleaps env dt_default G /\
    MJDint T = mjd_of_date y d /\ MJDfr T = 0.0%float.
Proof.
  intros env G y d Hy Hd. cbv zeta. unfold XTime_str, set_str.
  rewrite scan_midnight by assumption.
  change (sscanf_count _) with 5. cbn [Z.eqb Pos.eqb negb].
  cbn [arg_long arg_double nth_error fst]. unfold set_fields. cbv zeta.
  rewrite set_ld_no_reference by lia. cbn [fst snd].
  split; [reflexivity|].
  apply set_time_TT_midnight. vm_compute. reflexivity.
Qed.

Lemma day_count :
  forall (n : nat) d,
    mjd_of_date (1972 + Z.of_nat n) d - MJD1972 + 1 = span n 0 + d.
Proof.
  intros n d. destruct (span_place_closed n 0 ltac:(lia)) as (Hs & _).
  rewrite Hs. unfold mjd_of_date, MJD1972.
  rewrite Z.quot_div_nonneg by lia.
  replace (1972 + Z.of_nat n - 1969) with (Z.of_nat n + 0 + 3) by lia.
  change ((0 + 3) / 4) with 0. lia.
Qed.

Lemma year_loop_day :
  forall (n : nat) d,
    1 <= d <= days_in_year (1972 + Z.of_nat n) ->
    let D := span n 0 + d in
    year_loop (year_fuel D) D 1972 0 = (d, 1972 + Z.of_nat n).
Proof.
  intros n d Hd. cbv zeta.
  destruct (span_place_closed n 0 ltac:(lia)) as (Hs & Hp).
  apply year_loop_span.
  - unfold year_fuel. apply Nat2Z.inj_le. rewrite Z2Nat.id.
    + apply Z.div_le_lower_bound; [lia|]. rewrite Hs. change ((0 + 3) / 4) with 0.
      assert (0 <= (Z.of_nat n + 0 + 3) / 4) by (apply Z.div_pos; lia). lia.
    + pose proof (span_nonneg n 0). apply Z.div_pos; lia.
  - rewrite Hp, Z.add_0_l. unfold days_in_year in Hd. unfold year_len.
    rewrite Z.rem_mod_nonneg in Hd by lia.
    replace ((1972 + Z.of_nat n) mod 4) with (Z.of_nat n mod 4) in Hd
      by (replace (1972 + Z.of_nat n) with (Z.of_nat n + 493 * 4) by lia;
          symmetry; apply Z.mod_add; lia).
    exact Hd.
Qed.

Lemma format_date_midnight :
  forall y d, format_date y d 0 0 0.0%float 0 = midnight y d.
Proof. intros y d. reflexivity. Qed.

Lemma span_int :
  forall n : nat, Z.of_nat n <= 5000000 -> 0 <= span n 0 <= 1840000000.
Proof.
  intros n Hn. destruct (span_place_closed n 0 ltac:(lia)) as (Hs & _).
  rewrite Hs. change ((0 + 3) / 4) with 0.
  assert (0 <= (Z.of_nat n + 0 + 3) / 4 <= Z.of_nat n + 3)
    by (split; [apply Z.div_pos; lia | apply Z.div_le_upper_bound; lia]).
  lia.
Qed.

(** [getDate] in TT at midnight, for any form. *)
Lemma getDate_TT_midnight_form :
  forall env G o tf,
    MJDfr o = 0.0%float ->
    getDate env G o TT tf 0
    = (let D := l2i (MJDint o - MJD1972) + 1 in
       let '(day, year) := year_loop (year_fuel D) D 1972 0 in
       let tdate := format_date year day 0 0 0.0%float 0 in
       match tf with
       | CALDATE | FITS => monDay env G tdate tf
       | _ => Some (G, tdate)
       end).
Proof.
  intros env G o tf H. unfold getDate, mjd, TTmjd_parts. rewrite H.
  reflexivity.
Qed.

Lemma getDate_of_day_form :
  forall env G T tf y d,
    1972 <= y <= 5000000 -> 1 <= d <= days_in_year y ->
    MJDint T = mjd_of_date y d -> MJDfr T = 0.0%float ->
    getDate env G T TT tf 0
    = match tf with
      | CALDATE | FITS => monDay env G (midnight y d) tf
      | _ => Some (G, midnight y d)
      end.
Proof.
  intros env G T tf y d Hy Hd Hi Hf.
  rewrite getDate_TT_midnight_form by exact Hf. cbv zeta. rewrite Hi.
  set (n := Z.to_nat (y - 1972)).
  assert (Ey : y = 1972 + Z.of_nat n) by (unfold n; rewrite Z2Nat.id; lia).
  pose proof (day_count n d) as HD. rewrite <- Ey in HD.
  pose proof (span_int n ltac:(lia)) as Hs.
  assert (Hd' : d <= 366) by (unfold days_in_year in Hd; destruct (_ =? 0); lia).
  replace (mjd_of_date y d - MJD1972) with (span n 0 + d - 1) by lia.
  rewrite l2i_small by (unfold INT_MIN, INT_MAX; lia).
  replace (span n 0 + d - 1 + 1) with (span n 0 + d) by lia.
  rewrite Ey in Hd. rewrite (year_loop_day n d Hd), <- Ey.
  rewrite format_date_midnight. reflexivity.
Qed.

(** X20. Round trip of the ordinal date.  For every year from 1972 (to
    5000000, while the day count fits [int]) and every day of that year, by
    the rule [y % 4 == 0] for 366 days, the text "yyyy:ddd:00:00:00" is read
    by [set] and shown by [getDate] as the same text. *)
Theorem ordinal_date_round_trip :
  forall env G y d,
    1972 <= y <= 5000000 -> 1 <= d <= days_in_year y ->
    parse_and_show env G (midnight y d) = Some (midnight y d).
Proof.
  intros env G y d Hy Hd. unfold parse_and_show.
  assert (Hd' : d <= 366) by (unfold days_in_year in Hd; destruct (_ =? 0); lia).
  destruct (XTime_str_midnight env G y d) as (HG & Hi & Hf);
    [unfold LONG_MAX; lia .. |].
  destruct (XTime_str env G (midnight y d) TT DATE 0 0.0%float) as [G1 T].
  cbn [fst snd] in HG, Hi, Hf.
  rewrite (getDate_of_day_form env G1 T DATE y d Hy Hd Hi Hf). reflexivity.
Qed.

Lemma ordinal_date_round_trip_witness :
  1972 <= 2024 <= 5000000 /\ 1 <= 60 <= days_in_year 2024 /\
  parse_and_show env_zero Globals0 "2024:060:00:00:00" = Some "2024:060:00:00:00".
Proof.
  split; [lia|]. split; [vm_compute; split; discriminate|].
  exact (ordinal_date_round_trip env_zero Globals0 2024 60 ltac:(lia)
           ltac:(vm_compute; split; discriminate)).
Defined.

(** X19. [set] does not check the day number against the length of the
    year: from 1969 on, a day number beyond the last day of year [y] denotes
    the day that many days into year [y + 1]; in particular the last day of
    a year is followed by day 1 of the next. *)
Theorem day_numbers_run_on_into_next_year :
  forall y d, 1969 <= y ->
    mjd_of_date y (days_in_year y + d) = mjd_of_date (y + 1) d.
Proof.
  intros y d Hy. pose proof (mjd_of_date_day_366 y Hy) as H.
  unfold days_in_year. unfold mjd_of_date in *.
  destruct (Z.rem y 4 =? 0); lia.
Qed.

Lemma day_numbers_run_on_into_next_year_witness :
  1969 <= 2023 /\ mjd_of_date 2023 (days_in_year 2023 + 1) = mjd_of_date 2024 1.
Proof.
  split; [lia|].
  exact (day_numbers_run_on_into_next_year 2023 1 ltac:(lia)).
Defined.

(** X21. [getDate] does not go back before 1972: an epoch at midnight (TT)
    of a day before 1972-01-01 is shown in year 1972 with a day number that
    is 0 or negative, the days counted back from 1972:001. *)
Theorem getDate_before_1972 :
  forall env G o,
    MJDfr o = 0.0%float ->
    INT_MIN <= MJDint o - MJD1972 < 0 ->
    getDate env G o TT DATE 0
    = Some (G, midnight 1972 (MJDint o - MJD1972 + 1)).
Proof.
  intros env G o Hf Hk.
  rewrite getDate_TT_midnight by exact Hf. cbv zeta.
  rewrite l2i_small by (unfold INT_MIN, INT_MAX in *; lia).
  set (D := MJDint o - MJD1972 + 1).
  assert (HD : year_fuel D = O).
  { unfold year_fuel.
    assert (Hq : D / 365 <= 0) by (apply Z.div_le_upper_bound; unfold D; lia).
    destruct (D / 365); [reflexivity | lia | reflexivity]. }
  rewrite HD. cbn [year_loop]. rewrite format_date_midnight. reflexivity.
Qed.

Lemma getDate_before_1972_witness :
  MJDfr (at_TT_mjd 40587 0.0%float) = 0.0%float /\
  INT_MIN <= MJDint (at_TT_mjd 40587 0.0%float) - MJD1972 < 0 /\
  getDate env_zero Globals_builtin (at_TT_mjd 40587 0.0%float) TT DATE 0
  = Some (Globals_builtin, "1972:-729:00:00:00").
Proof.
  assert (H1 : MJDfr (at_TT_mjd 40587 0.0%float) = 0.0%float) by (vm_compute; reflexivity).
  assert (H2 : INT_MIN <= MJDint (at_TT_mjd 40587 0.0%float) - MJD1972 < 0)
    by (vm_compute; split; [discriminate | reflexivity]).
  split; [exact H1|]. split; [exact H2|].
  exact (getDate_before_1972 env_zero Globals_builtin (at_TT_mjd 40587 0.0%float) H1 H2).
Defined.

(* ================================================================== *)
(** * The three date forms *)
(* ================================================================== *)

Lemma daymonth_setleaps :
  forall env dt G, daymonth (setleaps env dt G) = daymonth G.
Proof.
  intros env dt G. unfold setleaps. cbv zeta.
  repeat match goal with
         | |- context [if ?b then _ else _] => destruct b
         | |- context [match ?o with Some _ => _ | None => _ end] => destruct o
         | |- context [let '(_, _) := ?p in _] => destruct p
         end; reflexivity.
Qed.

Lemma daymonth_set_february :
  forall G y, months_ok G ->
    daymonth (set_february G y) = daymonth (set_february Globals0 y).
Proof. intros G y [f H]. unfold set_february. cbn [daymonth with_daymonth]. rewrite H. reflexivity. Qed.

Lemma feb_cases :
  forall y, exists f, 28 <= f <= 29 /\ days_in_year y = 337 + f /\
    daymonth (set_february Globals0 y) = [31; f; 31; 30; 31; 30; 31; 31; 30; 31; 30; 31].
Proof.
  intros y. unfold days_in_year, set_february.
  destruct (Z.rem y 4 =? 0); [exists 29 | exists 28]; (split; [lia|]); split; reflexivity.
Qed.

Lemma monDay_loop_S :
  forall fuel G day m,
    monDay_loop (S fuel) G day m
    = if aget (daymonth G) m 0 <? day
      then monDay_loop fuel G (day - aget (daymonth G) m 0) (m + 1)
      else Some (day, m).
Proof. reflexivity. Qed.

Lemma monDay_loop_O :
  forall G day m,
    monDay_loop 0 G day m
    = if aget (daymonth G) m 0 <? day then None else Some (day, m).
Proof. reflexivity. Qed.

(** The day of the year of a calendar day lies in the year. *)
Lemma day_of_year_range :
  forall y m d, 1 <= m <= 12 -> 1 <= d <= days_in_month y m ->
    1 <= day_of_year y m d <= days_in_year y.
Proof.
  intros y m d Hm. unfold day_of_year, days_in_month, add_months.
  destruct (feb_cases y) as (f & Hf & -> & ->).
  month_cases m; eval_index; lia.
Qed.

(** [monDay]'s loop finds month and day back from the day of the year. *)
Lemma monDay_loop_day_of_year :
  forall G y m d, 1 <= m <= 12 -> 1 <= d <= days_in_month y m ->
    daymonth G = daymonth (set_february Globals0 y) ->
    monDay_loop 11 G (day_of_year y m d) 0 = Some (d, m - 1).
Proof.
  intros G y m d Hm. unfold day_of_year, days_in_month, add_months.
  destruct (feb_cases y) as (f & Hf & _ & ->). intros Hd HG. revert Hd.
  month_cases m; eval_index; intros Hd;
    repeat (first [rewrite monDay_loop_S | rewrite monDay_loop_O]; rewrite HG;
            eval_index; decide_ltb; cbv iota);
    apply (f_equal Some); apply f_equal2; lia.
Qed.

Lemma month_loop_S :
  forall fuel G mn m day,
    month_loop (S fuel) G mn m day
    = if match nth_error month (Z.to_nat m) with
         | Some name => String.eqb mn name
         | None => false
         end
      then Some day
      else if 11 <? m then None
           else month_loop fuel G mn (m + 1) (day + aget (daymonth G) m 0).
Proof. reflexivity. Qed.

(** The loop over the month names of [set] counts the same days as the
    loop over the month numbers. *)
Lemma month_loop_day_of_year :
  forall G y m d, 1 <= m <= 12 ->
    daymonth G = daymonth (set_february Globals0 y) ->
    month_loop 13 G (nth (Z.to_nat (m - 1)) month "") 0 d = Some (day_of_year y m d)
    /\ add_months G (m - 1) d = day_of_year y m d.
Proof.
  intros G y m d Hm. unfold day_of_year, add_months.
  destruct (feb_cases y) as (f & Hf & _ & ->). intros HG. rewrite HG.
  split; [|reflexivity].
  month_cases m; eval_index; unfold month at 1; cbn [nth];
    repeat (rewrite month_loop_S, HG;
            repeat (match goal with
                    | |- (if ?c then _ else _) = _ =>
                        let v := eval cbv in c in change c with v
                    end; cbv iota);
            eval_index);
    reflexivity.
Qed.

Lemma set_fields_midnight :
  forall env G o y day,
    let r := set_fields env G o y day 0 0 0.0%float TT 0 0.0%float in
    fst r = G /\ MJDint (snd r) = mjd_of_date y day /\ MJDfr (snd r) = 0.0%float.
Proof.
  intros env G o y day. cbv zeta. unfold set_fields. cbv zeta.
  rewrite set_ld_no_reference by lia. cbn [fst snd].
  split; [reflexivity|].
  apply set_time_TT_midnight. vm_compute. reflexivity.
Qed.

Lemma months_ok_set_february :
  forall G y, months_ok G -> months_ok (set_february G y).
Proof.
  intros G y H. unfold months_ok. rewrite (daymonth_set_february G y H).
  unfold set_february. cbn [daymonth with_daymonth]. eexists. reflexivity.
Qed.

Lemma months_ok_setleaps :
  forall env dt G, months_ok G -> months_ok (setleaps env dt G).
Proof. intros env dt G [f H]. exists f. rewrite daymonth_setleaps. exact H. Qed.

(** [set] reads each of the three texts as the same day. *)
Lemma XTime_str_date_text :
  forall env G tf y m d,
    months_ok G -> is_date_form tf = true ->
    1972 <= y <= 9999 -> 1 <= m <= 12 -> 1 <= d <= days_in_month y m ->
    let r := XTime_str env G (date_text tf y m d) TT tf 0 0.0%float in
    months_ok (fst r) /\
    MJDint (snd r) = mjd_of_date y (day_of_year y m d) /\
    MJDfr (snd r) = 0.0%float.
Proof.
  intros env G tf y m d HG Htf Hy Hm Hd. cbv zeta.
  pose proof (day_of_year_range y m d Hm Hd) as Hdoy.
  assert (Hyr : days_in_year y <= 366)
    by (unfold days_in_year; destruct (_ =? 0); lia).
  assert (Hdm : days_in_month y m <= 31).
  { unfold days_in_month. destruct (feb_cases y) as (f & Hf & _ & ->).
    revert Hd. month_cases m; eval_index; lia. }
  pose proof (months_ok_setleaps env dt_default G HG) as HG0.
  destruct tf; try discriminate Htf.
  - (* DATE *)
    destruct (XTime_str_midnight env G y (day_of_year y m d)) as (H1 & H2 & H3);
      [unfold LONG_MAX; lia .. |].
    cbn [date_text]. rewrite H1. auto.
  - (* CALDATE *)
    unfold XTime_str, set_str. cbn [date_text].
    set (G0 := setleaps env dt_default G) in *.
    assert (Hscan : scan fmt_CALDATE
              (fmt_d true 4 y ++ nth (Z.to_nat (m - 1)) month ""
               ++ fmt_d true 2 d ++ " at 00:00:00")
            = ([ILong y;
                IChar (char_at (nth (Z.to_nat (m - 1)) month "") 0);
                IChar (char_at (nth (Z.to_nat (m - 1)) month "") 1);
                IChar (char_at (nth (Z.to_nat (m - 1)) month "") 2);
                ILong d; ILong 0; ILong 0; IDouble 0.0%float], false)).
    { unfold fmt_CALDATE.
      month_cases m; eval_index; unfold month; cbn [nth String.append];
        (rewrite scan_Conv_ld_fmt_d
           by (try (unfold LONG_MAX; lia); apply no_digit_ahead_head; reflexivity));
        rewrite !scan_Conv_c;
        (rewrite scan_Conv_ld_fmt_d
           by (try (unfold LONG_MAX; lia); apply no_digit_ahead_head; reflexivity));
        (replace (scan [WS; Lit "a"; Lit "t"; WS; Conv_ld; Lit ":"; Conv_ld;
                        Lit ":"; Conv_lg] " at 00:00:00")
           with ([ILong 0; ILong 0; IDouble 0.0%float], false)
           by (vm_compute; reflexivity));
        reflexivity. }
    rewrite Hscan. change (sscanf_count _) with 8. cbn [Z.eqb Pos.eqb negb].
    cbn [arg_long arg_char arg_double nth_error fst].
    assert (Hname :
      String (toupper (char_at (nth (Z.to_nat (m - 1)) month "") 0))
        (String (tolower (char_at (nth (Z.to_nat (m - 1)) month "") 1))
           (String (tolower (char_at (nth (Z.to_nat (m - 1)) month "") 2)) ""))
      = nth (Z.to_nat (m - 1)) month "").
    { month_cases m; reflexivity. }
    cbv zeta. rewrite Hname.
    destruct (month_loop_day_of_year (set_february G0 y) y m d Hm
                (daymonth_set_february G0 y HG0)) as (Hl & _).
    rewrite Hl.
    destruct (set_fields_midnight env (set_february G0 y)
                (ctor_init (raw_XTime (indet env))) y (day_of_year y m d))
      as (H1 & H2 & H3).
    rewrite H1. split; [apply months_ok_set_february; exact HG0|]. auto.
  - (* FITS *)
    unfold XTime_str, set_str. cbn [date_text].
    set (G0 := setleaps env dt_default G) in *.
    assert (Hscan : scan fmt_FITS
              (fmt_d true 4 y ++ "-" ++ fmt_d true 2 m ++ "-"
               ++ fmt_d true 2 d ++ "T00:00:00")
            = ([ILong y; ILong m; ILong d; ILong 0; ILong 0; IDouble 0.0%float], false)).
    { unfold fmt_FITS.
      rewrite scan_Conv_ld_fmt_d
        by (try (unfold LONG_MAX; lia); apply no_digit_ahead_head; reflexivity).
      cbn [String.append]. rewrite scan_Lit.
      rewrite scan_Conv_d_fmt_d
        by (try (unfold INT_MAX; lia); apply no_digit_ahead_head; reflexivity).
      cbn [String.append fst snd]. rewrite scan_Lit.
      rewrite scan_Conv_ld_fmt_d
        by (try (unfold LONG_MAX; lia); apply no_digit_ahead_head; reflexivity).
      replace (scan [Lit "T"; Conv_ld; Lit ":"; Conv_ld; Lit ":"; Conv_lg] "T00:00:00")
        with ([ILong 0; ILong 0; IDouble 0.0%float], false)
        by (vm_compute; reflexivity).
      reflexivity. }
    rewrite Hscan. change (sscanf_count _) with 6. cbn [Z.eqb Pos.eqb negb andb].
    cbn [arg_long arg_char arg_double nth_error fst]. cbv zeta.
    destruct (month_loop_day_of_year (set_february G0 y) y m d Hm
                (daymonth_set_february G0 y HG0)) as (_ & Ha).
    rewrite Ha.
    destruct (set_fields_midnight env (set_february G0 y)
                (ctor_init (raw_XTime (indet env))) y (day_of_year y m d))
      as (H1 & H2 & H3).
    rewrite H1. split; [apply months_ok_set_february; exact HG0|]. auto.
Qed.

(** [monDay] on the text of a midnight. *)
Lemma monDay_midnight :
  forall env G tf y m d,
    months_ok G -> 1972 <= y <= 9999 -> 1 <= m <= 12 -> 1 <= d <= days_in_month y m ->
    tf = CALDATE \/ tf = FITS ->
    option_map snd (monDay env G (midnight y (day_of_year y m d)) tf)
    = Some (date_text tf y m d).
Proof.
  intros env G tf y m d HG Hy Hm Hd Htf.
  pose proof (day_of_year_range y m d Hm Hd) as Hdoy.
  assert (Hyr : days_in_year y <= 366)
    by (unfold days_in_year; destruct (_ =? 0); lia).
  assert (Hdm : days_in_month y m <= 31).
  { unfold days_in_month. destruct (feb_cases y) as (f & Hf & _ & ->).
    revert Hd. month_cases m; eval_index; lia. }
  set (doy := day_of_year y m d) in *.
  assert (Hscan : scan [Conv_d; Lit ":"; Conv_d] (midnight y doy)
                  = ([ILong y; ILong doy], false)).
  { unfold midnight.
    rewrite scan_Conv_d_fmt_d
      by (try (unfold INT_MAX; lia); apply no_digit_ahead_head; reflexivity).
    cbn [String.append]. rewrite scan_Lit.
    rewrite scan_Conv_d_fmt_d
      by (try (unfold INT_MAX; lia); apply no_digit_ahead_head; reflexivity).
    reflexivity. }
  assert (Hrest : str_from 9 (midnight y doy) = "00:00:00").
  { unfold midnight.
    replace (fmt_d false 4 y ++ ":" ++ fmt_d true 3 doy ++ ":00:00:00")
      with ((fmt_d false 4 y ++ ":" ++ fmt_d true 3 doy ++ ":") ++ "00:00:00")
      by (repeat (rewrite append_assoc; cbn [String.append]); reflexivity).
    replace 9%nat
      with (String.length (fmt_d false 4 y ++ ":" ++ fmt_d true 3 doy ++ ":")).
    - apply str_from_append.
    - rewrite length_append. cbn [String.append String.length].
      rewrite length_append. cbn [String.length].
      rewrite !length_fmt_d by (cbn; lia). reflexivity. }
  unfold monDay. cbv zeta. rewrite Hscan, Hrest.
  cbn [arg_long nth_error fst]. unfold doy.
  rewrite (monDay_loop_day_of_year (set_february G y) y m d Hm Hd
             (daymonth_set_february G y HG)).
  destruct Htf as [-> | ->]; cbn [option_map snd date_text]; f_equal.
  - set (text := fmt_d true 4 y ++ nth (Z.to_nat (m - 1)) month ""
                 ++ fmt_d true 2 d ++ " at ").
    replace 13%nat with (String.length text).
    + rewrite splice_exact. unfold text.
      repeat (rewrite append_assoc; cbn [String.append]). reflexivity.
    + unfold text. rewrite !length_append, !length_fmt_d by (cbn; lia).
      clear - Hm. month_cases m; reflexivity.
  - replace (m - 1 + 1) with m by lia.
    set (text := fmt_d true 4 y ++ "-" ++ fmt_d true 2 m ++ "-"
                 ++ fmt_d true 2 d ++ "T").
    replace 11%nat with (String.length text).
    + rewrite splice_exact. unfold text.
      repeat (rewrite append_assoc; cbn [String.append]). reflexivity.
    + unfold text. rewrite length_append. cbn [String.append String.length].
      rewrite length_append. cbn [String.append String.length].
      rewrite length_append.
      rewrite !length_fmt_d by (cbn; lia). reflexivity.
Qed.

(** Shown in any of the three forms. *)
Lemma getDate_date_text :
  forall env G T tf y m d,
    months_ok G -> is_date_form tf = true ->
    1972 <= y <= 9999 -> 1 <= m <= 12 -> 1 <= d <= days_in_month y m ->
    MJDint T = mjd_of_date y (day_of_year y m d) -> MJDfr T = 0.0%float ->
    option_map snd (getDate env G T TT tf 0) = Some (date_text tf y m d).
Proof.
  intros env G T tf y m d HG Htf Hy Hm Hd Hi Hf.
  pose proof (day_of_year_range y m d Hm Hd) as Hdoy.
  rewrite (getDate_of_day_form env G T tf y (day_of_year y m d)
             ltac:(lia) Hdoy Hi Hf).
  destruct tf; try discriminate Htf.
  - reflexivity.
  - apply monDay_midnight; auto.
  - apply monDay_midnight; auto.
Qed.

(** X22. The three date forms convert into each other: at midnight of
    every calendar day from 1972 to 9999, the text of the day in one form
    (ordinal, calendar or FITS) is read by [set] and shown by [getDate] as
    the text of the same day in any of the three forms. *)
Theorem date_forms_convert :
  forall env G tf_in tf_out y m d,
    months_ok G ->
    is_date_form tf_in = true -> is_date_form tf_out = true ->
    1972 <= y <= 9999 -> 1 <= m <= 12 -> 1 <= d <= days_in_month y m ->
    convert_date env G (date_text tf_in y m d) tf_in tf_out
    = Some (date_text tf_out y m d).
Proof.
  intros env G tf_in tf_out y m d HG Hin Hout Hy Hm Hd. unfold convert_date.
  destruct (XTime_str_date_text env G tf_in y m d HG Hin Hy Hm Hd) as (H1 & H2 & H3).
  destruct (XTime_str env G (date_text tf_in y m d) TT tf_in 0 0.0%float) as [G1 T].
  cbn [fst snd] in H1, H2, H3.
  apply getDate_date_text; assumption.
Qed.

Lemma date_forms_convert_witness :
  months_ok Globals0 /\
  is_date_form FITS = true /\ is_date_form CALDATE = true /\
  1972 <= 2024 <= 9999 /\ 1 <= 2 <= 12 /\ 1 <= 29 <= days_in_month 2024 2 /\
  convert_date env_zero Globals0 "2024-02-29T00:00:00" FITS CALDATE
  = Some "2024Feb29 at 00:00:00".
Proof.
  assert (H0 : months_ok Globals0) by (exists 28; reflexivity).
  assert (H1 : 1 <= 29 <= days_in_month 2024 2) by (vm_compute; split; discriminate).
  repeat (split; [first [exact H0 | exact H1 | reflexivity | lia]|]).
  exact (date_forms_convert env_zero Globals0 FITS CALDATE 2024 2 29
           H0 eq_refl eq_refl ltac:(lia) ltac:(lia) H1).
Defined.

Lemma scan_fits_day :
  forall y m d rest,
    0 <= y <= LONG_MAX -> 0 <= m <= INT_MAX -> 0 <= d <= LONG_MAX ->
    no_digit_ahead rest ->
    scan fmt_FITS (fits_day y m d ++ rest)
    = (ILong y :: ILong m :: ILong d
         :: fst (scan [Lit "T"; Conv_ld; Lit ":"; Conv_ld; Lit ":"; Conv_lg] rest),
       snd (scan [Lit "T"; Conv_ld; Lit ":"; Conv_ld; Lit ":"; Conv_lg] rest)).
Proof.
  intros y m d rest Hy Hm Hd Hr. unfold fits_day, fmt_FITS.
  repeat (rewrite append_assoc; cbn [String.append]).
  rewrite scan_Conv_ld_fmt_d by (try exact Hy; apply no_digit_ahead_head; reflexivity).
  rewrite scan_Lit.
  rewrite scan_Conv_d_fmt_d by (try exact Hm; apply no_digit_ahead_head; reflexivity).
  cbn [fst snd]. rewrite scan_Lit.
  rewrite scan_Conv_ld_fmt_d by (try exact Hd; exact Hr).
  reflexivity.
Qed.

(** X18. A FITS date with no time of day is midnight: [set] reads
    "yyyy-mm-dd" as it reads "yyyy-mm-ddT00:00:00", whatever the numbers. *)
Theorem fits_date_alone_is_midnight :
  forall env G o ts mjdi mjdf y m d,
    0 <= y <= LONG_MAX -> 0 <= m <= INT_MAX -> 0 <= d <= LONG_MAX ->
    set_str env G o (fits_day y m d) ts FITS mjdi mjdf
    = set_str env G o (fits_day y m d ++ "T00:00:00") ts FITS mjdi mjdf.
Proof.
  intros env G o ts mjdi mjdf y m d Hy Hm Hd. unfold set_str.
  assert (E1 : scan fmt_FITS (fits_day y m d) = ([ILong y; ILong m; ILong d], true)).
  { rewrite <- (append_nil_r (fits_day y m d)).
    rewrite scan_fits_day by (try assumption; intros a k; reflexivity).
    reflexivity. }
  assert (E2 : scan fmt_FITS (fits_day y m d ++ "T00:00:00")
               = ([ILong y; ILong m; ILong d; ILong 0; ILong 0; IDouble 0.0%float], false)).
  { rewrite scan_fits_day by (try assumption; apply no_digit_ahead_head; reflexivity).
    replace (scan [Lit "T"; Conv_ld; Lit ":"; Conv_ld; Lit ":"; Conv_lg] "T00:00:00")
      with ([ILong 0; ILong 0; IDouble 0.0%float], false) by (vm_compute; reflexivity).
    reflexivity. }
  rewrite E1, E2. reflexivity.
Qed.

Lemma fits_date_alone_is_midnight_witness :
  0 <= 1999 <= LONG_MAX /\ 0 <= 7 <= INT_MAX /\ 0 <= 23 <= LONG_MAX /\
  set_str env_zero Globals_builtin epoch_1998 "1999-07-23" UTC FITS 0 0.0%float
  = set_str env_zero Globals_builtin epoch_1998 "1999-07-23T00:00:00" UTC FITS 0 0.0%float.
Proof.
  assert (H1 : 0 <= 1999 <= LONG_MAX) by (unfold LONG_MAX; lia).
  assert (H2 : 0 <= 7 <= INT_MAX) by (unfold INT_MAX; lia).
  assert (H3 : 0 <= 23 <= LONG_MAX) by (unfold LONG_MAX; lia).
  split; [exact H1|]. split; [exact H2|]. split; [exact H3|].
  exact (fits_date_alone_is_midnight env_zero Globals_builtin epoch_1998 UTC 0 0.0%float
           1999 7 23 H1 H2 H3).
Defined.

Lemma toupper_idem : forall c, toupper (toupper c) = toupper c.
Proof. intros [[] [] [] [] [] [] [] []]; reflexivity. Qed.

Lemma tolower_idem : forall c, tolower (tolower c) = tolower c.
Proof. intros [[] [] [] [] [] [] [] []]; reflexivity. Qed.

Lemma scan_caldate_head :
  forall y c1 c2 c3 rest,
    0 <= y <= LONG_MAX -> isdigit c1 = false ->
    let R := scan [Conv_ld; WS; Lit "a"; Lit "t"; WS; Conv_ld; Lit ":"; Conv_ld;
                   Lit ":"; Conv_lg] rest in
    scan fmt_CALDATE (fmt_d true 4 y ++ String c1 (String c2 (String c3 rest)))
    = (ILong y :: IChar c1 :: IChar c2 :: IChar c3 :: fst R, snd R).
Proof.
  intros y c1 c2 c3 rest Hy Hc. cbv zeta. unfold fmt_CALDATE.
  rewrite scan_Conv_ld_fmt_d by (try exact Hy; apply no_digit_ahead_head; exact Hc).
  rewrite !scan_Conv_c. cbn [fst snd]. reflexivity.
Qed.

(** X17. The month name of a calendar date is read without regard to
    letter case: [set] reads the text with the three letters behind the
    year in any case as it reads the text with the first in upper and the
    other two in lower case. *)
Theorem set_month_name_in_any_case :
  forall env G o ts mjdi mjdf y c1 c2 c3 rest,
    0 <= y <= LONG_MAX -> isdigit c1 = false ->
    set_str env G o (fmt_d true 4 y ++ String c1 (String c2 (String c3 rest)))
            ts CALDATE mjdi mjdf
    = set_str env G o
        (fmt_d true 4 y
         ++ String (toupper c1) (String (tolower c2) (String (tolower c3) rest)))
        ts CALDATE mjdi mjdf.
Proof.
  intros env G o ts mjdi mjdf y c1 c2 c3 rest Hy Hc.
  assert (Hc' : isdigit (toupper c1) = false).
  { rewrite (proj1 (proj2 (proj2 (case_ok_facts toupper c1 (toupper_case_map c1))))).
    exact Hc. }
  unfold set_str.
  rewrite !(scan_caldate_head y) by assumption.
  set (R := scan _ rest). destruct R as [l e].
  cbn [fst snd sscanf_count arg_long arg_char nth_error List.length].
  rewrite toupper_idem, !tolower_idem. reflexivity.
Qed.

Lemma set_month_name_in_any_case_witness :
  0 <= 1999 <= LONG_MAX /\ isdigit "j" = false /\
  set_str env_zero Globals_builtin epoch_1998 "1999jUL23 at 00:00:00" TT CALDATE 0 0.0%float
  = set_str env_zero Globals_builtin epoch_1998 "1999Jul23 at 00:00:00" TT CALDATE 0 0.0%float.
Proof.
  assert (H1 : 0 <= 1999 <= LONG_MAX) by (unfold LONG_MAX; lia).
  split; [exact H1|]. split; [reflexivity|].
  exact (set_month_name_in_any_case env_zero Globals_builtin epoch_1998 TT 0 0.0%float
           1999 "j" "U" "L" "23 at 00:00:00" H1 eq_refl).
Defined.

(* ================================================================== *)
(** * The front end on texts and numbers *)
(* ================================================================== *)

Lemma readform_ok_indep :
  forall c f f',
    fst (readform c f) = 0 ->
    tForm (snd (readform c f)) = tForm (snd (readform c f')) /\
    hexfmt (snd (readform c f)) = hexfmt (snd (readform c f')) /\
    nmday (snd (readform c f)) = nmday (snd (readform c f')).
Proof.
  intros c f f'. unfold readform. cbv zeta.
  repeat match goal with |- context [if is_one_of ?x ?p then _ else _] =>
    destruct (is_one_of x p) end;
    cbn [fst snd tForm hexfmt nmday]; intros H; try discriminate H; repeat split.
Qed.

(** [getinput] with a system and a format code that are accepted. *)
Lemma getinput_six_codes :
  forall env G p a b c d e ts,
    b <> "at" -> b <> "AT" ->
    readsys b MET = (0, ts) ->
    fst (readform c (mkForm SECS 0 0 0)) = 0 ->
    let F := snd (readform c (mkForm SECS 0 0 0)) in
    getinput env G [p; a; b; c; d; e]
    = if reads_as_text a then
        let (G1, T) := XTime_str env G a ts (tForm F) 0 0.0%float in (G1, Some T)
      else
        let t :=
          if negb (hexfmt F =? 0)
          then Z2d (arg_long (scan [Conv_x] a) 0 0)
          else if negb (nmday F =? 0) then
            let r := scan [Conv_d; Lit ":"; Conv_d; Lit ":"; Conv_d; Lit ":"; Conv_lg] a in
            let day := arg_long r 0
                         (if has_char ":" a
                          then arg_long (scan [Conv_d; Lit ":"] a) 0 0 else 0) in
            let h := arg_long r 1 0 in
            let m := arg_long r 2 0 in
            let t := arg_double r 3 (raw_double (indet env)) in
            (t + Z2d (86400 * day + 3600 * h + 60 * m))%float
          else atof a in
        let (G1, T) := XTime_d env G t ts (tForm F) 0 0.0%float in (G1, Some T).
Proof.
  intros env G p a b c d e ts Hat HAT Hsys Hform. cbv zeta.
  apply String.eqb_neq in Hat, HAT.
  unfold getinput, reads_as_text.
  change (Z.of_nat (List.length [p; a; b; c; d; e])) with 6.
  cbv zeta. cbv beta.
  change (6 <? 2) with false. change (6 =? 2) with false. change (4 <=? 6) with true.
  cbv iota.
  change (nth (Z.to_nat 1) [p; a; b; c; d; e] "") with a.
  change (nth (Z.to_nat 2) [p; a; b; c; d; e] "") with b.
  rewrite Hat, HAT. cbn [orb andb].
  set (day := arg_long (scan [Conv_d; Lit ":"] a) 0 0).
  assert (Hf : forall f,
            fst (readform c f) = 0 /\
            tForm (snd (readform c f)) = tForm (snd (readform c (mkForm SECS 0 0 0))) /\
            hexfmt (snd (readform c f)) = hexfmt (snd (readform c (mkForm SECS 0 0 0))) /\
            nmday (snd (readform c f)) = nmday (snd (readform c (mkForm SECS 0 0 0)))).
  { intros f. rewrite (readform_quit_indep c f (mkForm SECS 0 0 0)).
    split; [exact Hform|].
    apply readform_ok_indep. rewrite (readform_quit_indep c f (mkForm SECS 0 0 0)).
    exact Hform. }
  destruct (Ascii.eqb (char_at a 4) "-" && Ascii.eqb (char_at a 7) "-")%bool;
    [ | destruct (has_char ":" a);
        [ destruct ((day <? 1900) && (366 <? day))%bool | ] ];
    cbn [orb andb negb]; cbv iota beta;
    change (2 <? 6) with true; change (2 + 1 <? 6) with true;
    change (2 + 4 <? 6) with false; cbv iota;
    change (nth (Z.to_nat 2) [p; a; b; c; d; e] "") with b;
    change (nth (Z.to_nat (2 + 1)) [p; a; b; c; d; e] "") with c;
    rewrite Hsys; cbn [Z.eqb]; cbv iota;
    match goal with
    | |- context [readform c ?f] =>
        destruct (Hf f) as (H0 & H1 & H2 & H3);
        destruct (readform c f) as [e2 f2]
    end;
    cbn [fst snd] in H0, H1, H2, H3; subst e2;
    cbn [Z.eqb negb hexfmt nmday dec tForm]; cbv iota;
    rewrite ?H1, ?H2, ?H3; reflexivity.
Qed.

(** X7. Whether [getinput] hands a value to [set (const char*, ...)] or
    reads it as a number is decided by the shape of the value alone; the
    codes decide the system and the format.  For a value of at least four
    characters (seven, if the fifth is '-'), so that the two characters
    [getinput] looks at belong to it, and without the letter x; with a
    system code (not "at") and a format code that are accepted: a value of
    the shape of a date, shorter than the buffer of 256 characters it is
    copied to, is passed as text with the format of the code; any other
    value, for a code without the hexadecimal or the day:h:m:s flag, is read
    by [atof] and passed as a number. *)
Theorem getinput_text_or_number :
  forall env G p a b c d e ts,
    b <> "at" -> b <> "AT" ->
    shape_read_in_bounds a = true -> no_hex a = true ->
    readsys b MET = (0, ts) ->
    fst (readform c (mkForm SECS 0 0 0)) = 0 ->
    let F := snd (readform c (mkForm SECS 0 0 0)) in
    (reads_as_text a = true -> (String.length a < 256)%nat ->
     getinput env G [p; a; b; c; d; e]
     = (fst (XTime_str env G a ts (tForm F) 0 0.0%float),
        Some (snd (XTime_str env G a ts (tForm F) 0 0.0%float)))) /\
    (reads_as_text a = false -> hexfmt F = 0 -> nmday F = 0 ->
     getinput env G [p; a; b; c; d; e]
     = (fst (XTime_d env G (atof a) ts (tForm F) 0 0.0%float),
        Some (snd (XTime_d env G (atof a) ts (tForm F) 0 0.0%float)))).
Proof.
  intros env G p a b c d e ts Hat HAT _ _ Hsys Hform F.
  pose proof (getinput_six_codes env G p a b c d e ts Hat HAT Hsys Hform) as H.
  cbv zeta in H. fold F in H. split.
  - intros Ht _. rewrite H, Ht.
    destruct (XTime_str env G a ts (tForm F) 0 0.0%float). reflexivity.
  - intros Ht Hh Hn. rewrite H, Ht, Hh, Hn. cbn [Z.eqb negb].
    destruct (XTime_d env G (atof a) ts (tForm F) 0 0.0%float). reflexivity.
Qed.

Lemma getinput_text_or_number_witness :
  ("tt" <> "at" /\ "tt" <> "AT" /\
   shape_read_in_bounds "49161360.0" = true /\ no_hex "49161360.0" = true /\
   reads_as_text "49161360.0" = false /\
   getinput env_zero Globals0 ["convert_time"; "49161360.0"; "tt"; "s"; "utc"; "d"]
   = (fst (XTime_d env_zero Globals0 49161360.0%float TT SECS 0 0.0%float),
      Some (snd (XTime_d env_zero Globals0 49161360.0%float TT SECS 0 0.0%float)))) /\
  ("utc" <> "at" /\ "utc" <> "AT" /\
   shape_read_in_bounds "1999:204:23:54:56" = true /\
   no_hex "1999:204:23:54:56" = true /\
   reads_as_text "1999:204:23:54:56" = true /\
   (String.length "1999:204:23:54:56" < 256)%nat /\
   getinput env_zero Globals0 ["convert_time"; "1999:204:23:54:56"; "utc"; "d"; "tt"; "s"]
   = (fst (XTime_str env_zero Globals0 "1999:204:23:54:56" UTC DATE 0 0.0%float),
      Some (snd (XTime_str env_zero Globals0 "1999:204:23:54:56" UTC DATE 0 0.0%float)))).
Proof.
  split.
  - split; [discriminate|]. split; [discriminate|].
    split; [reflexivity|]. split; [reflexivity|].
    assert (Ht : reads_as_text "49161360.0" = false) by reflexivity.
    split; [exact Ht|].
    exact (proj2 (getinput_text_or_number env_zero Globals0 "convert_time" "49161360.0"
                    "tt" "s" "utc" "d" TT ltac:(discriminate) ltac:(discriminate)
                    eq_refl eq_refl eq_refl eq_refl)
                 Ht eq_refl eq_refl).
  - split; [discriminate|]. split; [discriminate|].
    split; [reflexivity|]. split; [reflexivity|].
    assert (Ht : reads_as_text "1999:204:23:54:56" = true) by reflexivity.
    split; [exact Ht|].
    assert (Hl : (String.length "1999:204:23:54:56" < 256)%nat) by (cbn; lia).
    split; [exact Hl|].
    exact (proj1 (getinput_text_or_number env_zero Globals0 "convert_time"
                    "1999:204:23:54:56" "utc" "d" "tt" "s" UTC
                    ltac:(discriminate) ltac:(discriminate)
                    eq_refl eq_refl eq_refl eq_refl)
                 Ht Hl).
Defined.

Lemma char_at_append :
  forall p c t, char_at (p ++ String c t) (String.length p) = c.
Proof.
  unfold char_at. induction p as [|x p IH]; intros c t; [reflexivity|].
  cbn [String.append String.length String.get]. apply IH.
Qed.

Lemma has_char_append_r :
  forall c a b, has_char c b = true -> has_char c (a ++ b) = true.
Proof.
  intros c a b H. induction a as [|x a IH]; [exact H|].
  cbn [String.append has_char]. rewrite IH. apply orb_true_r.
Qed.

(** Each of the three texts has the shape of a date. *)
Lemma reads_as_text_date_text :
  forall tf y m d,
    is_date_form tf = true ->
    1972 <= y <= 9999 -> 1 <= m <= 12 -> 1 <= d <= days_in_month y m ->
    reads_as_text (date_text tf y m d) = true.
Proof.
  intros tf y m d Htf Hy Hm Hd. unfold reads_as_text.
  assert (Hc : forall zf rest, no_digit_ahead rest ->
            arg_long (scan [Conv_d; Lit ":"] (fmt_d zf 4 y ++ rest)) 0 0 = y).
  { intros zf rest Hr.
    rewrite scan_Conv_d_fmt_d by (try (unfold INT_MAX; lia); exact Hr). reflexivity. }
  assert (H4 : forall zf c t, char_at (fmt_d zf 4 y ++ String c t) 4 = c).
  { intros zf c t.
    rewrite <- (length_fmt_d zf 4 y ltac:(lia) ltac:(cbn; lia)) at 2.
    apply char_at_append. }
  assert (Hy' : ((y <? 1900) && (366 <? y))%bool = false).
  { assert (E : (y <? 1900) = false) by (apply Z.ltb_ge; lia). rewrite E. reflexivity. }
  destruct tf; try discriminate Htf; cbn [date_text].
  - (* DATE *)
    unfold midnight. cbn [String.append].
    rewrite H4, Hc by (apply no_digit_ahead_head; reflexivity).
    rewrite Hy'. cbn [Ascii.eqb Bool.eqb andb orb negb].
    rewrite has_char_append_r by reflexivity. reflexivity.
  - (* CALDATE *)
    assert (Hn : exists c1 c2 c3,
               nth (Z.to_nat (m - 1)) month "" = String c1 (String c2 (String c3 ""))
               /\ isdigit c1 = false /\ Ascii.eqb c1 "-" = false).
    { month_cases m; eval_index; unfold month; cbn [nth];
        eexists; eexists; eexists; (split; [reflexivity|]); split; reflexivity. }
    destruct Hn as (c1 & c2 & c3 & -> & Hd1 & Hm1).
    cbn [String.append].
    rewrite H4, Hc by (apply no_digit_ahead_head; exact Hd1).
    rewrite Hy', Hm1. cbn [andb orb negb].
    rewrite has_char_append_r; [reflexivity|].
    cbn [has_char]. rewrite has_char_append_r by reflexivity.
    rewrite !orb_true_r. reflexivity.
  - (* FITS *)
    cbn [String.append]. rewrite H4.
    replace (fmt_d true 4 y ++ String "-" (fmt_d true 2 m ++ String "-" (fmt_d true 2 d ++ "T00:00:00")))
      with ((fmt_d true 4 y ++ "-" ++ fmt_d true 2 m)
            ++ String "-" (fmt_d true 2 d ++ "T00:00:00"))
      by (repeat (rewrite append_assoc; cbn [String.append]); reflexivity).
    replace 7%nat with (String.length (fmt_d true 4 y ++ "-" ++ fmt_d true 2 m)).
    + rewrite char_at_append. reflexivity.
    + rewrite length_append. cbn [String.append String.length].
      rewrite !length_fmt_d by (cbn; lia). reflexivity.
Qed.

Lemma readform_form_code :
  forall tf f, is_date_form tf = true ->
    readform (form_code tf) f = (0, mkForm tf 0 0 0).
Proof. intros tf f H. destruct tf; try discriminate H; reflexivity. Qed.

(** X8. Through the front end: with time system "tt" on both sides and
    the code letters d, c and f, [axTime3] turns the text of midnight of a
    day in one date form into the text of the same day in another, for every
    calendar day from 1972 to 9999. *)
Theorem axTime3_converts_date_forms :
  forall env G tf_in tf_out y m d,
    months_ok G ->
    is_date_form tf_in = true -> is_date_form tf_out = true ->
    1972 <= y <= 9999 -> 1 <= m <= 12 -> 1 <= d <= days_in_month y m ->
    time_out (axTime3 env G (date_text tf_in y m d) "tt" (form_code tf_in)
                      "tt" (form_code tf_out))
    = Some (date_text tf_out y m d).
Proof.
  intros env G tf_in tf_out y m d HG Hin Hout Hy Hm Hd. unfold axTime3.
  pose proof (getinput_six_codes env G "convert_time" (date_text tf_in y m d) "tt"
                (form_code tf_in) "tt" (form_code tf_out) TT
                ltac:(discriminate) ltac:(discriminate) eq_refl) as Hg.
  rewrite (readform_form_code tf_in _ Hin) in Hg. specialize (Hg eq_refl).
  cbv zeta in Hg. cbn [snd tForm] in Hg.
  rewrite (reads_as_text_date_text tf_in y m d Hin Hy Hm Hd) in Hg.
  rewrite Hg.
  destruct (XTime_str_date_text env G tf_in y m d HG Hin Hy Hm Hd) as (H1 & H2 & H3).
  destruct (XTime_str env G (date_text tf_in y m d) TT tf_in 0 0.0%float) as [G1 T].
  cbn [fst snd] in H1, H2, H3.
  change (readsys "tt" (raw_sys (indet env))) with (0, TT).
  rewrite (readform_form_code tf_out _ Hout).
  cbn [Z.eqb negb tForm dec].
  pose proof (getDate_date_text env G1 T tf_out y m d H1 Hout Hy Hm Hd H2 H3) as Hshow.
  destruct (getDate env G1 T TT tf_out 0) as [[G2 s]|]; [|discriminate Hshow].
  cbn [option_map snd] in Hshow.
  destruct tf_out; try discriminate Hout; exact Hshow.
Qed.

Lemma axTime3_converts_date_forms_witness :
  months_ok Globals0 /\
  is_date_form CALDATE = true /\ is_date_form DATE = true /\
  1972 <= 1999 <= 9999 /\ 1 <= 7 <= 12 /\ 1 <= 23 <= days_in_month 1999 7 /\
  time_out (axTime3 env_zero Globals0 "1999Jul23 at 00:00:00" "tt" "c" "tt" "d")
  = Some "1999:204:00:00:00".
Proof.
  assert (H0 : months_ok Globals0) by (exists 28; reflexivity).
  assert (H1 : 1 <= 23 <= days_in_month 1999 7) by (vm_compute; split; discriminate).
  repeat (split; [first [exact H0 | exact H1 | reflexivity | lia]|]).
  exact (axTime3_converts_date_forms env_zero Globals0 CALDATE DATE 1999 7 23
           H0 eq_refl eq_refl ltac:(lia) ltac:(lia) H1).
Defined.

(* ================================================================== *)
(** * Lists of ranges *)
(* ================================================================== *)

Lemma skipn_nth_error :
  forall A (a : list A) n r,
    nth_error a n = Some r -> skipn n a = r :: skipn (S n) a.
Proof.
  induction a as [|h a IH]; intros [|n] r H; cbn in H; try discriminate.
  - injection H as ->. reflexivity.
  - cbn [skipn]. rewrite (IH n r H). reflexivity.
Qed.

Lemma elem_in_bounds :
  forall a i, 0 <= i < Z.of_nat (List.length a) ->
    exists r, XTRList.elem a i = Some r /\
      skipn (Z.to_nat i) a = r :: skipn (Z.to_nat (i + 1)) a.
Proof.
  intros a i Hi. unfold XTRList.elem.
  assert (E : (i <? 0) = false) by (apply Z.ltb_ge; lia). rewrite E.
  destruct (nth_error a (Z.to_nat i)) as [r|] eqn:En.
  - exists r. split; [reflexivity|].
    replace (Z.to_nat (i + 1)) with (S (Z.to_nat i)) by lia.
    apply skipn_nth_error. exact En.
  - apply nth_error_None in En. lia.
Qed.

Lemma first_in_spec :
  forall l t fuel i,
    0 <= i -> i + Z.of_nat fuel <= Z.of_nat (List.length (XTRList.tr l)) ->
    exists p,
      XTRList.first_in fuel l t i = Some p /\
      match p with
      | XTRList.NULL =>
          forall j r, i <= j < i + Z.of_nat fuel ->
            XTRList.elem (XTRList.tr l) j = Some r -> isInRange r t <> 0
      | XTRList.Elem k =>
          i <= k < i + Z.of_nat fuel /\
          exists r, XTRList.elem (XTRList.tr l) k = Some r /\ isInRange r t = 0 /\
            forall j r', i <= j < k ->
              XTRList.elem (XTRList.tr l) j = Some r' -> isInRange r' t <> 0
      end.
Proof.
  intros l t. induction fuel as [|fuel IH]; intros i Hi Hb.
  - exists XTRList.NULL. split; [reflexivity|]. intros j r Hj. lia.
  - cbn [XTRList.first_in].
    destruct (elem_in_bounds (XTRList.tr l) i ltac:(lia)) as (r & Hr & _).
    rewrite Hr. destruct (isInRange r t =? 0) eqn:E.
    + apply Z.eqb_eq in E. exists (XTRList.Elem i). split; [reflexivity|].
      split; [lia|]. exists r. split; [exact Hr|]. split; [exact E|].
      intros j r' Hj. lia.
    + apply Z.eqb_neq in E.
      destruct (IH (i + 1) ltac:(lia) ltac:(lia)) as (p & Hp & Hs).
      exists p. split; [exact Hp|]. destruct p as [|k].
      * intros j r' Hj Hr'. destruct (Z.eq_dec j i) as [-> | Hne].
        -- rewrite Hr in Hr'. injection Hr' as <-. exact E.
        -- apply (Hs j r'); [lia | exact Hr'].
      * destruct Hs as (Hk & r' & Hr' & H0 & Hbefore).
        split; [lia|]. exists r'. split; [exact Hr'|]. split; [exact H0|].
        intros j r'' Hj Hr''. destruct (Z.eq_dec j i) as [-> | Hne].
        -- rewrite Hr in Hr''. injection Hr'' as <-. exact E.
        -- apply (Hbefore j r''); [lia | exact Hr''].
Qed.

(** A range answers 0 only for an instant between its ends, and only if
    it is not empty. *)
Lemma isInRange_0 :
  forall r t, isInRange r t = 0 ->
    empty r = 0 /\ (t <? METStart r)%float = false /\ (METStop r <? t)%float = false.
Proof.
  intros r t. unfold isInRange, METStart, METStop.
  destruct (t <? getMET (start r))%float; [discriminate|].
  destruct (getMET (stop r) <? t)%float; [discriminate|].
  destruct (empty r =? 0) eqn:E; cbn [negb]; [|discriminate].
  intros _. apply Z.eqb_eq in E. auto.
Qed.

(** X23. [getRange] returns the first range of the list that holds the
    instant, and a null pointer if there is none; the range returned is not
    empty and the instant lies neither before its start nor after its stop;
    [isInRange] answers 0 in the first case and 1 in the second. *)
Theorem XTRList_getRange_first_match :
  forall l t,
    holds_members l ->
    exists p,
      XTRList.getRange l t = Some p /\
      XTRList.isInRange l t = Some (match p with XTRList.NULL => 1 | XTRList.Elem _ => 0 end) /\
      match p with
      | XTRList.NULL =>
          forall j r, 0 <= j < XTRList.numXTRs l ->
            XTRList.elem (XTRList.tr l) j = Some r -> isInRange r t <> 0
      | XTRList.Elem k =>
          XTRList.getRange_i l k = XTRList.Elem k /\
          exists r, XTRList.elem (XTRList.tr l) k = Some r /\
            isEmpty r = 0 /\
            (t <? METStart r)%float = false /\ (METStop r <? t)%float = false /\
            forall j r', 0 <= j < k ->
              XTRList.elem (XTRList.tr l) j = Some r' -> isInRange r' t <> 0
      end.
Proof.
  intros l t [H0 Hn]. unfold XTRList.getRange, XTRList.isInRange.
  destruct (first_in_spec l t (Z.to_nat (XTRList.numXTRs l)) 0 ltac:(lia) ltac:(lia))
    as (p & Hp & Hs).
  rewrite Hp. exists p. split; [reflexivity|]. split; [destruct p; reflexivity|].
  destruct p as [|k].
  - intros j r Hj. apply Hs. lia.
  - destruct Hs as (Hk & r & Hr & Hz & Hbefore).
    split.
    + unfold XTRList.getRange_i.
      assert (E1 : (0 <=? k) = true) by (apply Z.leb_le; lia).
      assert (E2 : (k <? XTRList.numXTRs l) = true) by (apply Z.ltb_lt; lia).
      rewrite E1, E2. reflexivity.
    + exists r. split; [exact Hr|].
      destruct (isInRange_0 r t Hz) as (He & Ha & Hb).
      split; [exact He|]. split; [exact Ha|]. split; [exact Hb|].
      intros j r' Hj. apply Hbefore. lia.
Qed.

Lemma XTRList_getRange_first_match_witness :
  holds_members (list_of_range 100.0%float 200.0%float) /\
  exists p,
    XTRList.getRange (list_of_range 100.0%float 200.0%float) 150.0%float = Some p /\
    XTRList.isInRange (list_of_range 100.0%float 200.0%float) 150.0%float
    = Some (match p with XTRList.NULL => 1 | XTRList.Elem _ => 0 end).
Proof.
  assert (H : holds_members (list_of_range 100.0%float 200.0%float))
    by (unfold holds_members; cbn; lia).
  split; [exact H|].
  destruct (XTRList_getRange_first_match (list_of_range 100.0%float 200.0%float)
              150.0%float H) as (p & Hg & Hi & _).
  exists p. split; [exact Hg | exact Hi].
Defined.

Lemma count_empty_spec :
  forall l fuel i acc,
    0 <= i -> i + Z.of_nat fuel <= Z.of_nat (List.length (XTRList.tr l)) ->
    XTRList.count_empty fuel l i acc
    = Some (acc + Z.of_nat (List.length
                (filter (fun r => negb (not_empty r))
                        (firstn fuel (skipn (Z.to_nat i) (XTRList.tr l)))))).
Proof.
  intros l. induction fuel as [|fuel IH]; intros i acc Hi Hb.
  - cbn [XTRList.count_empty firstn filter List.length Z.of_nat].
    rewrite Z.add_0_r. reflexivity.
  - cbn [XTRList.count_empty].
    destruct (elem_in_bounds (XTRList.tr l) i ltac:(lia)) as (r & Hr & Hs).
    rewrite Hr, Hs. cbn [firstn filter]. rewrite IH by lia.
    unfold not_empty. destruct (isEmpty r =? 0); cbn [negb List.length].
    + reflexivity.
    + rewrite Nat2Z.inj_succ. f_equal. lia.
Qed.

Lemma length_new_XTimeRanges :
  forall n env G, List.length (snd (new_XTimeRanges n env G)) = n.
Proof.
  induction n as [|n IH]; intros env G; cbn [new_XTimeRanges]; [reflexivity|].
  destruct (XTimeRange_void env G) as [G1 r].
  specialize (IH env G1). destruct (new_XTimeRanges n env G1) as [G2 rs].
  cbn [snd List.length] in *. rewrite IH. reflexivity.
Qed.

Lemma filter_split_length :
  forall A (f : A -> bool) (a : list A),
    (List.length (filter f a) + List.length (filter (fun x => negb (f x)) a)
     = List.length a)%nat.
Proof.
  induction a as [|h a IH]; [reflexivity|]. cbn [filter].
  destruct (f h); cbn [negb List.length]; lia.
Qed.

Lemma filter_all :
  forall A (f : A -> bool) (a : list A),
    List.length (filter (fun x => negb (f x)) a) = O -> filter f a = a.
Proof.
  induction a as [|h a IH]; [reflexivity|]. cbn [filter].
  destruct (f h); cbn [negb List.length]; [|discriminate].
  intros H. rewrite IH by exact H. reflexivity.
Qed.

(** The copying loop writes the ranges that are not empty, in their order,
    from [newXTR[j]] on. *)
Lemma copy_kept_spec :
  forall l fuel i j a,
    0 <= i -> i + Z.of_nat fuel <= Z.of_nat (List.length (XTRList.tr l)) ->
    0 <= j ->
    let kept := filter not_empty (firstn fuel (skipn (Z.to_nat i) (XTRList.tr l))) in
    j + Z.of_nat (List.length kept) <= Z.of_nat (List.length a) ->
    exists a',
      XTRList.copy_kept fuel l i j a = Some a' /\
      List.length a' = List.length a /\
      (forall k, (k < Z.to_nat j)%nat -> nth_error a' k = nth_error a k) /\
      (forall k, (k < List.length kept)%nat ->
         nth_error a' (Z.to_nat j + k) = nth_error kept k).
Proof.
  intros l. induction fuel as [|fuel IH]; intros i j a Hi Hb Hj; cbv zeta.
  - cbn [XTRList.copy_kept firstn filter List.length]. intros _.
    exists a. split; [reflexivity|]. split; [reflexivity|].
    split; [reflexivity | intros k Hk; lia].
  - cbn [XTRList.copy_kept].
    destruct (elem_in_bounds (XTRList.tr l) i ltac:(lia)) as (r & Hr & Hs).
    rewrite Hr, Hs. cbn [firstn filter].
    change (not_empty r) with (isEmpty r =? 0).
    destruct (isEmpty r =? 0) eqn:E.
    + cbn [List.length]. rewrite Nat2Z.inj_succ. intros Hlen.
      unfold XTRList.store.
      assert (E1 : (0 <=? j) = true) by (apply Z.leb_le; lia).
      assert (E2 : (j <? Z.of_nat (List.length a)) = true) by (apply Z.ltb_lt; lia).
      rewrite E1, E2. cbn [andb].
      destruct (IH (i + 1) (j + 1) (aset a j r) ltac:(lia) ltac:(lia) ltac:(lia))
        as (a' & Ha' & Hl & Hlow & Hup).
      { cbv zeta. rewrite length_aset. lia. }
      exists a'. split; [exact Ha'|].
      rewrite length_aset in Hl. split; [exact Hl|].
      assert (Hset : forall k, nth_error (aset a j r) k
                       = if Nat.eqb k (Z.to_nat j) then Some r else nth_error a k).
      { intros k. unfold aset.
        assert (E0 : (j <? 0) = false) by (apply Z.ltb_ge; lia). rewrite E0.
        assert (Hjl : (Z.to_nat j < List.length a)%nat) by lia.
        clear - Hjl. revert k Hjl. generalize (Z.to_nat j) as n.
        induction a as [|h a IHa]; intros n k Hn; cbn [List.length] in Hn; [lia|].
        destruct n as [|n]; destruct k as [|k]; cbn [list_set nth_error Nat.eqb];
          try reflexivity.
        apply IHa. lia. }
      split.
      * intros k Hk. rewrite Hlow by lia. rewrite Hset.
        assert (En : Nat.eqb k (Z.to_nat j) = false) by (apply Nat.eqb_neq; lia).
        rewrite En. reflexivity.
      * intros [|k] Hk.
        -- rewrite Nat.add_0_r, Hlow by lia. rewrite Hset, Nat.eqb_refl. reflexivity.
        -- cbn [nth_error].
           replace (Z.to_nat j + S k)%nat with (Z.to_nat (j + 1) + k)%nat by lia.
           apply Hup. lia.
    + intros Hlen.
      destruct (IH (i + 1) j a ltac:(lia) ltac:(lia) Hj Hlen)
        as (a' & Ha' & Hl & Hlow & Hup).
      exists a'. auto.
Qed.

Lemma nth_error_ext_eq :
  forall A (a b : list A),
    List.length a = List.length b ->
    (forall k, (k < List.length b)%nat -> nth_error a k = nth_error b k) -> a = b.
Proof.
  induction a as [|h a IH]; intros [|h' b] Hl H; cbn [List.length] in Hl;
    try discriminate; [reflexivity|].
  pose proof (H O ltac:(cbn; lia)) as H0. cbn in H0. injection H0 as ->.
  f_equal. apply IH; [lia|].
  intros k Hk. apply (H (S k)). cbn. lia.
Qed.

Lemma elem_first_last :
  forall a n, 1 <= n <= Z.of_nat (List.length a) ->
    exists r0 r1, XTRList.elem a 0 = Some r0 /\ XTRList.elem a (n - 1) = Some r1.
Proof.
  intros a n Hn.
  destruct (elem_in_bounds a 0 ltac:(lia)) as (r0 & H0 & _).
  destruct (elem_in_bounds a (n - 1) ltac:(lia)) as (r1 & H1 & _).
  exists r0, r1. auto.
Qed.

(** What [setListRange] returns for a list of at least one range. *)
Lemma setListRange_spec :
  forall env G l,
    1 <= XTRList.numXTRs l <= Z.of_nat (List.length (XTRList.tr l)) ->
    exists G' l',
      XTRList.setListRange env G l = Some (G', l') /\
      members l' = filter not_empty (members l) /\
      XTRList.numXTRs l' = Z.of_nat (List.length (members l')) /\
      XTRList.empty l' = (if XTRList.numXTRs l' =? 0 then 1 else 0) /\
      holds_members l'.
Proof.
  intros env G l Hn. unfold XTRList.setListRange.
  rewrite count_empty_spec by lia.
  change (skipn (Z.to_nat 0) (XTRList.tr l)) with (XTRList.tr l).
  fold (members l).
  pose proof (filter_split_length _ not_empty (members l)) as Hsplit.
  assert (Hml : List.length (members l) = Z.to_nat (XTRList.numXTRs l)).
  { unfold members. rewrite length_firstn. lia. }
  set (rm := List.length (filter (fun r => negb (not_empty r)) (members l))) in *.
  set (kept := filter not_empty (members l)) in *.
  rewrite Z.add_0_l.
  assert (En : (XTRList.numXTRs l =? 0) = false) by (apply Z.eqb_neq; lia).
  rewrite En. cbn [negb].
  destruct (Z.of_nat rm =? 0) eqn:Erm; cbn [negb].
  - (* nothing to remove *)
    apply Z.eqb_eq in Erm.
    assert (Hk : kept = members l) by (apply filter_all; fold rm; lia).
    cbn [Z.eqb].
    destruct (elem_first_last (XTRList.tr l) (XTRList.numXTRs l) Hn)
      as (r0 & r1 & H0 & H1).
    rewrite H0, H1.
    destruct (resetRange_d env G (XTRList.listRange l) (METStart r0) (METStop r1))
      as [G1 lr].
    eexists. eexists. split; [reflexivity|].
    unfold members at 1 2, holds_members.
    cbn [XTRList.numXTRs XTRList.tr XTRList.empty].
    fold (members l). rewrite En.
    split; [symmetry; exact Hk|]. split; [lia|]. split; [reflexivity | lia].
  - apply Z.eqb_neq in Erm.
    destruct (XTRList.numXTRs l <=? Z.of_nat rm) eqn:Eall.
    + (* every range is empty *)
      apply Z.leb_le in Eall.
      assert (Hk : kept = []) by (apply length_zero_iff_nil; lia).
      change (1 =? 0) with false. cbv iota.
      destruct (resetRange_d env G (XTRList.listRange l) 0.0%float (-1.0)%float)
        as [G1 lr].
      eexists. eexists. split; [reflexivity|].
      unfold members at 1 2, holds_members.
      cbn [XTRList.numXTRs XTRList.tr XTRList.empty Z.to_nat firstn List.length
           Z.of_nat Z.eqb].
      split; [symmetry; exact Hk|]. split; [reflexivity|].
      split; [reflexivity | lia].
    + apply Z.leb_gt in Eall.
      pose proof (length_new_XTimeRanges
                    (Z.to_nat (XTRList.numXTRs l - Z.of_nat rm)) env G) as Hnew.
      destruct (new_XTimeRanges (Z.to_nat (XTRList.numXTRs l - Z.of_nat rm)) env G)
        as [G1 fresh].
      cbn [snd] in Hnew.
      assert (Hkl : List.length kept = Z.to_nat (XTRList.numXTRs l - Z.of_nat rm))
        by lia.
      destruct (copy_kept_spec l (Z.to_nat (XTRList.numXTRs l)) 0 0 fresh
                  ltac:(lia) ltac:(lia) ltac:(lia)) as (a' & Ha' & Hl & _ & Hup).
      { change (skipn (Z.to_nat 0) (XTRList.tr l)) with (XTRList.tr l).
        fold (members l). fold kept. lia. }
      change (skipn (Z.to_nat 0) (XTRList.tr l)) with (XTRList.tr l) in Hup.
      fold (members l) in Hup. fold kept in Hup.
      assert (Ea : a' = kept).
      { apply nth_error_ext_eq; [lia|]. intros k Hk. exact (Hup k Hk). }
      rewrite Ha'. subst a'. cbn [Z.eqb].
      destruct (elem_first_last kept (XTRList.numXTRs l - Z.of_nat rm) ltac:(lia))
        as (r0 & r1 & H0 & H1).
      rewrite H0, H1.
      destruct (resetRange_d env (delete_XTimeRanges (XTRList.tr l) G1)
                  (XTRList.listRange l) (METStart r0) (METStop r1)) as [G2 lr].
      eexists. eexists. split; [reflexivity|].
      unfold members at 1 2, holds_members.
      cbn [XTRList.numXTRs XTRList.tr XTRList.empty].
      assert (Ez : (XTRList.numXTRs l - Z.of_nat rm =? 0) = false)
        by (apply Z.eqb_neq; lia).
      rewrite Ez, <- Hkl, firstn_all.
      split; [reflexivity|]. split; [lia|]. split; [reflexivity | lia].
Qed.

(** X24. [setListRange] removes the empty ranges: a list of at least one
    range is left with its ranges that are not empty, in their order, so
    that no range of the list is empty afterwards; the flag [empty] is
    raised exactly if none is left; and no element outside the arrays is
    read or written. *)
Theorem setListRange_removes_empty_ranges :
  forall env G l,
    1 <= XTRList.numXTRs l <= Z.of_nat (List.length (XTRList.tr l)) ->
    exists G' l',
      XTRList.setListRange env G l = Some (G', l') /\
      members l' = filter not_empty (members l) /\
      (forall r, In r (members l') -> isEmpty r = 0) /\
      XTRList.numXTRs l' = Z.of_nat (List.length (members l')) /\
      XTRList.empty l' = (if XTRList.numXTRs l' =? 0 then 1 else 0) /\
      holds_members l'.
Proof.
  intros env G l Hn.
  destruct (setListRange_spec env G l Hn) as (G' & l' & Hs & Hm & Hc & He & Hh).
  exists G', l'. split; [exact Hs|]. split; [exact Hm|].
  split; [|split; [exact Hc | split; [exact He | exact Hh]]].
  intros r Hr. rewrite Hm in Hr. apply filter_In in Hr. destruct Hr as (_ & Hr).
  unfold not_empty in Hr. apply Z.eqb_eq. exact Hr.
Qed.

(** Of three ranges the second is empty: the list is left with the first
    and the third. *)
Lemma setListRange_removes_empty_ranges_witness :
  1 <= XTRList.numXTRs list_with_empty_range
    <= Z.of_nat (List.length (XTRList.tr list_with_empty_range)) /\
  members list_with_empty_range
  = [range_of 100.0 200.0; range_of 300.0 300.0; range_of 400.0 500.0] /\
  isEmpty (range_of 300.0 300.0) = 1 /\
  exists G' l',
    XTRList.setListRange env_zero Globals_builtin list_with_empty_range
    = Some (G', l') /\
    members l' = [range_of 100.0 200.0; range_of 400.0 500.0] /\
    XTRList.numXTRs l' = 2 /\ XTRList.empty l' = 0.
Proof.
  assert (H : 1 <= XTRList.numXTRs list_with_empty_range
                <= Z.of_nat (List.length (XTRList.tr list_with_empty_range)))
    by (cbn; lia).
  split; [exact H|]. split; [reflexivity|]. split; [vm_compute; reflexivity|].
  destruct (setListRange_removes_empty_ranges env_zero Globals_builtin
              list_with_empty_range H) as (G' & l' & Hs & Hm & _ & Hc & He & _).
  assert (Hf : filter not_empty (members list_with_empty_range)
               = [range_of 100.0 200.0; range_of 400.0 500.0])
    by (vm_compute; reflexivity).
  rewrite Hf in Hm.
  exists G', l'. split; [exact Hs|]. split; [exact Hm|].
  rewrite Hm in Hc. cbn [List.length Z.of_nat Pos.of_succ_nat Pos.succ] in Hc.
  split; [exact Hc|]. rewrite Hc in He. exact He.
Defined.
